(** * Token Price Oracle: a shallow embedding of the backend and its properties

    The development follows the modules of the TypeScript backend:
    - [JS]            the parts of the JavaScript runtime the code relies on
                      (numbers with NaN and infinities, strings, exceptions,
                      JSON values, the environment of a request);
    - [Mongo]         services/mongodb    (price documents, MongoDBService);
    - [Interpolation] services/interpolation;
    - [Alchemy]       services/alchemy    (upstream price adapter);
    - [TokenUtils]    utils/tokenUtils    (daily grid, batch size);
    - [Worker]        workers/priceHistoryWorker (batching loop);
    - [Redis]         services/redis;
    - [Http], [Cache] the express request and response, middleware/cache;
    - [PriceRoute]    routes/price, composed as in routes/index;
    - [Schedule]      routes/schedule     (in-memory job registry);
    - [Fixtures]      concrete stores, environments and requests;
    then the properties, one module of facts per component.

    Numbers.  A JavaScript [number] is modelled by an extended rational:
    finite values are exact rationals, and the special values +Infinity,
    -Infinity and NaN arise as in IEEE 754 (division by zero, 0/0,
    Infinity - Infinity).  The binary rounding of finite results, overflow
    to an infinity and signed zeros are not modelled: a statement about
    the exact value of an arithmetic result holds of the code only where
    the doubles involved are exact. *)

From Stdlib Require Import ZArith QArith Qround Qabs Lia Lqa Ascii String.
From stdpp Require Import base option list strings gmap pretty.
From Equations Require Import Equations.

Local Open Scope Z_scope.

(* ===================================================================== *)
(** * The JavaScript runtime                                              *)
(* ===================================================================== *)

Module JS.

(** ** Numbers *)

Inductive number : Type :=
| Fin (q : Q)
| PosInf
| NegInf
| NaN.

Definition ofZ (z : Z) : number := Fin (inject_Z z).

(** Equality of numbers up to the representation of the rational. *)
Definition number_eq (a b : number) : Prop :=
  match a, b with
  | Fin x, Fin y => (x == y)%Q
  | PosInf, PosInf | NegInf, NegInf => True
  | _, _ => False
  end.

(** [a] is a finite number in the closed interval [[lo, hi]]. *)
Definition between (lo hi : Q) (a : number) : Prop :=
  match a with
  | Fin x => (lo <= x /\ x <= hi)%Q
  | _ => False
  end.

Definition neg (a : number) : number :=
  match a with
  | Fin x => Fin (- x)
  | PosInf => NegInf
  | NegInf => PosInf
  | NaN => NaN
  end.

Definition add (a b : number) : number :=
  match a, b with
  | NaN, _ | _, NaN => NaN
  | Fin x, Fin y => Fin (x + y)
  | PosInf, NegInf | NegInf, PosInf => NaN
  | PosInf, _ | _, PosInf => PosInf
  | NegInf, _ | _, NegInf => NegInf
  end.

Definition sub (a b : number) : number := add a (neg b).

(** The sign of a rational as a comparison with zero. *)
Definition sgn (x : Q) : comparison := (x ?= 0)%Q.

Definition signed_inf (c : comparison) : number :=
  match c with
  | Gt => PosInf
  | Lt => NegInf
  | Eq => NaN
  end.

Definition flip (c : comparison) : comparison := CompOpp c.

Definition mul (a b : number) : number :=
  match a, b with
  | NaN, _ | _, NaN => NaN
  | Fin x, Fin y => Fin (x * y)
  | Fin x, PosInf | PosInf, Fin x => signed_inf (sgn x)
  | Fin x, NegInf | NegInf, Fin x => signed_inf (flip (sgn x))
  | PosInf, PosInf | NegInf, NegInf => PosInf
  | PosInf, NegInf | NegInf, PosInf => NegInf
  end.

(** Division: a finite value over zero is an infinity of the sign of the
    numerator, and 0/0 is NaN. *)
Definition div (a b : number) : number :=
  match a, b with
  | NaN, _ | _, NaN => NaN
  | Fin x, Fin y =>
      match sgn y with
      | Eq => signed_inf (sgn x)
      | _ => Fin (x / y)
      end
  | Fin _, (PosInf | NegInf) => Fin 0
  | PosInf, Fin y => match sgn y with Lt => NegInf | _ => PosInf end
  | NegInf, Fin y => match sgn y with Lt => PosInf | _ => NegInf end
  | (PosInf | NegInf), (PosInf | NegInf) => NaN
  end.

(** [a <= b] on non-NaN numbers. *)
Definition leb (a b : number) : bool :=
  match a, b with
  | NaN, _ | _, NaN => false
  | NegInf, _ | _, PosInf => true
  | _, NegInf | PosInf, _ => false
  | Fin x, Fin y => Qle_bool x y
  end.

(** Math.max and Math.min return NaN as soon as one argument is NaN. *)
Definition Math_max (a b : number) : number :=
  match a, b with
  | NaN, _ | _, NaN => NaN
  | _, _ => if leb a b then b else a
  end.

Definition Math_min (a b : number) : number :=
  match a, b with
  | NaN, _ | _, NaN => NaN
  | _, _ => if leb a b then a else b
  end.

Definition Math_abs (a : number) : number :=
  match a with
  | Fin x => Fin (Qabs x)
  | PosInf | NegInf => PosInf
  | NaN => NaN
  end.

(** Math.round rounds half up: it is floor(x + 1/2). *)
Definition Math_round (a : number) : number :=
  match a with
  | Fin x => Fin (inject_Z (Qfloor (x + (1 # 2))%Q))
  | _ => a
  end.

(** Math.floor and Math.ceil on finite rationals. *)
Definition Math_floor (x : Q) : Z := Qfloor x.
Definition Math_ceil (x : Q) : Z := Qceiling x.

(** ** Strings: String.prototype.toLowerCase / toUpperCase on ASCII *)

Definition lower_ascii (c : ascii) : ascii :=
  let n := nat_of_ascii c in
  if (65 <=? n)%nat && (n <=? 90)%nat then ascii_of_nat (n + 32) else c.

Definition upper_ascii (c : ascii) : ascii :=
  let n := nat_of_ascii c in
  if (97 <=? n)%nat && (n <=? 122)%nat then ascii_of_nat (n - 32) else c.

Fixpoint toLowerCase (s : string) : string :=
  match s with
  | EmptyString => EmptyString
  | String c r => String (lower_ascii c) (toLowerCase r)
  end.

Fixpoint toUpperCase (s : string) : string :=
  match s with
  | EmptyString => EmptyString
  | String c r => String (upper_ascii c) (toUpperCase r)
  end.

(** Truthiness of a string: only the empty string is falsy. *)
Definition truthy (s : string) : bool :=
  match s with EmptyString => false | _ => true end.

(** ** Exceptions *)

(** The errors that the modelled code can raise or observe. *)
Inductive error : Type :=
| TypeError (msg : string)
| RangeError (msg : string)
| SyntaxError (msg : string)
| AxiosError (status : option Z)      (* None: no response was received *)
| MongoError (code : Z)
| MongooseError (msg : string)
| ValidationError (msg : string)
| Error (msg : string).

(** The outcome of running a piece of code: a value or a thrown error
    (for an async function: a fulfilled or a rejected promise). *)
Inductive completion (A : Type) : Type :=
| Return (a : A)
| Throw (e : error).
Arguments Return {A} a.
Arguments Throw {A} e.

Definition bind {A B} (c : completion A) (k : A -> completion B) : completion B :=
  match c with
  | Return a => k a
  | Throw e => Throw e
  end.

(** [try { c } catch (e) { h e }] *)
Definition try_catch {A} (c : completion A) (h : error -> completion A) : completion A :=
  match c with
  | Return a => Return a
  | Throw e => h e
  end.

(** ** JSON values *)

#[warnings="-register-all"]
Inductive json : Type :=
| JNull
| JBool (b : bool)
| JNum (q : Q)
| JStr (s : string)
| JArr (items : list json)
| JObj (fields : list (string * json)).

(** A number as JSON.stringify renders it and JSON.parse reads it back:
    the rational in lowest terms, and [null] for NaN and the infinities. *)
Definition json_of_number (a : number) : json :=
  match a with
  | Fin x => JNum (Qred x)
  | _ => JNull
  end.

(** Own-property lookup [o\[k\]] in an object literal. *)
Fixpoint assoc (k : string) (fields : list (string * json)) : option json :=
  match fields with
  | [] => None
  | (k', v) :: rest => if String.eqb k' k then Some v else assoc k rest
  end.

(** [{ ...fields, k: v }]: an own property keeps its position and takes
    the new value, a new property is added last. *)
Fixpoint assign (k : string) (v : json) (fields : list (string * json))
  : list (string * json) :=
  match fields with
  | [] => [(k, v)]
  | (k', v') :: rest =>
      if String.eqb k' k then (k', v) :: rest else (k', v') :: assign k v rest
  end.

(** ** The environment of one request: the clock, the built-in parsers
    and the upstream HTTP endpoint. *)

(** The two CoinGecko calls the adapter makes.  [day] stands for the
    [YYYY-MM-DD] part of the ISO rendering of the requested instant: the
    number of whole days since the epoch. *)
Inductive ApiRequest : Type :=
| SimplePrice (coinId : string)
| CoinHistory (coinId : string) (day : Z).

(** What comes back from the network: a response with a status and a body
    ([JStr] holds a body that is not JSON), or nothing (connection
    refused, DNS failure, timeout). *)
Inductive HttpOutcome : Type :=
| HttpResponse (status : Z) (data : json)
| NoResponse.

Record Env : Type := {
  now : Z;                                  (* Date.now(), milliseconds *)
  toISOString : Z -> string;                (* of a valid time value *)
  Date_parse : string -> option Z;          (* time value of new Date(s); None: Invalid Date *)
  JSON_parse : string -> option json;       (* None: SyntaxError *)
  JSON_stringify : json -> string;
  http : ApiRequest -> HttpOutcome;
  uuidv4 : string
}.

(** [new Date().toISOString()] *)
Definition nowIso (env : Env) : string := toISOString env (now env).

End JS.

(** [await]-style sequencing of completions. *)
Notation "'let*' x ':=' c 'in' k" := (JS.bind c (fun x => k))
  (at level 10, x name, c at level 100, k at level 200).

(* ===================================================================== *)
(** * services/mongodb.ts                                                 *)
(* ===================================================================== *)

Module Mongo.
Import JS.

Inductive Source : Type := alchemy | interpolated.

(** IPriceDocument.  [timestamp] is the unix time in seconds and [price]
    a finite number.  (The schema would also store a price of Infinity;
    such a document is not modelled.) *)
Record PriceDoc : Type := {
  token : string;
  network : string;
  date : string;
  timestamp : Z;
  price : Q;
  source : Source
}.

(** Partial<IPriceDocument> as the callers of [createPrice] build it:
    the price is whatever number the caller computed. *)
Record PriceData : Type := {
  pd_token : string;
  pd_network : string;
  pd_date : string;
  pd_timestamp : Z;
  pd_price : number;
  pd_source : Source
}.

(** The state of the MongoDBService singleton together with the state of
    the mongoose connection and the contents of the [prices] collection. *)
Record State : Type := {
  isConnected : bool;        (* MongoDBService.isConnected *)
  readyState : Z;            (* mongoose.connection.readyState *)
  docs : list PriceDoc       (* the collection, in insertion order *)
}.

(** ** The mongoose model [Price]

    Mongoose is not part of the repository.  Its behaviour is taken as
    follows: an operation issued while the connection is ready
    ([readyState = 1]) runs against the collection; an operation issued
    while the connection is not ready is buffered and, the store staying
    unreachable, rejects when the buffering timeout elapses. *)

Definition connection_ready (st : State) : bool := readyState st =? 1.

Definition buffering_timeout : error :=
  MongooseError "Operation buffering timed out after 10000ms".

Definition same_series (tok net : string) (d : PriceDoc) : bool :=
  String.eqb (token d) tok && String.eqb (network d) net.

(** The first document of [l] that is best for [better]: the head of [l]
    after a stable sort. *)
Definition pick (better : PriceDoc -> PriceDoc -> bool)
           (acc : option PriceDoc) (d : PriceDoc) : option PriceDoc :=
  match acc with
  | None => Some d
  | Some a => if better d a then Some d else Some a
  end.

Definition first_by (better : PriceDoc -> PriceDoc -> bool)
           (l : list PriceDoc) : option PriceDoc :=
  fold_left (pick better) l None.

Definition newer (d a : PriceDoc) : bool := timestamp a <? timestamp d.
Definition older (d a : PriceDoc) : bool := timestamp d <? timestamp a.

(** [Price.findOne({ token, network, timestamp })] *)
Definition Price_findOne (st : State) (tok net : string) (ts : Z)
  : completion (option PriceDoc) :=
  if connection_ready st
  then Return (List.find (fun d => same_series tok net d && (timestamp d =? ts)) (docs st))
  else Throw buffering_timeout.

(** [Price.findOne({ ..., timestamp: { $lte: ts } }).sort({ timestamp: -1 })] *)
Definition Price_findOne_lte_desc (st : State) (tok net : string) (ts : Z)
  : completion (option PriceDoc) :=
  if connection_ready st
  then Return (first_by newer
                 (List.filter (fun d => same_series tok net d && (timestamp d <=? ts)) (docs st)))
  else Throw buffering_timeout.

(** [Price.findOne({ ..., timestamp: { $gte: ts } }).sort({ timestamp: 1 })] *)
Definition Price_findOne_gte_asc (st : State) (tok net : string) (ts : Z)
  : completion (option PriceDoc) :=
  if connection_ready st
  then Return (first_by older
                 (List.filter (fun d => same_series tok net d && (ts <=? timestamp d)) (docs st)))
  else Throw buffering_timeout.

(** Insertion of [d] in a list sorted by ascending timestamp, after the
    documents with the same timestamp (a stable sort). *)
Fixpoint insert_sorted (d : PriceDoc) (l : list PriceDoc) : list PriceDoc :=
  match l with
  | [] => [d]
  | x :: r => if timestamp d <? timestamp x then d :: x :: r
              else x :: insert_sorted d r
  end.

Definition sort_asc (l : list PriceDoc) : list PriceDoc :=
  fold_left (fun acc d => insert_sorted d acc) l [].

(** [Price.find({ ..., timestamp: { $gte: lo, $lte: hi } }).sort({ timestamp: 1 })] *)
Definition Price_find_range (st : State) (tok net : string) (lo hi : Z)
  : completion (list PriceDoc) :=
  if connection_ready st
  then Return (sort_asc
                 (List.filter (fun d => same_series tok net d
                                        && (lo <=? timestamp d) && (timestamp d <=? hi))
                              (docs st)))
  else Throw buffering_timeout.

(** The statics method [PriceSchema.statics.findClosestPrices]: a
    [Promise.all] of the two queries. *)
Definition Price_findClosestPrices (st : State) (token network : string) (timestamp : Z)
  : completion (option PriceDoc * option PriceDoc) :=
  let upperToken := toUpperCase token in
  let lowerNetwork := toLowerCase network in
  let* before := Price_findOne_lte_desc st upperToken lowerNetwork timestamp in
  let* after := Price_findOne_gte_asc st upperToken lowerNetwork timestamp in
  Return (before, after).

(** [new Price(priceData).save()]: the schema setters (uppercase token,
    lowercase network) and validators (price at least 0) run, then the
    document is inserted under the unique index on
    (token, network, timestamp).  The [trim] setter and the [required]
    checks are left out (the callers pass every field, without
    surrounding blanks), and a price of Infinity is refused here where
    the schema would accept it. *)
Definition schema_cast (d : PriceData) : option PriceDoc :=
  match pd_price d with
  | Fin p =>
      Some {| token := toUpperCase (pd_token d);
              network := toLowerCase (pd_network d);
              date := pd_date d;
              timestamp := pd_timestamp d;
              price := p;
              source := pd_source d |}
  | _ => None
  end.

Definition duplicate_key (l : list PriceDoc) (d : PriceDoc) : bool :=
  existsb (fun x => same_series (token d) (network d) x
                    && (timestamp x =? timestamp d)) l.

Definition Price_save (st : State) (priceData : PriceData)
  : completion PriceDoc * State :=
  match schema_cast priceData with
  | None => (Throw (ValidationError "Cast to Number failed for path price"), st)
  | Some d =>
      if negb (Qle_bool 0 (price d))
      then (Throw (ValidationError "Path price is less than minimum allowed value (0)."), st)
      else if negb (connection_ready st) then (Throw buffering_timeout, st)
      else if duplicate_key (docs st) d then (Throw (MongoError 11000), st)
      else (Return d, {| isConnected := isConnected st;
                         readyState := readyState st;
                         docs := docs st ++ [d] |})
  end.

(** ** class MongoDBService *)

Definition isReady (st : State) : bool :=
  isConnected st && (readyState st =? 1).

Definition createPrice (st : State) (priceData : PriceData)
  : completion PriceDoc * State :=
  match Price_save st priceData with
  | (Return d, st') => (Return d, st')
  | (Throw error, st') =>
      match error with
      | MongoError 11000 =>
          (Throw (Error "Price data already exists for this timestamp"), st')
      | _ => (Throw error, st')
      end
  end.

Definition findPriceByTimestamp (st : State) (token network : string) (timestamp : Z)
  : completion (option PriceDoc) :=
  if negb (isReady st) then Return None
  else try_catch
         (Price_findOne st (toUpperCase token) (toLowerCase network) timestamp)
         (fun _ => Return None).

Definition findClosestPrices (st : State) (token network : string) (timestamp : Z)
  : completion (option PriceDoc * option PriceDoc) :=
  if negb (isReady st) then Return (None, None)
  else try_catch
         (Price_findClosestPrices st token network timestamp)
         (fun _ => Return (None, None)).

(** [startDate] and [endDate] are the time values (milliseconds) of the two
    [Date] arguments. *)
Definition getPriceHistory (st : State) (token network : string) (startDate endDate : Z)
  : completion (list PriceDoc) :=
  Price_find_range st (toUpperCase token) (toLowerCase network)
    (Math_floor (inject_Z startDate / 1000))
    (Math_floor (inject_Z endDate / 1000)).

(** ** The collection as the schema keeps it *)

(** The key of the unique index
    [PriceSchema.index({ token: 1, network: 1, timestamp: 1 }, { unique: true })]. *)
Definition key (d : PriceDoc) : string * string * Z :=
  (token d, network d, timestamp d).

(** What the setters and validators of the schema establish for a stored
    document: uppercase token, lowercase network, price at least 0. *)
Definition normalised (d : PriceDoc) : Prop :=
  token d = toUpperCase (token d)
  /\ network d = toLowerCase (network d)
  /\ (0 <= price d)%Q.

Definition Store_ok (l : list PriceDoc) : Prop :=
  NoDup (map key l) /\ Forall normalised l.

(** The documents of one series, as the queries select them. *)
Definition in_series (st : State) (token network : string) (d : PriceDoc) : Prop :=
  In d (docs st)
  /\ Mongo.token d = toUpperCase token
  /\ Mongo.network d = toLowerCase network.

(** A list of documents in ascending order of timestamp. *)
Fixpoint ascending (l : list PriceDoc) : Prop :=
  match l with
  | [] => True
  | d :: r => Forall (fun x => timestamp d <= timestamp x) r /\ ascending r
  end.

End Mongo.

(* ===================================================================== *)
(** * services/interpolation.ts                                           *)
(* ===================================================================== *)

Module Interpolation.
Import JS.

Record DataPoint : Type := {
  dp_timestamp : Z;
  dp_price : Q;
  timeDiff : Z
}.

(** InterpolationResult; its [source] field is the constant
    ['interpolated'] and both data points are present in every result the
    code builds. *)
Record InterpolationResult : Type := {
  price : number;
  confidence : number;
  before : DataPoint;
  after : DataPoint
}.

Definition calculateInterpolationConfidence
           (queryTs beforeTs afterTs beforePrice afterPrice : number) : number :=
  (* Time gap factor *)
  let totalGap := sub afterTs beforeTs in
  let maxAcceptableGap := ofZ (7 * 24 * 60 * 60) in
  let timeConfidence := Math_max (Fin 0) (sub (Fin 1) (div totalGap maxAcceptableGap)) in
  (* Price stability factor *)
  let priceChange := div (Math_abs (sub afterPrice beforePrice)) beforePrice in
  let maxAcceptableChange := Fin (1 # 2) in
  let stabilityConfidence :=
    Math_max (Fin 0) (sub (Fin 1) (div priceChange maxAcceptableChange)) in
  (* Position factor *)
  let beforeGap := sub queryTs beforeTs in
  let afterGap := sub afterTs queryTs in
  let positionRatio := div (Math_min beforeGap afterGap) (Math_max beforeGap afterGap) in
  let positionConfidence := positionRatio in
  (* Combine factors with weights *)
  let confidence :=
    add (add (mul timeConfidence (Fin (4 # 10)))
             (mul stabilityConfidence (Fin (4 # 10))))
        (mul positionConfidence (Fin (2 # 10))) in
  Math_min (Fin 1) (Math_max (Fin 0) confidence).

(** The three factors of the score, named after the local constants of
    [calculateInterpolationConfidence] that hold them. *)
Definition timeConfidence (beforeTs afterTs : number) : number :=
  Math_max (Fin 0)
    (sub (Fin 1) (div (sub afterTs beforeTs) (ofZ (7 * 24 * 60 * 60)))).

Definition stabilityConfidence (beforePrice afterPrice : number) : number :=
  Math_max (Fin 0)
    (sub (Fin 1)
         (div (div (Math_abs (sub afterPrice beforePrice)) beforePrice)
              (Fin (1 # 2)))).

Definition positionConfidence (queryTs beforeTs afterTs : number) : number :=
  div (Math_min (sub queryTs beforeTs) (sub afterTs queryTs))
      (Math_max (sub queryTs beforeTs) (sub afterTs queryTs)).

Definition interpolatePrice (st : Mongo.State) (token network : string)
           (queryTimestamp : Z) : completion (option InterpolationResult) :=
  try_catch
    (let* closest := Mongo.findClosestPrices st token network queryTimestamp in
     match closest with
     | (None, None) => Return None
     | (None, Some _) | (Some _, None) => Return None
     | (Some beforePrice, Some afterPrice) =>
         let ts1 := Mongo.timestamp beforePrice in
         let ts2 := Mongo.timestamp afterPrice in
         let price1 := Fin (Mongo.price beforePrice) in
         let price2 := Fin (Mongo.price afterPrice) in
         if ts1 =? ts2 then Return None
         else
           let ratio := div (sub (ofZ queryTimestamp) (ofZ ts1))
                            (sub (ofZ ts2) (ofZ ts1)) in
           let interpolatedPrice := add price1 (mul (sub price2 price1) ratio) in
           let confidence :=
             calculateInterpolationConfidence
               (ofZ queryTimestamp) (ofZ ts1) (ofZ ts2) price1 price2 in
           Return (Some
             {| price := div (Math_round (mul interpolatedPrice (Fin 100))) (Fin 100);
                confidence := confidence;
                before := {| dp_timestamp := ts1;
                             dp_price := Mongo.price beforePrice;
                             timeDiff := queryTimestamp - ts1 |};
                after := {| dp_timestamp := ts2;
                            dp_price := Mongo.price afterPrice;
                            timeDiff := ts2 - queryTimestamp |} |})
     end)
    (fun _ => Return None).

(** [batchInterpolatePrice]: one call per timestamp, in order. *)
Fixpoint batchInterpolatePrice (st : Mongo.State) (token network : string)
         (timestamps : list Z) : list (completion (option InterpolationResult)) :=
  match timestamps with
  | [] => []
  | timestamp :: rest =>
      interpolatePrice st token network timestamp
      :: batchInterpolatePrice st token network rest
  end.

End Interpolation.


(* ===================================================================== *)
(** * services/alchemy.ts                                                 *)
(* ===================================================================== *)

Module Alchemy.
Import JS.

(** NetworkType, the keys of [networkMap]. *)
Definition supportedNetworks : list string :=
  ["ethereum"; "polygon"; "arbitrum"; "optimism"; "base"].

Definition getSupportedNetworks : list string := supportedNetworks.

(** AlchemyPriceData *)
Record AlchemyPriceData : Type := {
  price : number;
  timestamp : string
}.

(** The table of CoinGecko identifiers in [fetchRealTokenPrice]. *)
Definition tokenMap : list (string * string) :=
  [("BTC", "bitcoin"); ("ETH", "ethereum"); ("USDC", "usd-coin");
   ("USDT", "tether"); ("MATIC", "matic-network"); ("LINK", "chainlink");
   ("UNI", "uniswap"); ("AAVE", "aave");
   ("COMP", "compound-governance-token"); ("MKR", "maker")].

Fixpoint lookup_coin (k : string) (m : list (string * string)) : option string :=
  match m with
  | [] => None
  | (k', v) :: rest => if String.eqb k' k then Some v else lookup_coin k rest
  end.

(** [axios.get]: the promise rejects when no response arrives and when
    the status is outside 2xx (the default [validateStatus]). *)
Definition axios_get (env : Env) (req : ApiRequest) : completion json :=
  match http env req with
  | HttpResponse status data =>
      if (200 <=? status) && (status <? 300) then Return data
      else Throw (AxiosError (Some status))
  | NoResponse => Throw (AxiosError None)
  end.

(** [data\[k\]]: reading a property of [null] throws, reading one of a
    primitive or of an object without it gives [undefined]. *)
Definition get_prop (data : json) (k : string) : completion (option json) :=
  match data with
  | JNull => Throw (TypeError "Cannot read properties of null")
  | JObj fields => Return (assoc k fields)
  | _ => Return None
  end.

(** [v?.k] *)
Definition opt_chain (v : option json) (k : string) : option json :=
  match v with
  | Some (JObj fields) => assoc k fields
  | _ => None
  end.

Definition isValidTokenAddress_char (c : ascii) : bool :=
  let n := nat_of_ascii c in
  ((48 <=? n) && (n <=? 57) || (65 <=? n) && (n <=? 70)
   || (97 <=? n) && (n <=? 102))%nat.

(** /^0x[a-fA-F0-9]{40}$/ *)
Definition isValidTokenAddress (address : string) : bool :=
  match address with
  | String "0" (String "x" rest) =>
      (String.length rest =? 40)%nat
      && forallb isValidTokenAddress_char (list_ascii_of_string rest)
  | _ => false
  end.

Definition fetchRealTokenPrice (env : Env) (token network timestamp : string)
  : completion (option number) :=
  try_catch
    (match lookup_coin (toUpperCase token) tokenMap with
     | None => Return None
     | Some coinId =>
         let requestTime := Date_parse env timestamp in
         (* hoursDiff is NaN for an invalid date, and NaN <= 24 is false *)
         let recent :=
           match requestTime with
           | Some t => Qle_bool (inject_Z (now env - t) / inject_Z (1000 * 60 * 60)) 24
           | None => false
           end in
         let* apiUrl :=
           (if recent then Return (SimplePrice coinId)
            else match requestTime with
                 | Some t => Return (CoinHistory coinId (t / 86400000))
                 | None => Throw (RangeError "Invalid time value")
                 end) in
         let* data := axios_get env apiUrl in
         let* price :=
           (if recent
            then let* c := get_prop data coinId in Return (opt_chain c "usd")
            else let* m := get_prop data "market_data" in
                 Return (opt_chain (opt_chain m "current_price") "usd")) in
         match price with
         | Some (JNum p) =>
             Return (Some (div (Math_round (mul (Fin p) (Fin 100))) (Fin 100)))
         | _ => Return None
         end
     end)
    (fun _ => Return None).

Definition getTokenPrice (env : Env) (token network timestamp : string)
  : completion (option AlchemyPriceData) :=
  try_catch
    (if negb (existsb (String.eqb network) supportedNetworks) then Return None
     else
       let* realPrice := fetchRealTokenPrice env token network timestamp in
       match realPrice with
       | None => Return None
       | Some p => Return (Some {| price := p; timestamp := timestamp |})
       end)
    (fun _ => Return None).



End Alchemy.

(* ===================================================================== *)
(** * utils/tokenUtils.ts                                                 *)
(* ===================================================================== *)

Module TokenUtils.
Import JS.

(** ** Date objects

    A [Date] holds a time value in milliseconds since the epoch, or NaN
    (Invalid Date).  Time values are confined to +/- 8.64e15 ms: a result
    outside this range is clipped to NaN. *)
Definition msPerDay : Z := 86400000.
Definition maxTime : Z := 8640000000000000.

Definition TimeClip (t : Z) : option Z :=
  if Z.abs t <=? maxTime then Some t else None.

(** The UTC midnight that starts the day of [t]. *)
Definition midnight (t : Z) : Z := t / msPerDay * msPerDay.

(** [d.setUTCHours(0, 0, 0, 0)]: midnight of the same UTC day. *)
Definition setUTCHours0 (d : option Z) : option Z :=
  match d with
  | Some t => TimeClip (midnight t)
  | None => None
  end.

(** [d.setUTCDate(d.getUTCDate() + 1)]: the same time on the next day. *)
Definition nextUTCDate (t : Z) : option Z := TimeClip (t + msPerDay).

(** The loop [while (currentDate <= end) { push; currentDate += 1 day }].
    Each pushed ISO string is represented by the time value it renders.
    A comparison with an Invalid Date is false. *)
Equations? daily_loop (end_ : Z) (currentDate : option Z) : list Z
  by wf (match currentDate with
         | Some t => Z.to_nat ((end_ - t) / msPerDay + 1)
         | None => 0%nat
         end) lt :=
  daily_loop end_ None := [];
  daily_loop end_ (Some t) with Z_le_dec t end_ => {
    | left _ := t :: daily_loop end_ (nextUTCDate t);
    | right _ := [] }.
Proof.
  unfold nextUTCDate, TimeClip, msPerDay.
  assert (0 <= (end_ - t) / 86400000) by (apply Z.div_pos; lia).
  destruct (Z.abs (t + 86400000) <=? maxTime); [|lia].
  replace (end_ - (t + 86400000)) with ((end_ - t) + (-1) * 86400000) by ring.
  rewrite Z.div_add by lia. lia.
Qed.

(** [endDate] is [None] when the optional argument is omitted; an empty
    string is falsy and also selects the current time. *)
Definition endInstant (env : Env) (endDate : option string) : option Z :=
  match endDate with
  | Some e => if truthy e then Date_parse env e else Some (now env)
  | None => Some (now env)
  end.

Definition generateDailyTimestamps (env : Env) (startDate : string)
           (endDate : option string) : list Z :=
  let start := Date_parse env startDate in
  (* endDate ? new Date(endDate) : new Date() *)
  let end_ := endInstant env endDate in
  (* Normalize to UTC midnight *)
  let start := setUTCHours0 start in
  let end_ := setUTCHours0 end_ in
  let currentDate := start in
  match end_ with
  | Some e => daily_loop e currentDate
  | None => []
  end.

(** [totalDays] is an array length, [maxBatchSize] and [minBatchSize]
    default to 100 and 10. *)
Definition calculateOptimalBatchSize (totalDays maxBatchSize minBatchSize : Z) : Z :=
  if totalDays <=? minBatchSize then totalDays
  else if totalDays <=? maxBatchSize then Math_ceil (inject_Z totalDays / 2)
  else Z.max minBatchSize
             (Z.min maxBatchSize (Math_ceil (inject_Z totalDays / 10))).

End TokenUtils.

(* ===================================================================== *)
(** * workers/priceHistoryWorker.ts: the batching loop of step 5          *)
(* ===================================================================== *)

Module Worker.

(** [a.slice(i, j)] for indices within [0, +oo). *)
Definition slice {A} (a : list A) (i j : nat) : list A :=
  take (j - i) (drop i a).

(** The batches visited by
    [for (let i = 0; i < a.length; i += batchSize) a.slice(i, i + batchSize)],
    from index [i] on.  [None]: the loop does not terminate, which happens
    when an iteration is entered with a batch size of 0. *)
Equations? batches_from {A} (a : list A) (batchSize : nat) (i : nat)
  : option (list (list A)) by wf (length a - i)%nat lt :=
  batches_from a batchSize i with lt_dec i (length a) => {
    | right _ := Some [];
    | left _ with batchSize => {
        | O := None;
        | S b := cons (slice a i (i + S b)) <$> batches_from a (S b) (i + S b) } }.
Proof. lia. Qed.

Definition batchSize_of {A} (missingTimestamps : list A) : nat :=
  Z.to_nat (TokenUtils.calculateOptimalBatchSize
              (Z.of_nat (length missingTimestamps)) 100 10).

Definition batches {A} (missingTimestamps : list A) : option (list (list A)) :=
  batches_from missingTimestamps (batchSize_of missingTimestamps) 0.

(** The batch size in the words of the specification:
    clamp(10, ceil(total/10), 100). *)
Definition spec_batch_size (total : Z) : Z :=
  Z.max 10 (Z.min 100 (JS.Math_ceil (inject_Z total / 10))).

(** ** Step 5: fetching the missing prices

    An entry of [fetchedPrices], and an entry of [errors]: the message
    names the timestamp and, for a call that threw, the error.  The clock
    of the environment is read as one instant throughout the loop. *)
Record FetchedPrice : Type := {
  fp_date : string;
  fp_price : JS.number;
  fp_confidence : JS.number
}.

Inductive FetchError : Type :=
| NoPriceData (timestamp : string)                    (* "No price data for ..." *)
| ErrorFetching (timestamp : string) (e : JS.error).  (* "Error fetching price for ...: ..." *)

(** The body of [for (const timestamp of batch)]. *)
Definition fetch_one (env : JS.Env) (token network : string)
           (acc : list FetchedPrice * list FetchError) (timestamp : string)
  : list FetchedPrice * list FetchError :=
  let '(fetchedPrices, errors) := acc in
  match Alchemy.getTokenPrice env token network timestamp with
  | JS.Return (Some priceData) =>
      (* priceData.price !== null holds for every number *)
      (fetchedPrices ++ [{| fp_date := timestamp;
                            fp_price := Alchemy.price priceData;
                            fp_confidence := JS.Fin 1 |}], errors)
  | JS.Return None => (fetchedPrices, errors ++ [NoPriceData timestamp])
  | JS.Throw e => (fetchedPrices, errors ++ [ErrorFetching timestamp e])
  end.

Definition fetch_batch (env : JS.Env) (token network : string)
           (acc : list FetchedPrice * list FetchError) (batch : list string)
  : list FetchedPrice * list FetchError :=
  fold_left (fetch_one env token network) batch acc.

(** The two arrays after the loop over the batches. *)
Definition fetchMissing (env : JS.Env) (token network : string)
           (missingTimestamps : list string)
  : option (list FetchedPrice * list FetchError) :=
  match batches missingTimestamps with
  | Some bs => Some (fold_left (fetch_batch env token network) bs ([], []))
  | None => None
  end.

(** The upstream has a price for the timestamp. *)
Definition priced (env : JS.Env) (token network timestamp : string) : bool :=
  match Alchemy.getTokenPrice env token network timestamp with
  | JS.Return (Some _) => true
  | _ => false
  end.

(** ** Step 6: interpolating what the upstream did not price *)

(** [timestamps.filter(ts => !fetchedPrices.some(fp => fp.date === ts))] *)
Definition unfetched (timestamps : list string) (fetchedPrices : list FetchedPrice)
  : list string :=
  List.filter
    (fun ts => negb (existsb (fun fp => String.eqb (fp_date fp) ts) fetchedPrices))
    timestamps.

(** The results of the sequential [await]s of [batchInterpolatePrice]:
    the first rejection rejects the whole call. *)
Fixpoint awaitAll {A} (l : list (JS.completion A)) : JS.completion (list A) :=
  match l with
  | [] => JS.Return []
  | c :: rest =>
      let* a := c in
      let* others := awaitAll rest in
      JS.Return (a :: others)
  end.

(** The entries step 6 appends to [fetchedPrices].  The targets handed to
    [batchInterpolatePrice] are [new Date(ts).getTime()], time values in
    milliseconds.  The results that are not null are paired by position
    with the head of the target list.  (The sorted list [allPrices] that
    the step also builds is not used afterwards.)  [None]: one of the
    timestamps is not a date, which the timestamps of the grid never
    are. *)
Definition interpolateMissing (env : JS.Env) (st : Mongo.State) (token network : string)
           (timestamps : list string) (fetchedPrices : list FetchedPrice)
           (errors : list FetchError)
  : option (JS.completion (list FetchedPrice)) :=
  if (0 <? length errors)%nat && (0 <? length fetchedPrices)%nat then
    let missingTimestamps := unfetched timestamps fetchedPrices in
    match mapM (JS.Date_parse env) missingTimestamps with
    | None => None
    | Some targets =>
        Some
          (let* interpolatedResults :=
             awaitAll (Interpolation.batchInterpolatePrice st token network targets) in
           let found := omap id interpolatedResults in
           JS.Return
             (zip_with
                (fun result target =>
                   {| fp_date := JS.toISOString env target;
                      fp_price := Interpolation.price result;
                      fp_confidence := Interpolation.confidence result |})
                found targets))
    end
  else Some (JS.Return []).

End Worker.

(* ===================================================================== *)
(** * services/redis.ts                                                   *)
(* ===================================================================== *)

Module Redis.
Import JS.

(** The node-redis client: the keys it holds (an expired key is absent)
    and whether it is open.  A command on a closed client ([responsive]
    false) is rejected at once.  A server that went away while the client
    is still open is not among the states modelled: there a command stays
    pending and the service keeps [isConnected] until the client reports
    the disconnection, so nothing proved here speaks of that case. *)
Record Client : Type := {
  responsive : bool;
  data : gmap string string
}.

Record State : Type := {
  isConnected : bool;
  client : option Client
}.

Definition client_get (c : Client) (key : string) : completion (option string) :=
  if responsive c then Return (data c !! key)
  else Throw (Error "The client is closed").

Definition client_setEx (c : Client) (key value : string)
  : completion Client :=
  if responsive c
  then Return {| responsive := true; data := <[key := value]> (data c) |}
  else Throw (Error "The client is closed").

Definition get (st : State) (key : string) : completion (option string) :=
  try_catch
    (match isConnected st, client st with
     | true, Some c => client_get c key
     | _, _ => Return None
     end)
    (fun _ => Return None).

Definition set (st : State) (key value : string) : completion bool * State :=
  match isConnected st, client st with
  | true, Some c =>
      match client_setEx c key value with
      | Return c' => (Return true, {| isConnected := true; client := Some c' |})
      | Throw _ => (Return false, st)
      end
  | _, _ => (Return false, st)
  end.

Definition isReady (st : State) : bool := isConnected st.

(** [x || d] on strings. *)
Definition or_default (x d : string) : string := if truthy x then x else d.

(** [timestamp] is [None] when the caller passes [undefined]. *)
Definition generateKey (env : Env) (token network : string)
           (timestamp : option string) : string :=
  let safeToken := or_default (toLowerCase token) "unknown" in
  let safeNetwork := or_default (toLowerCase network) "unknown" in
  let safeTimestamp :=
    match timestamp with
    | Some t => or_default t (nowIso env)
    | None => nowIso env
    end in
  "price:" +:+ safeToken +:+ ":" +:+ safeNetwork +:+ ":" +:+ safeTimestamp.

(** ** Deleting, probing and flushing

    [DEL] and [EXISTS] on one key answer the number of keys found. *)
Definition client_del (c : Client) (key : string) : completion (Z * Client) :=
  if responsive c
  then Return (match data c !! key with Some _ => 1 | None => 0 end,
               {| responsive := true; data := delete key (data c) |})
  else Throw (Error "The client is closed").

Definition client_exists (c : Client) (key : string) : completion Z :=
  if responsive c
  then Return (match data c !! key with Some _ => 1 | None => 0 end)
  else Throw (Error "The client is closed").

Definition client_flushDb (c : Client) : completion Client :=
  if responsive c then Return {| responsive := true; data := ∅ |}
  else Throw (Error "The client is closed").

Definition del (st : State) (key : string) : completion bool * State :=
  match isConnected st, client st with
  | true, Some c =>
      match client_del c key with
      | Return (result, c') =>
          (Return (0 <? result), {| isConnected := true; client := Some c' |})
      | Throw _ => (Return false, st)
      end
  | _, _ => (Return false, st)
  end.

(** [exists] *)
Definition exists_ (st : State) (key : string) : completion bool :=
  try_catch
    (match isConnected st, client st with
     | true, Some c => let* result := client_exists c key in Return (result =? 1)
     | _, _ => Return false
     end)
    (fun _ => Return false).

Definition flush (st : State) : completion bool * State :=
  match isConnected st, client st with
  | true, Some c =>
      match client_flushDb c with
      | Return c' => (Return true, {| isConnected := true; client := Some c' |})
      | Throw _ => (Return false, st)
      end
  | _, _ => (Return false, st)
  end.

End Redis.

(* ===================================================================== *)
(** * The express request, response and the state of the services         *)
(* ===================================================================== *)

Module Http.
Import JS.

(** A POST /api/price request: the body fields, the outcome of the
    express-validator chain that ran before the handler
    ([validationResult(req).array()]), and the two properties the cache
    middleware attaches.  A request whose body lacks [token] or
    [network] is reported by the validators and is not modelled
    further. *)
Record Request : Type := {
  token : string;
  network : string;
  timestamp : option string;
  validationErrors : list string;
  redisKey : option string;
  cacheKey : option string
}.

(** [res.status(s).json(body)] *)
Record Response : Type := {
  status : Z;
  body : json
}.

(** What a handler touched, in order. *)
Inductive Event : Type :=
| CacheGet (key : string)
| CacheSet (key : string)
| StoreRead
| StoreWrite
| UpstreamFetch.

Record World : Type := {
  mongo : Mongo.State;
  redis : Redis.State;
  trace : list Event
}.

(** ** Handlers: state passing with exceptions *)

Definition M (A : Type) : Type := World -> completion A * World.

Definition ret {A} (a : A) : M A := fun w => (Return a, w).

Definition mbind {A B} (m : M A) (k : A -> M B) : M B :=
  fun w => match m w with
           | (Return a, w') => k a w'
           | (Throw e, w') => (Throw e, w')
           end.

Definition mtry {A} (m : M A) (h : error -> M A) : M A :=
  fun w => match m w with
           | (Return a, w') => (Return a, w')
           | (Throw e, w') => h e w'
           end.

Definition logged (w : World) (e : Event) : World :=
  {| mongo := mongo w; redis := redis w; trace := trace w ++ [e] |}.

Definition log (e : Event) : M unit := fun w => (Return tt, logged w e).

(** A read of the store, a call of the upstream or of the cache. *)
Definition with_mongo {A} (e : Event) (f : Mongo.State -> completion A) : M A :=
  mbind (log e) (fun _ w => (f (mongo w), w)).

Definition write_mongo {A} (f : Mongo.State -> completion A * Mongo.State) : M A :=
  mbind (log StoreWrite)
        (fun _ w => let '(r, m') := f (mongo w) in
                    (r, {| mongo := m'; redis := redis w; trace := trace w |})).

Definition with_redis {A} (e : Event) (f : Redis.State -> completion A) : M A :=
  mbind (log e) (fun _ w => (f (redis w), w)).

Definition write_redis {A} (e : Event)
           (f : Redis.State -> completion A * Redis.State) : M A :=
  mbind (log e)
        (fun _ w => let '(r, r') := f (redis w) in
                    (r, {| mongo := mongo w; redis := r'; trace := trace w |})).

Definition upstream {A} (c : completion A) : M A :=
  mbind (log UpstreamFetch) (fun _ w => (c, w)).

Definition json_response (status : Z) (fields : list (string * json)) : Response :=
  {| status := status; body := JObj fields |}.

End Http.

Notation "'do*' x ':=' c 'in' k" := (Http.mbind c (fun x => k))
  (at level 10, x name, c at level 100, k at level 200).

(* ===================================================================== *)
(** * middleware/cache.ts                                                 *)
(* ===================================================================== *)

Module Cache.
Import JS Http.

(** The own enumerable properties that the spread [{ ...v }] copies. *)
Definition indexed (items : list json) : list (string * json) :=
  imap (fun i v => (pretty i, v)) items.

Definition spread (v : json) : list (string * json) :=
  match v with
  | JObj fields => fields
  | JArr items => indexed items
  | JStr s => indexed ((fun c => JStr (String c EmptyString)) <$> list_ascii_of_string s)
  | JNull | JBool _ | JNum _ => []
  end.

(** The outcome of a middleware: it answered, or it called [next()]
    with the request as it left it. *)
Inductive Outcome : Type :=
| Respond (res : Response)
| Next (req : Request).

Definition set_redisKey (req : Request) (k : string) : Request :=
  {| token := token req; network := network req; timestamp := timestamp req;
     validationErrors := validationErrors req;
     redisKey := Some k; cacheKey := cacheKey req |}.

Definition set_cacheKey (req : Request) (k : string) : Request :=
  {| token := token req; network := network req; timestamp := timestamp req;
     validationErrors := validationErrors req;
     redisKey := redisKey req; cacheKey := Some k |}.

(** The request as the middleware hands it on: [req.redisKey] and
    [req.cacheKey] set. *)
Definition keyed (req : Request) (key : string) : Request :=
  set_cacheKey (set_redisKey req key) key.

Definition cacheMiddleware (env : Env) (keyGenerator : Request -> string)
           (req0 : Request) : M Outcome :=
  mtry
    (let cacheKey := keyGenerator req0 in
     let req := set_redisKey req0 cacheKey in
     do* cachedData := with_redis (CacheGet cacheKey) (fun r => Redis.get r cacheKey) in
     let miss := ret (Next (set_cacheKey req cacheKey)) in   (* [keyed req0 cacheKey] *)
     match cachedData with
     | Some cached =>
         if truthy cached then
           match JSON_parse env cached with
           | Some parsedData =>
               ret (Respond (json_response 200
                               (assign "source" (JStr "cache") (spread parsedData))))
           | None => miss        (* corrupted entry: continue *)
           end
         else miss
     | None => miss
     end)
    (fun _ => ret (Next (set_redisKey req0 (keyGenerator req0)))).

Definition priceKey (env : Env) (req : Request) : string :=
  Redis.generateKey env (token req) (network req) (timestamp req).

Definition priceCacheMiddleware (env : Env) : Request -> M Outcome :=
  cacheMiddleware env (priceKey env).

(** The entry the middleware serves for [key]: the cache holds a
    non-empty string under [key] and JSON.parse accepts it. *)
Definition fresh_entry (env : Env) (r : Redis.State) (key : string) : option json :=
  match Redis.get r key with
  | Return (Some cached) => if truthy cached then JSON_parse env cached else None
  | _ => None
  end.

(** [setCacheMiddleware]: the patched [res.send], run on the response the
    handler produced.  The write to the cache is not awaited and its
    failure is only logged. *)
Definition setCache_send (env : Env) (req : Request) (res : Response) : M unit :=
  if (200 <=? status res) && (status res <? 300) then
    let key :=
      match cacheKey req with
      | Some k => if truthy k then Some k else redisKey req
      | None => redisKey req
      end in
    match key with
    | Some k =>
        if truthy k then
          let price :=
            match body res with
            | JObj fields =>
                match assoc "price" fields with
                | Some p => [("price", p)]
                | None => []
                end
            | _ => []
            end in
          let cacheData :=
            JObj (price ++ [("source", JStr "alchemy");
                            ("timestamp", JStr (nowIso env));
                            ("cachedAt", JStr (nowIso env))]) in
          do* _ := write_redis (CacheSet k)
                     (fun r => Redis.set r k (JSON_stringify env cacheData)) in
          ret tt
        else ret tt
    | None => ret tt
    end
  else ret tt.

End Cache.

(* ===================================================================== *)
(** * routes/price.ts                                                     *)
(* ===================================================================== *)

Module PriceRoute.
Import JS Http.

Definition is_alnum (c : ascii) : bool :=
  let n := nat_of_ascii c in
  ((48 <=? n) && (n <=? 57) || (65 <=? n) && (n <=? 90)
   || (97 <=? n) && (n <=? 122))%nat.

(** /^[A-Z0-9]{2,10}$/i *)
Definition isTokenSymbol (token : string) : bool :=
  (2 <=? String.length token)%nat && (String.length token <=? 10)%nat
  && forallb is_alnum (list_ascii_of_string token).

Definition source_name (s : Mongo.Source) : string :=
  match s with
  | Mongo.alchemy => "alchemy"
  | Mongo.interpolated => "interpolated"
  end.

(** PriceResponse *)
Definition price_response (price : json) (source timestamp token network : string)
  : Response :=
  json_response 200
    [("price", price); ("source", JStr source); ("timestamp", JStr timestamp);
     ("token", JStr token); ("network", JStr network)].

(** [req.body.timestamp || req.query.timestamp || new Date().toISOString()] *)
Definition requestedTimestamp (env : Env) (req : Request) : string :=
  match Http.timestamp req with
  | Some t => Redis.or_default t (nowIso env)
  | None => nowIso env
  end.

(** [Math.floor(timestampDate.getTime() / 1000)] *)
Definition unixTimestamp_of (timestampDate : Z) : Z :=
  Math_floor (inject_Z timestampDate / 1000).

(** The document the handler writes through after a successful fetch or
    interpolation. *)
Definition writeThrough (token network timestamp : string) (unixTimestamp : Z)
           (price : number) (source : Mongo.Source) : Mongo.PriceData :=
  {| Mongo.pd_token := toUpperCase token;
     Mongo.pd_network := toLowerCase network;
     Mongo.pd_date := timestamp;
     Mongo.pd_timestamp := unixTimestamp;
     Mongo.pd_price := price;
     Mongo.pd_source := source |}.

Definition getPrice (env : Env) (req : Request) : M Response :=
  mtry
    ((* Check for validation errors *)
     if negb (Nat.eqb (length (validationErrors req)) 0) then
       ret (json_response 400
              [("error", JStr "Validation failed");
               ("details", JArr (JStr <$> validationErrors req))])
     else
       let token := token req in
       let network := network req in
       let timestamp := requestedTimestamp env req in
       (* Validate token format (contract address or symbol) *)
       let isContractAddress := Alchemy.isValidTokenAddress token in
       if negb isContractAddress && negb (isTokenSymbol token) then
         ret (json_response 400
                [("error", JStr "Invalid token format");
                 ("message", JStr "Token must be a valid contract address (0x...) or symbol (BTC, ETH)")])
       else
       (* Validate network *)
       let supportedNetworks := Alchemy.getSupportedNetworks in
       if negb (existsb (String.eqb network) supportedNetworks) then
         ret (json_response 400
                [("error", JStr "Unsupported network");
                 ("supportedNetworks", JArr (JStr <$> supportedNetworks))])
       else
       (* Validate timestamp *)
       match Date_parse env timestamp with
       | None => ret (json_response 400 [("error", JStr "Invalid timestamp format")])
       | Some timestampDate =>
       (* Check if timestamp is in the future *)
       if now env <? timestampDate then
         ret (json_response 400 [("error", JStr "Timestamp cannot be in the future")])
       else
       let unixTimestamp := unixTimestamp_of timestampDate in
       (* Step 1: the exact price in MongoDB *)
       do* existingPrice :=
         with_mongo StoreRead
           (fun m => Mongo.findPriceByTimestamp m token network unixTimestamp) in
       match existingPrice with
       | Some existing =>
           ret (price_response (json_of_number (Fin (Mongo.price existing)))
                  (source_name (Mongo.source existing)) (Mongo.date existing)
                  (Mongo.token existing) (Mongo.network existing))
       | None =>
       (* Step 2: fetch from the upstream *)
       do* priceData := upstream (Alchemy.getTokenPrice env token network timestamp) in
       match priceData with
       | Some pd =>
           do* _ :=
             mtry
               (do* _ := write_mongo (fun m =>
                           Mongo.createPrice m
                             (writeThrough token network timestamp unixTimestamp
                                (Alchemy.price pd) Mongo.alchemy)) in
                ret tt)
               (fun _ => ret tt) in
           ret (price_response (json_of_number (Alchemy.price pd)) "alchemy"
                  (Alchemy.timestamp pd) token network)
       | None =>
       (* Step 3: interpolation *)
       do* interpolationResult :=
         with_mongo StoreRead
           (fun m => Interpolation.interpolatePrice m token network unixTimestamp) in
       match interpolationResult with
       | Some ir =>
           do* _ :=
             mtry
               (do* _ := write_mongo (fun m =>
                           Mongo.createPrice m
                             (writeThrough token network timestamp unixTimestamp
                                (Interpolation.price ir) Mongo.interpolated)) in
                ret tt)
               (fun _ => ret tt) in
           ret (price_response (json_of_number (Interpolation.price ir)) "interpolated"
                  timestamp token network)
       | None =>
       (* Step 4: no price data available *)
       ret (json_response 404
              [("error", JStr "Price data not found");
               ("message",
                JStr ("No price data available for " +:+ token +:+ " on " +:+ network
                      +:+ " at " +:+ timestamp
                      +:+ ". Neither Alchemy nor interpolation could provide a price."))])
       end end end end)
    (fun _ =>
       ret (json_response 500
              [("error", JStr "Internal server error");
               ("message", JStr "Failed to fetch price data")])).

(** The request passes the checks at the head of [getPrice], its
    timestamp denoting the instant [timestampDate] (milliseconds). *)
Definition accepted (env : Env) (req : Request) (timestampDate : Z) : Prop :=
  validationErrors req = []
  /\ Alchemy.isValidTokenAddress (token req) || isTokenSymbol (token req) = true
  /\ existsb (String.eqb (network req)) Alchemy.supportedNetworks = true
  /\ Date_parse env (requestedTimestamp env req) = Some timestampDate
  /\ timestampDate <= now env.

(** The price steps 2 and 3 of [getPrice] obtain over the store [m], with
    the document they write through and the response they send. *)
Inductive Resolved (env : Env) (m : Mongo.State)
          (token network timestamp : string) (unixTimestamp : Z)
  : Mongo.PriceData -> Response -> Prop :=
| from_upstream pd :
    Alchemy.getTokenPrice env token network timestamp = Return (Some pd) ->
    Resolved env m token network timestamp unixTimestamp
      (writeThrough token network timestamp unixTimestamp
         (Alchemy.price pd) Mongo.alchemy)
      (price_response (json_of_number (Alchemy.price pd)) "alchemy"
         (Alchemy.timestamp pd) token network)
| from_interpolation ir :
    Alchemy.getTokenPrice env token network timestamp = Return None ->
    Interpolation.interpolatePrice m token network unixTimestamp
    = Return (Some ir) ->
    Resolved env m token network timestamp unixTimestamp
      (writeThrough token network timestamp unixTimestamp
         (Interpolation.price ir) Mongo.interpolated)
      (price_response (json_of_number (Interpolation.price ir)) "interpolated"
         timestamp token network).

(** The chain of routes/index.ts for POST /api/price, after the rate
    limiter and the validators:
    [priceCacheMiddleware, setCacheMiddleware(), getPrice]. *)
Definition price_route (env : Env) (req : Request) : M Response :=
  do* outcome := Cache.priceCacheMiddleware env req in
  match outcome with
  | Cache.Respond res => ret res
  | Cache.Next req' =>
      do* res := getPrice env req' in
      do* _ := Cache.setCache_send env req' res in
      ret res
  end.

End PriceRoute.

(* ===================================================================== *)
(** * routes/price.ts: GET /api/price/history                             *)
(* ===================================================================== *)

Module HistoryRoute.
Import JS.

(** Helper function to convert interval string to milliseconds *)
Definition getIntervalMs (interval : string) : Z :=
  let i := toLowerCase interval in
  if String.eqb i "1m" then 60 * 1000
  else if String.eqb i "5m" then 5 * 60 * 1000
  else if String.eqb i "15m" then 15 * 60 * 1000
  else if String.eqb i "30m" then 30 * 60 * 1000
  else if String.eqb i "1h" then 60 * 60 * 1000
  else if String.eqb i "4h" then 4 * 60 * 60 * 1000
  else if String.eqb i "1d" then 24 * 60 * 60 * 1000
  else 60 * 60 * 1000.

(** An entry of [mockHistory]; its [source] is the constant 'alchemy'. *)
Record HistoryPoint : Type := {
  h_timestamp : string;
  h_price : number
}.

(** The loop
    [for (let date = startDate; date <= endDate;
          date = new Date(date.getTime() + intervalMs))],
    from [date] on ([None]: Invalid Date, for which the comparison is
    false). *)
Equations? history_loop (env : Env) (token network interval : string)
           (endDate : Z) (date : option Z) : completion (list HistoryPoint)
  by wf (match date with
         | Some t => Z.to_nat ((endDate - t) / getIntervalMs interval + 1)
         | None => 0%nat
         end) lt :=
  history_loop env token network interval endDate None := Return [];
  history_loop env token network interval endDate (Some t) with Z_le_dec t endDate => {
    | left _ :=
        let* priceData := Alchemy.getTokenPrice env token network (toISOString env t) in
        let* rest := history_loop env token network interval endDate
                       (TokenUtils.TimeClip (t + getIntervalMs interval)) in
        Return (match priceData with
                | Some pd => {| h_timestamp := toISOString env t;
                                h_price := Alchemy.price pd |} :: rest
                | None => rest
                end);
    | right _ := Return [] }.
Proof.
  assert (Hpos : 0 < getIntervalMs interval).
  { unfold getIntervalMs. cbv zeta. repeat destruct (String.eqb _ _); lia. }
  unfold TokenUtils.TimeClip.
  assert (0 <= (endDate - t) / getIntervalMs interval) by (apply Z.div_pos; lia).
  destruct (Z.abs (t + getIntervalMs interval) <=? TokenUtils.maxTime); [|lia].
  replace (endDate - (t + getIntervalMs interval))
    with ((endDate - t) + (-1) * getIntervalMs interval) by ring.
  rewrite Z.div_add by lia. lia.
Qed.

Inductive HistoryResponse : Type :=
| MissingParameters                                             (* 400 *)
| History (token network period interval : string)
          (prices : list HistoryPoint)                          (* 200 *)
| HistoryFailed.                                                (* 500 *)

(** [!x] for a query parameter: absent or empty. *)
Definition missing (x : option string) : bool :=
  match x with
  | Some s => negb (truthy s)
  | None => true
  end.

(** GET /api/price/history.  [interval] defaults to '1h' when absent. *)
Definition getPriceHistory (env : Env) (token network from to interval : option string)
  : HistoryResponse :=
  if missing token || missing network || missing from || missing to
  then MissingParameters
  else
    let token := default EmptyString token in
    let network := default EmptyString network in
    let from := default EmptyString from in
    let to := default EmptyString to in
    let interval := default "1h" interval in
    let startDate := Date_parse env from in
    let endDate := Date_parse env to in
    let mockHistory :=
      match endDate with
      | Some e => history_loop env token network interval e startDate
      | None => Return []
      end in
    match mockHistory with
    | Return prices =>
        History token network (from +:+ " to " +:+ to) interval prices
    | Throw _ => HistoryFailed
    end.

End HistoryRoute.

(* ===================================================================== *)
(** * middleware/validation.ts: the token check of validatePriceRequest   *)
(* ===================================================================== *)

Module Validation.
Import JS.

(** /^0x[a-fA-F0-9]{1,40}$/ *)
Definition isContractAddress (value : string) : bool :=
  match value with
  | String "0" (String "x" rest) =>
      (1 <=? String.length rest)%nat && (String.length rest <=? 40)%nat
      && forallb Alchemy.isValidTokenAddress_char (list_ascii_of_string rest)
  | _ => false
  end.

(** /^[A-Za-z0-9]{2,10}$/ *)
Definition isTokenSymbol (value : string) : bool :=
  (2 <=? String.length value)%nat && (String.length value <=? 10)%nat
  && forallb PriceRoute.is_alnum (list_ascii_of_string value).

(** The function given to [.custom] for [body('token')]: it returns true
    or throws, and the chain reports an error exactly when it throws. *)
Definition token_custom (value : string) : completion bool :=
  let isContractAddress := isContractAddress value in
  let isTokenSymbol := isTokenSymbol value in
  if negb isContractAddress && negb isTokenSymbol
  then Throw (Error "Token must be a valid contract address (0x...) or symbol (2-10 chars)")
  else Return true.

End Validation.

(* ===================================================================== *)
(** * routes/schedule.ts                                                  *)
(* ===================================================================== *)

Module Schedule.
Import JS.

Record JobData : Type := {
  id : string;
  token : string;
  network : string;
  interval : string;
  enabled : bool;
  createdAt : string;
  lastRun : option string;
  nextRun : option string
}.

(** [scheduledJobs : Map<string, JobData>], in insertion order. *)
Definition Registry : Type := list (string * JobData).

(** [Map.prototype.set]: an existing key keeps its position. *)
Fixpoint map_set (k : string) (v : JobData) (m : Registry) : Registry :=
  match m with
  | [] => [(k, v)]
  | (k', v') :: rest =>
      if String.eqb k' k then (k', v) :: rest else (k', v') :: map_set k v rest
  end.

(** ScheduleRequest, with the outcome of the validators. *)
Record Request : Type := {
  r_token : string;
  r_network : string;
  r_interval : option string;
  r_enabled : option bool;
  r_validationErrors : list string
}.

(** The BullMQ service: whether it is enabled and reachable, and the
    payloads it accepted. *)
Record Queue : Type := {
  isEnabled : bool;
  accepts : bool;
  queued : list (string * string * string)   (* token, network, requestId *)
}.

Definition addPriceHistoryJob (q : Queue) (token network requestId : string)
  : option string * Queue :=
  if isEnabled q && accepts q
  then (Some requestId,
        {| isEnabled := true; accepts := true;
           queued := queued q ++ [(token, network, requestId)] |})
  else (None, q).

(** Helper function to calculate next run time: 5 minutes from now. *)
Definition getNextRunTime (env : Env) (interval : string) : string :=
  toISOString env (now env + 5 * 60 * 1000).

Inductive Response : Type :=
| ValidationFailed (details : list string)                    (* 400 *)
| JobAlreadyExists (message existingJobId : string)           (* 409 *)
| Scheduled (jobId message scheduledAt : string).             (* 200 *)

(** Helper function to find existing job by token and network *)
Fixpoint findExistingJob (scheduledJobs : Registry) (token network : string)
  : option string :=
  match scheduledJobs with
  | [] => None
  | (jobId, job) :: rest =>
      if String.eqb (toLowerCase (Schedule.token job)) (toLowerCase token)
         && String.eqb (toLowerCase (Schedule.network job)) (toLowerCase network)
      then Some jobId
      else findExistingJob rest token network
  end.

(** The comparison [findExistingJob] makes. *)
Definition same_pair (job : JobData) (token network : string) : bool :=
  String.eqb (toLowerCase (Schedule.token job)) (toLowerCase token)
  && String.eqb (toLowerCase (Schedule.network job)) (toLowerCase network).

(** The registry as [scheduleJob] keeps it: the ids are non-empty and no
    two records are for the same (token, network) pair up to case. *)
Definition Registry_ok (scheduledJobs : Registry) : Prop :=
  (forall jobId job, In (jobId, job) scheduledJobs -> jobId <> EmptyString)
  /\ (forall id1 job1 id2 job2,
         In (id1, job1) scheduledJobs -> In (id2, job2) scheduledJobs ->
         same_pair job1 (Schedule.token job2) (Schedule.network job2) = true ->
         id1 = id2).

(** POST /api/schedule.  Nothing in the body of the handler throws
    ([addPriceHistoryJob] catches the errors of the queue), so the 500
    branch of its try/catch is never taken and is left out. *)
Definition scheduleJob (env : Env) (scheduledJobs : Registry) (q : Queue)
           (req : Request) : Response * Registry * Queue :=
  if negb (Nat.eqb (length (r_validationErrors req)) 0)
  then (ValidationFailed (r_validationErrors req), scheduledJobs, q)
  else
    let token := r_token req in
    let network := r_network req in
    let interval := default "0 0 * * *" (r_interval req) in
    let enabled := default true (r_enabled req) in
    let create :=
      let jobId := uuidv4 env in
      let now := nowIso env in
      let jobData :=
        {| id := jobId; token := token; network := network;
           interval := interval; enabled := enabled; createdAt := now;
           lastRun := None; nextRun := Some (getNextRunTime env interval) |} in
      let jobs' := map_set jobId jobData scheduledJobs in
      let q' :=
        if enabled
        then snd (addPriceHistoryJob q (toUpperCase token) (toLowerCase network) jobId)
        else q in
      (Scheduled jobId
         ("Job scheduled successfully for " +:+ token +:+ " on " +:+ network) now,
       jobs', q') in
    (* Check if job already exists *)
    match findExistingJob scheduledJobs token network with
    | Some existingJobId =>
        if truthy existingJobId
        then (JobAlreadyExists
                ("A job for " +:+ token +:+ " on " +:+ network +:+ " already exists")
                existingJobId,
              scheduledJobs, q)
        else create
    | None => create
    end.

(** ** The handlers on one job

    [Map.prototype.get] and [Map.prototype.delete]; the keys of a Map are
    distinct. *)
Fixpoint map_get (k : string) (m : Registry) : option JobData :=
  match m with
  | [] => None
  | (k', v) :: rest => if String.eqb k' k then Some v else map_get k rest
  end.

Fixpoint map_delete (k : string) (m : Registry) : Registry :=
  match m with
  | [] => []
  | (k', v) :: rest => if String.eqb k' k then rest else (k', v) :: map_delete k rest
  end.

(** The answers of the handlers on /api/schedule/:jobId.  The answer to a
    manual run also carries the id BullMQ gave to the queued job, which is
    not modelled. *)
Inductive JobResponse : Type :=
| UpdateValidationFailed (details : list string)     (* 400 *)
| JobNotFound (message : string)                     (* 404 *)
| JobDisabled                                        (* 400 "Job is disabled" *)
| QueueUnavailable                                   (* 500 "Failed to queue job" *)
| JobUpdated (job : JobData)                         (* 200 *)
| JobDeleted                                         (* 200 *)
| JobStarted.                                        (* 200 *)

Definition set_enabled (job : JobData) (enabled : bool) : JobData :=
  {| id := id job; token := token job; network := network job;
     interval := interval job; enabled := enabled; createdAt := createdAt job;
     lastRun := lastRun job; nextRun := nextRun job |}.

Definition set_lastRun (job : JobData) (lastRun : string) : JobData :=
  {| id := id job; token := token job; network := network job;
     interval := interval job; enabled := enabled job; createdAt := createdAt job;
     lastRun := Some lastRun; nextRun := nextRun job |}.

(** PUT /api/schedule/:jobId, with a body whose [enabled] is a JSON
    boolean.  The record is updated in place. *)
Definition updateJob (env : Env) (scheduledJobs : Registry) (q : Queue)
           (jobId : string) (enabled : bool) (validationErrors : list string)
  : JobResponse * Registry * Queue :=
  if negb (Nat.eqb (length validationErrors) 0)
  then (UpdateValidationFailed validationErrors, scheduledJobs, q)
  else
    match map_get jobId scheduledJobs with
    | None => (JobNotFound ("No job found with ID: " +:+ jobId), scheduledJobs, q)
    | Some job =>
        let job := set_lastRun (set_enabled job enabled) (nowIso env) in
        let jobs' := map_set jobId job scheduledJobs in
        let q' :=
          if enabled
          then snd (addPriceHistoryJob q (toUpperCase (token job))
                      (toLowerCase (network job)) jobId)
          else q in
        (JobUpdated job, jobs', q')
    end.

(** DELETE /api/schedule/:jobId *)
Definition deleteJob (scheduledJobs : Registry) (jobId : string)
  : JobResponse * Registry :=
  match map_get jobId scheduledJobs with
  | None => (JobNotFound ("No job found with ID: " +:+ jobId), scheduledJobs)
  | Some _ => (JobDeleted, map_delete jobId scheduledJobs)
  end.

(** POST /api/schedule/:jobId/run *)
Definition runJob (env : Env) (scheduledJobs : Registry) (q : Queue) (jobId : string)
  : JobResponse * Registry * Queue :=
  match map_get jobId scheduledJobs with
  | None => (JobNotFound ("No job found with ID: " +:+ jobId), scheduledJobs, q)
  | Some job =>
      if negb (enabled job) then (JobDisabled, scheduledJobs, q)
      else
        match addPriceHistoryJob q (toUpperCase (token job)) (toLowerCase (network job))
                ("manual-" +:+ jobId +:+ "-" +:+ pretty (now env)) with
        | (Some _, q') =>
            (JobStarted, map_set jobId (set_lastRun job (nowIso env)) scheduledJobs, q')
        | (None, q') => (QueueUnavailable, scheduledJobs, q')
        end
  end.

End Schedule.

(* ===================================================================== *)
(** * Concrete stores, environments and requests used as test inputs      *)
(* ===================================================================== *)

Module Fixtures.
Import JS.

Definition jan1 : Z := 1704067200.        (* 2024-01-01T00:00:00Z *)
Definition jan2 : Z := 1704153600.        (* 2024-01-02T00:00:00Z *)
Definition jan3 : Z := 1704240000.        (* 2024-01-03T00:00:00Z *)

Definition eth_point (date : string) (ts : Z) (p : Q) : Mongo.PriceDoc :=
  {| Mongo.token := "ETH"; Mongo.network := "ethereum"; Mongo.date := date;
     Mongo.timestamp := ts; Mongo.price := p; Mongo.source := Mongo.alchemy |}.

Definition connected (docs : list Mongo.PriceDoc) : Mongo.State :=
  {| Mongo.isConnected := true; Mongo.readyState := 1; Mongo.docs := docs |}.

(** The store is unreachable: the service never connected. *)
Definition unreachable (docs : list Mongo.PriceDoc) : Mongo.State :=
  {| Mongo.isConnected := false; Mongo.readyState := 0; Mongo.docs := docs |}.

(** Scenario 3 of the specification: two points two days apart. *)
Definition eth_store : Mongo.State :=
  connected [eth_point "2024-01-01T00:00:00Z" jan1 2000;
             eth_point "2024-01-03T00:00:00Z" jan3 2200].

(** Two points of a token whose price rounds to zero. *)
Definition zero_store : Mongo.State :=
  connected [eth_point "2024-01-01T00:00:00Z" jan1 0;
             eth_point "2024-01-03T00:00:00Z" jan3 0].

(** ** Environments *)

(** An environment whose clock reads [now], whose parsers know the given
    timestamps and cache entries, and whose upstream answers every call
    with [answer]. *)
Fixpoint lookup_str {A} (k : string) (l : list (string * A)) : option A :=
  match l with
  | [] => None
  | (k', v) :: rest => if String.eqb k' k then Some v else lookup_str k rest
  end.

Definition env_of (now : Z) (dates : list (string * Z))
           (entries : list (string * json)) (answer : HttpOutcome) : Env :=
  {| JS.now := now;
     toISOString := fun _ => "2025-06-15T12:00:00.000Z";
     Date_parse := fun s => lookup_str s dates;
     JSON_parse := fun s => lookup_str s entries;
     JSON_stringify := fun _ => "{...}";
     http := fun _ => answer;
     uuidv4 := "7d444840-9dc0-11d1-b245-5ffdce74fad2" |}.

Definition noon_2025 : Z := 1749988800000.     (* 2025-06-15T12:00:00Z *)

Definition known_dates : list (string * Z) :=
  [("2024-01-01T00:00:00Z", jan1 * 1000);
   ("2024-01-02T00:00:00Z", jan2 * 1000);
   ("2024-01-03T00:00:00Z", jan3 * 1000);
   ("2024-01-07T18:30:00Z", 1704652200000);
   ("2025-06-15T11:00:00Z", noon_2025 - 3600000)].

(** The upstream answers with the given status and an empty body. *)
Definition env_status (status : Z) : Env :=
  env_of noon_2025 known_dates [] (HttpResponse status (JStr "")).

Definition env_offline : Env := env_of noon_2025 known_dates [] NoResponse.


(** The upstream quotes ETH at 99 USD. *)
Definition env_quote : Env :=
  env_of noon_2025 known_dates []
    (HttpResponse 200 (JObj [("ethereum", JObj [("usd", JNum 99)])])).



(** ** Requests and worlds *)

Definition price_request (token network timestamp : string) : Http.Request :=
  {| Http.token := token; Http.network := network;
     Http.timestamp := Some timestamp; Http.validationErrors := [];
     Http.redisKey := None; Http.cacheKey := None |}.

Definition jan2_request : Http.Request :=
  price_request "ETH" "ethereum" "2024-01-02T00:00:00Z".

Definition no_cache : Redis.State :=
  {| Redis.isConnected := false; Redis.client := None |}.

Definition cache_with (key value : string) : Redis.State :=
  {| Redis.isConnected := true;
     Redis.client := Some {| Redis.responsive := true;
                             Redis.data := {[ key := value ]} |} |}.

Definition world (m : Mongo.State) (r : Redis.State) : Http.World :=
  {| Http.mongo := m; Http.redis := r; Http.trace := [] |}.

(** ** The job registry of scenario 4 *)

Definition usdc_job : Schedule.JobData :=
  {| Schedule.id := "0b9f31aa-4f0c-4c5e-9a39-6f1c2d7e8a10";
     Schedule.token := "USDC"; Schedule.network := "ethereum";
     Schedule.interval := "0 0 * * *"; Schedule.enabled := true;
     Schedule.createdAt := "2025-06-15T11:00:00.000Z";
     Schedule.lastRun := None;
     Schedule.nextRun := Some "2025-06-15T11:05:00.000Z" |}.

Definition usdc_registry : Schedule.Registry :=
  [("0b9f31aa-4f0c-4c5e-9a39-6f1c2d7e8a10", usdc_job)].

Definition schedule_request (token network : string) : Schedule.Request :=
  {| Schedule.r_token := token; Schedule.r_network := network;
     Schedule.r_interval := None; Schedule.r_enabled := None;
     Schedule.r_validationErrors := [] |}.

Definition queue_off : Schedule.Queue :=
  {| Schedule.isEnabled := false; Schedule.accepts := false;
     Schedule.queued := [] |}.

(** ** A cache that is connected and holds nothing *)

Definition empty_cache : Redis.State :=
  {| Redis.isConnected := true;
     Redis.client := Some {| Redis.responsive := true; Redis.data := ∅ |} |}.

(** The entry the patched [res.send] writes for a price of 99 USD at the
    clock of [env_of], and an environment whose upstream quotes ETH at
    99 USD and whose parser reads that entry back. *)
Definition quote_entry : json :=
  JObj [("price", JNum 99); ("source", JStr "alchemy");
        ("timestamp", JStr "2025-06-15T12:00:00.000Z");
        ("cachedAt", JStr "2025-06-15T12:00:00.000Z")].

Definition env_quote_cached : Env :=
  env_of noon_2025 known_dates [("{...}", quote_entry)]
    (HttpResponse 200 (JObj [("ethereum", JObj [("usd", JNum 99)])])).

End Fixtures.

(* ===================================================================== *)
(** * Properties of the number model                                      *)
(* ===================================================================== *)

Module NumberFacts.
Import JS.

Lemma sgn_Gt x : sgn x = Gt <-> (0 < x)%Q.
Proof. unfold sgn. symmetry. apply Qgt_alt. Qed.

Lemma sgn_Lt x : sgn x = Lt <-> (x < 0)%Q.
Proof. unfold sgn. symmetry. apply Qlt_alt. Qed.

Lemma sgn_Eq x : sgn x = Eq <-> (x == 0)%Q.
Proof. unfold sgn. symmetry. apply Qeq_alt. Qed.

Lemma div_Fin_nonzero x y :
  ~ (y == 0)%Q -> div (Fin x) (Fin y) = Fin (x / y).
Proof.
  intros Hy. unfold div. destruct (sgn y) eqn:E; try reflexivity.
  apply sgn_Eq in E. contradiction.
Qed.

Lemma Math_max_0_Fin y :
  exists t, Math_max (Fin 0) (Fin y) = Fin t /\ (0 <= t)%Q.
Proof.
  unfold Math_max, leb. destruct (Qle_bool 0 y) eqn:E.
  - exists y. split; [reflexivity|]. now apply Qle_bool_iff.
  - exists 0%Q. split; [reflexivity|]. apply Qle_refl.
Qed.

(** The final clamp [Math.min(1, Math.max(0, x))] lands in [[0, 1]] for
    every [x] but NaN. *)
Lemma clamp_between x :
  x <> NaN -> between 0 1 (Math_min (Fin 1) (Math_max (Fin 0) x)).
Proof.
  intros Hx. destruct x as [q| | |]; try contradiction; cbn.
  - destruct (Qle_bool 0 q) eqn:E0; cbn.
    + apply Qle_bool_iff in E0.
      destruct (Qle_bool 1 q) eqn:E1; cbn.
      * split; [discriminate | apply Qle_refl].
      * split; [assumption|].
        apply Qnot_lt_le. intros Hlt.
        assert (Qle_bool 1 q = true) by (apply Qle_bool_iff; now apply Qlt_le_weak).
        congruence.
    + split; [apply Qle_refl | discriminate].
  - split; [discriminate | apply Qle_refl].
  - split; [apply Qle_refl | discriminate].
Qed.

Lemma Qabs_zero_inv x y : (y == 0)%Q -> (Qabs (x + - y) <= 0)%Q -> (x == 0)%Q.
Proof.
  intros Hy H.
  pose proof (Qle_Qabs (x + - y)) as H1.
  pose proof (Qle_Qabs (- (x + - y))) as H2.
  rewrite Qabs_opp in H2. lra.
Qed.

Lemma clamp_NaN : Math_min (Fin 1) (Math_max (Fin 0) NaN) = NaN.
Proof. reflexivity. Qed.

End NumberFacts.

(* ===================================================================== *)
(** * Properties of the interpolation engine                              *)
(* ===================================================================== *)

Module InterpolationFacts.
Import JS NumberFacts Interpolation.

Lemma confidence_unfold q b a bp ap :
  calculateInterpolationConfidence q b a bp ap =
  Math_min (Fin 1)
    (Math_max (Fin 0)
       (add (add (mul (timeConfidence b a) (Fin (4 # 10)))
                 (mul (stabilityConfidence bp ap) (Fin (4 # 10))))
            (mul (positionConfidence q b a) (Fin (2 # 10))))).
Proof. reflexivity. Qed.

Lemma timeConfidence_Fin b a :
  exists t, timeConfidence (Fin b) (Fin a) = Fin t /\ (0 <= t)%Q.
Proof.
  unfold timeConfidence, ofZ.
  change (sub (Fin a) (Fin b)) with (Fin (a + - b)).
  rewrite div_Fin_nonzero by discriminate.
  apply Math_max_0_Fin.
Qed.

(** The stability factor is NaN exactly when both prices are zero. *)
Lemma stabilityConfidence_cases bp ap :
  ((bp == 0)%Q /\ (ap == 0)%Q /\ stabilityConfidence (Fin bp) (Fin ap) = NaN)
  \/ (~ ((bp == 0)%Q /\ (ap == 0)%Q)
      /\ exists s, stabilityConfidence (Fin bp) (Fin ap) = Fin s /\ (0 <= s)%Q).
Proof.
  unfold stabilityConfidence.
  change (sub (Fin ap) (Fin bp)) with (Fin (ap + - bp)).
  change (Math_abs (Fin (ap + - bp))) with (Fin (Qabs (ap + - bp))).
  destruct (Qeq_dec bp 0) as [Hb | Hb].
  - assert (Hs : sgn bp = Eq) by now apply sgn_Eq.
    destruct (Qeq_dec ap 0) as [Ha | Ha].
    + left. repeat split; try assumption.
      assert (Hz : sgn (Qabs (ap + - bp)) = Eq).
      { apply sgn_Eq. rewrite Ha, Hb. reflexivity. }
      unfold div at 2. rewrite Hs, Hz. reflexivity.
    + right. split; [tauto|].
      assert (Hz : sgn (Qabs (ap + - bp)) = Gt).
      { apply sgn_Gt.
        destruct (Qlt_le_dec 0 (Qabs (ap + - bp))) as [H | H]; [assumption|].
        exfalso. apply Ha. now apply (Qabs_zero_inv ap bp). }
      unfold div at 2. rewrite Hs, Hz. cbn.
      exists 0%Q. split; [reflexivity | apply Qle_refl].
  - right. split; [tauto|].
    rewrite (div_Fin_nonzero _ bp) by assumption.
    rewrite div_Fin_nonzero by discriminate.
    apply Math_max_0_Fin.
Qed.

(** The position factor is NaN exactly when both gaps are zero. *)
Lemma positionConfidence_cases q b a :
  ((q == b)%Q /\ (a == q)%Q /\ positionConfidence (Fin q) (Fin b) (Fin a) = NaN)
  \/ (~ ((q == b)%Q /\ (a == q)%Q)
      /\ positionConfidence (Fin q) (Fin b) (Fin a) <> NaN).
Proof.
  unfold positionConfidence.
  change (sub (Fin q) (Fin b)) with (Fin (q + - b)).
  change (sub (Fin a) (Fin q)) with (Fin (a + - q)).
  unfold Math_min, Math_max, leb.
  destruct (Qle_bool (q + - b) (a + - q)) eqn:E.
  - apply Qle_bool_iff in E. unfold div.
    destruct (sgn (a + - q)) eqn:Ea.
    + apply (proj1 (sgn_Eq _)) in Ea. destruct (sgn (q + - b)) eqn:Eb; cbn [signed_inf].
      * apply (proj1 (sgn_Eq _)) in Eb. left. repeat split; try reflexivity; lra.
      * apply (proj1 (sgn_Lt _)) in Eb. right. split; [intros [? ?]; lra | discriminate].
      * apply (proj1 (sgn_Gt _)) in Eb. exfalso. lra.
    + apply (proj1 (sgn_Lt _)) in Ea. right. split; [intros [? ?]; lra | discriminate].
    + apply (proj1 (sgn_Gt _)) in Ea. right. split; [intros [? ?]; lra | discriminate].
  - assert (Hlt : (a + - q < q + - b)%Q).
    { apply Qnot_le_lt. intros H. apply Qle_bool_iff in H. congruence. }
    unfold div.
    destruct (sgn (q + - b)) eqn:Eb.
    + apply (proj1 (sgn_Eq _)) in Eb. destruct (sgn (a + - q)) eqn:Ea; cbn [signed_inf].
      * apply (proj1 (sgn_Eq _)) in Ea. exfalso. lra.
      * right. split; [intros [? ?]; lra | discriminate].
      * apply (proj1 (sgn_Gt _)) in Ea. exfalso. lra.
    + apply (proj1 (sgn_Lt _)) in Eb. right. split; [intros [? ?]; lra | discriminate].
    + apply (proj1 (sgn_Gt _)) in Eb. right. split; [intros [? ?]; lra | discriminate].
Qed.

Lemma weighted_not_NaN x p :
  p <> NaN -> add (Fin x) (mul p (Fin (2 # 10))) <> NaN.
Proof. destruct p; intros Hp Hc; try congruence; cbv in Hc; discriminate. Qed.

(** The score on finite inputs: NaN when both prices are zero or when
    both gaps are zero, and a number of [[0, 1]] otherwise. *)
Lemma confidence_cases q b a bp ap :
  let c := calculateInterpolationConfidence (Fin q) (Fin b) (Fin a) (Fin bp) (Fin ap) in
  let degenerate := ((bp == 0)%Q /\ (ap == 0)%Q) \/ ((q == b)%Q /\ (a == q)%Q) in
  (degenerate /\ c = NaN) \/ (~ degenerate /\ between 0 1 c).
Proof.
  cbv zeta. rewrite confidence_unfold.
  destruct (timeConfidence_Fin b a) as (t & -> & _).
  destruct (stabilityConfidence_cases bp ap) as [(Hb & Ha & ->) | (Hn & s & -> & _)].
  - left. split; [left; tauto | reflexivity].
  - change (add (mul (Fin t) (Fin (4 # 10))) (mul (Fin s) (Fin (4 # 10))))
      with (Fin (t * (4 # 10) + s * (4 # 10))).
    destruct (positionConfidence_cases q b a) as [(H1 & H2 & ->) | (Hp & Hne)].
    + left. split; [right; tauto | reflexivity].
    + right. split; [tauto|].
      apply clamp_between. now apply weighted_not_NaN.
Qed.

(** ** interpolatePrice *)

Lemma findClosestPrices_returns st token network timestamp :
  exists closest,
    Mongo.findClosestPrices st token network timestamp = Return closest.
Proof.
  unfold Mongo.findClosestPrices.
  destruct (negb (Mongo.isReady st)); [eauto|].
  destruct (Mongo.Price_findClosestPrices st token network timestamp); cbn; eauto.
Qed.

(** C2.  [interpolatePrice] returns null when the straddling query gives
    no record before the target or none after it, and when the two
    records carry the same unix timestamp; in every other case it returns
    a result. *)
Theorem interpolatePrice_null_cases
        (st : Mongo.State) (token network : string) (queryTimestamp : Z) :
  exists beforePrice afterPrice,
    Mongo.findClosestPrices st token network queryTimestamp
    = Return (beforePrice, afterPrice)
    /\ match beforePrice, afterPrice with
       | Some b, Some a =>
           if Mongo.timestamp b =? Mongo.timestamp a
           then interpolatePrice st token network queryTimestamp = Return None
           else exists r,
               interpolatePrice st token network queryTimestamp = Return (Some r)
       | _, _ => interpolatePrice st token network queryTimestamp = Return None
       end.
Proof.
  destruct (findClosestPrices_returns st token network queryTimestamp)
    as [[beforePrice afterPrice] H].
  exists beforePrice, afterPrice. split; [assumption|].
  unfold interpolatePrice. rewrite H. cbn [bind try_catch].
  destruct beforePrice as [b|], afterPrice as [a|]; try reflexivity.
  destruct (Mongo.timestamp b =? Mongo.timestamp a); [reflexivity|].
  eexists. reflexivity.
Qed.

(** One second before the earliest point there is no record before the
    target; on a stored point the two records coincide; an unreachable
    store yields no record at all. *)
Example interpolate_before_first_point :
  interpolatePrice Fixtures.eth_store "ETH" "ethereum" (Fixtures.jan1 - 1) = Return None.
Proof. reflexivity. Qed.

Example interpolate_on_stored_point :
  interpolatePrice Fixtures.eth_store "eth" "Ethereum" Fixtures.jan3 = Return None.
Proof. reflexivity. Qed.

Example interpolate_unreachable_store :
  interpolatePrice (Fixtures.unreachable (Mongo.docs Fixtures.eth_store))
    "ETH" "ethereum" Fixtures.jan2 = Return None.
Proof. reflexivity. Qed.

(** Every result carries a confidence in [[0, 1]], except between two
    points whose prices are both zero, where the score is NaN. *)
Lemma interpolated_confidence_cases st token network queryTimestamp r :
  interpolatePrice st token network queryTimestamp = Return (Some r) ->
  let zero := (dp_price (before r) == 0)%Q /\ (dp_price (after r) == 0)%Q in
  (zero /\ confidence r = NaN) \/ (~ zero /\ between 0 1 (confidence r)).
Proof.
  unfold interpolatePrice.
  destruct (findClosestPrices_returns st token network queryTimestamp)
    as [[beforePrice afterPrice] ->].
  cbn [bind try_catch].
  destruct beforePrice as [b|], afterPrice as [a|]; try discriminate.
  destruct (Mongo.timestamp b =? Mongo.timestamp a) eqn:Ets; [discriminate|].
  intros [= <-]. cbn [confidence before after dp_price].
  apply Z.eqb_neq in Ets. unfold ofZ.
  destruct (confidence_cases (inject_Z queryTimestamp)
              (inject_Z (Mongo.timestamp b)) (inject_Z (Mongo.timestamp a))
              (Mongo.price b) (Mongo.price a)) as [[[Hz | [H1 H2]] Hc] | [Hn Hc]].
  - left. split; assumption.
  - exfalso. apply Ets. apply inject_Z_injective. lra.
  - right. split; [tauto | assumption].
Qed.

(** C8.  Between two stored points whose prices are both 0 (a price the
    schema admits and the adapter produces by rounding), the confidence
    the engine returns is NaN, which is not a number of [[0, 1]]: the
    final clamp lets the 0/0 of the stability factor through. *)
Theorem zero_prices_confidence_is_NaN :
  exists r,
    interpolatePrice Fixtures.zero_store "ETH" "ethereum" Fixtures.jan2
    = Return (Some r)
    /\ confidence r = NaN
    /\ ~ between 0 1 (confidence r).
Proof.
  eexists. split; [vm_compute; reflexivity|].
  split; [reflexivity | intros []].
Qed.

End InterpolationFacts.

(* ===================================================================== *)
(** * Properties of the cache middleware                                  *)
(* ===================================================================== *)

Module CacheFacts.
Import JS Http Cache.

(** Runs the state-passing combinators of a handler. *)
Ltac run_M :=
  repeat (progress
            (unfold mtry, with_mongo, write_mongo, with_redis, write_redis,
               upstream, log, ret, mbind;
             cbv beta iota;
             cbn [mongo redis trace logged])).

Lemma Redis_get_returns r key : exists v, Redis.get r key = Return v.
Proof.
  unfold Redis.get.
  destruct (Redis.isConnected r), (Redis.client r) as [c|]; cbn; eauto.
  unfold Redis.client_get. destruct (Redis.responsive c); cbn; eauto.
Qed.

Lemma Redis_set_returns r key value :
  exists b, fst (Redis.set r key value) = Return b.
Proof.
  unfold Redis.set.
  destruct (Redis.isConnected r), (Redis.client r) as [c|]; cbn; eauto.
  destruct (Redis.client_setEx c key value); cbn; eauto.
Qed.

Lemma cacheMiddleware_hit env keyGenerator req w parsedData :
  fresh_entry env (redis w) (keyGenerator req) = Some parsedData ->
  cacheMiddleware env keyGenerator req w
  = (Return (Respond (json_response 200
                        (assign "source" (JStr "cache") (spread parsedData)))),
     logged w (CacheGet (keyGenerator req))).
Proof.
  unfold fresh_entry, cacheMiddleware. run_M.
  destruct (Redis_get_returns (redis w) (keyGenerator req)) as [v ->].
  cbv beta iota.
  destruct v as [cached|]; [|discriminate].
  destruct (truthy cached); [|discriminate].
  intros ->. reflexivity.
Qed.

Lemma cacheMiddleware_miss env keyGenerator req w :
  fresh_entry env (redis w) (keyGenerator req) = None ->
  cacheMiddleware env keyGenerator req w
  = (Return (Next (keyed req (keyGenerator req))),
     logged w (CacheGet (keyGenerator req))).
Proof.
  unfold fresh_entry, cacheMiddleware. run_M.
  destruct (Redis_get_returns (redis w) (keyGenerator req)) as [v ->].
  cbv beta iota.
  destruct v as [cached|]; [|reflexivity].
  destruct (truthy cached); [|reflexivity].
  intros ->. reflexivity.
Qed.

Lemma write_redis_set_returns k value w :
  exists w',
    (do* _ := write_redis (CacheSet k) (fun r => Redis.set r k value) in ret tt) w
    = (Return tt, w')
    /\ mongo w' = mongo w.
Proof.
  run_M.
  destruct (Redis_set_returns (redis w) k value) as [b Hb].
  destruct (Redis.set (redis w) k value) as [c r']. cbn in Hb. subst c.
  eexists. split; reflexivity.
Qed.

(** The patched [res.send] never fails and leaves the store alone. *)
Lemma setCache_send_returns env req res w :
  exists w',
    setCache_send env req res w = (Return tt, w') /\ mongo w' = mongo w.
Proof.
  unfold setCache_send.
  destruct ((200 <=? status res) && (status res <? 300));
    [|eexists; split; reflexivity].
  destruct (cacheKey req) as [k|].
  - destruct (truthy k) eqn:Ek.
    + rewrite Ek. apply write_redis_set_returns.
    + destruct (redisKey req) as [k'|]; [|eexists; split; reflexivity].
      destruct (truthy k');
        [apply write_redis_set_returns | eexists; split; reflexivity].
  - destruct (redisKey req) as [k'|]; [|eexists; split; reflexivity].
    destruct (truthy k');
      [apply write_redis_set_returns | eexists; split; reflexivity].
Qed.

End CacheFacts.

(* ===================================================================== *)
(** * Properties of the price resolver                                    *)
(* ===================================================================== *)

Module ResolverFacts.
Import JS Http Cache PriceRoute CacheFacts.





(** ** The handler on an accepted request *)

Lemma createPrice_state_on_throw m data e :
  fst (Mongo.createPrice m data) = Throw e -> snd (Mongo.createPrice m data) = m.
Proof.
  unfold Mongo.createPrice, Mongo.Price_save.
  destruct (Mongo.schema_cast data) as [d|]; [|reflexivity].
  destruct (negb (Qle_bool 0 (Mongo.price d))); [reflexivity|].
  destruct (negb (Mongo.connection_ready m)); [reflexivity|].
  destruct (Mongo.duplicate_key (Mongo.docs m) d); [reflexivity|].
  discriminate.
Qed.

(** The two failures of the write-through the handler meets: the store is
    unreachable, or the key is already there. *)
Lemma createPrice_unreachable m data d :
  Mongo.schema_cast data = Some d ->
  Qle_bool 0 (Mongo.price d) = true ->
  Mongo.connection_ready m = false ->
  Mongo.createPrice m data = (Throw Mongo.buffering_timeout, m).
Proof.
  intros Hcast Hprice Hdown. unfold Mongo.createPrice, Mongo.Price_save.
  now rewrite Hcast, Hprice, Hdown.
Qed.

Lemma createPrice_duplicate m data d :
  Mongo.schema_cast data = Some d ->
  Qle_bool 0 (Mongo.price d) = true ->
  Mongo.connection_ready m = true ->
  Mongo.duplicate_key (Mongo.docs m) d = true ->
  Mongo.createPrice m data
  = (Throw (Error "Price data already exists for this timestamp"), m).
Proof.
  intros Hcast Hprice Hup Hdup. unfold Mongo.createPrice, Mongo.Price_save.
  now rewrite Hcast, Hprice, Hup, Hdup.
Qed.

(** Steps 2 and 3 answer with the resolved price whatever the outcome of
    the write-through. *)
Lemma getPrice_resolved env req w ms data res :
  accepted env req ms ->
  Mongo.findPriceByTimestamp (mongo w) (token req) (network req)
    (unixTimestamp_of ms) = Return None ->
  Resolved env (mongo w) (token req) (network req)
    (requestedTimestamp env req) (unixTimestamp_of ms) data res ->
  exists w',
    getPrice env req w = (Return res, w')
    /\ mongo w' = snd (Mongo.createPrice (mongo w) data)
    /\ redis w' = redis w.
Proof.
  intros (Hvalid & Htoken & Hnetwork & Hparse & Hpast) Hexact Hres.
  unfold getPrice. rewrite Hvalid. cbn [length Nat.eqb negb].
  cbv zeta.
  replace (negb (Alchemy.isValidTokenAddress (token req)) && negb (isTokenSymbol (token req)))
    with false by (rewrite <- negb_orb, Htoken; reflexivity).
  unfold Alchemy.getSupportedNetworks. rewrite Hnetwork. cbn [negb].
  rewrite Hparse.
  replace (now env <? ms) with false by (symmetry; apply Z.ltb_ge; exact Hpast).
  run_M. rewrite Hexact. cbv beta iota.
  destruct Hres as [pd Hup | ir Hup Hint].
  - rewrite Hup. cbv beta iota. cbn [mongo redis trace logged].
    destruct (Mongo.createPrice (mongo w) _) as [[d|e] m'] eqn:Ec;
      cbv beta iota; eexists; repeat split.
  - rewrite Hup. cbv beta iota. cbn [mongo redis trace logged].
    rewrite Hint. cbv beta iota. cbn [mongo redis trace logged].
    destruct (Mongo.createPrice (mongo w) _) as [[d|e] m'] eqn:Ec;
      cbv beta iota; eexists; repeat split.
Qed.

(** On a cache miss the route answers what the handler answers. *)
Lemma price_route_miss env req w res w1 :
  fresh_entry env (redis w) (priceKey env req) = None ->
  getPrice env (keyed req (priceKey env req)) (logged w (CacheGet (priceKey env req)))
  = (Return res, w1) ->
  exists w', price_route env req w = (Return res, w') /\ mongo w' = mongo w1.
Proof.
  intros Hmiss Hget.
  unfold price_route, priceCacheMiddleware, mbind.
  rewrite (cacheMiddleware_miss _ _ _ _ Hmiss), Hget.
  destruct (setCache_send_returns env (keyed req (priceKey env req)) res w1)
    as (w2 & -> & Hm).
  exists w2. split; [reflexivity | exact Hm].
Qed.

Lemma route_resolved env req w ms data res :
  accepted env req ms ->
  fresh_entry env (redis w) (priceKey env req) = None ->
  Mongo.findPriceByTimestamp (mongo w) (token req) (network req)
    (unixTimestamp_of ms) = Return None ->
  Resolved env (mongo w) (token req) (network req)
    (requestedTimestamp env req) (unixTimestamp_of ms) data res ->
  exists w',
    price_route env req w = (Return res, w')
    /\ mongo w' = snd (Mongo.createPrice (mongo w) data).
Proof.
  intros Hacc Hmiss Hexact Hres.
  destruct (getPrice_resolved env (keyed req (priceKey env req))
              (logged w (CacheGet (priceKey env req))) ms data res
              Hacc Hexact Hres)
    as (w1 & Hget & Hm & _).
  destruct (price_route_miss _ _ _ _ _ Hmiss Hget) as (w' & Hroute & Hm').
  exists w'. split; [exact Hroute | rewrite Hm'; exact Hm].
Qed.

(** C7.  When the resolver has a price from the upstream or from
    interpolation and the write-through [createPrice] fails, it still
    answers 200 with the resolved price; the failure is not surfaced
    and the store is left as it was. *)
Theorem write_through_failure_not_surfaced
        (env : Env) (req : Request) (w : World) (ms : Z)
        (data : Mongo.PriceData) (res : Response) (e : error) :
  accepted env req ms ->
  fresh_entry env (redis w) (priceKey env req) = None ->
  Mongo.findPriceByTimestamp (mongo w) (token req) (network req)
    (unixTimestamp_of ms) = Return None ->
  Resolved env (mongo w) (token req) (network req)
    (requestedTimestamp env req) (unixTimestamp_of ms) data res ->
  fst (Mongo.createPrice (mongo w) data) = Throw e ->
  exists w',
    price_route env req w = (Return res, w')
    /\ status res = 200
    /\ mongo w' = mongo w.
Proof.
  intros Hacc Hmiss Hexact Hres Hfail.
  destruct (route_resolved env req w ms data res Hacc Hmiss Hexact Hres)
    as (w' & Hroute & Hm).
  exists w'. split; [exact Hroute|]. split.
  - destruct Hres; reflexivity.
  - rewrite Hm. now apply createPrice_state_on_throw with (e := e).
Qed.

(** A store outage at the write-through of an upstream price (the
    degraded-mode scenario of the specification). *)
Lemma write_through_failure_witness :
  exists w',
    price_route Fixtures.env_quote
      (Fixtures.price_request "ETH" "ethereum" "2025-06-15T11:00:00Z")
      (Fixtures.world (Fixtures.unreachable []) Fixtures.no_cache)
    = (Return (price_response (JNum 99) "alchemy" "2025-06-15T11:00:00Z"
                 "ETH" "ethereum"), w')
    /\ status (price_response (JNum 99) "alchemy" "2025-06-15T11:00:00Z"
                 "ETH" "ethereum") = 200
    /\ mongo w' = Fixtures.unreachable [].
Proof.
  apply (write_through_failure_not_surfaced
           Fixtures.env_quote
           (Fixtures.price_request "ETH" "ethereum" "2025-06-15T11:00:00Z")
           (Fixtures.world (Fixtures.unreachable []) Fixtures.no_cache)
           (Fixtures.noon_2025 - 3600000)
           (writeThrough "ETH" "ethereum" "2025-06-15T11:00:00Z"
              (unixTimestamp_of (Fixtures.noon_2025 - 3600000))
              (Fin (9900 # 100)) Mongo.alchemy)
           (price_response (JNum 99) "alchemy" "2025-06-15T11:00:00Z"
              "ETH" "ethereum")
           Mongo.buffering_timeout).
  - repeat split; try reflexivity. vm_compute. discriminate.
  - reflexivity.
  - reflexivity.
  - apply (from_upstream Fixtures.env_quote (Fixtures.unreachable [])
             "ETH" "ethereum" "2025-06-15T11:00:00Z"
             (unixTimestamp_of (Fixtures.noon_2025 - 3600000))
             {| Alchemy.price := Fin (9900 # 100);
                Alchemy.timestamp := "2025-06-15T11:00:00Z" |}).
    reflexivity.
  - reflexivity.
Defined.


(** ** Scenario 3: interpolation in the middle of a two-day gap *)

(** C1 (as the code has it).  Over the store holding ETH at 2000.00 on
    2024-01-01 and at 2200.00 on 2024-01-03, with a cache miss and the
    upstream returning null, resolving 2024-01-02T00:00:00Z answers
    price 2100 with source "interpolated"; the interpolation result
    carries confidence 141/175 (about 0.81), the weighted sum
    0.4 * 5/7 + 0.4 * 4/5 + 0.2 * 1 of the time, stability and position
    factors of the straddling pair. *)
Theorem mid_gap_interpolation (env : Env) (r : Redis.State) :
  Date_parse env "2024-01-02T00:00:00Z" = Some (Fixtures.jan2 * 1000) ->
  Fixtures.jan2 * 1000 <= now env ->
  fresh_entry env r (priceKey env Fixtures.jan2_request) = None ->
  Alchemy.getTokenPrice env "ETH" "ethereum" "2024-01-02T00:00:00Z" = Return None ->
  exists w' ir,
    price_route env Fixtures.jan2_request (Fixtures.world Fixtures.eth_store r)
    = (Return (price_response (JNum 2100) "interpolated" "2024-01-02T00:00:00Z"
                 "ETH" "ethereum"), w')
    /\ Interpolation.interpolatePrice Fixtures.eth_store "ETH" "ethereum" Fixtures.jan2
       = Return (Some ir)
    /\ number_eq (Interpolation.price ir) (Fin 2100)
    /\ number_eq (Interpolation.confidence ir) (Fin (141 # 175))
    /\ number_eq (Interpolation.timeConfidence (ofZ Fixtures.jan1) (ofZ Fixtures.jan3))
                 (Fin (5 # 7))
    /\ number_eq (Interpolation.stabilityConfidence (Fin 2000) (Fin 2200)) (Fin (4 # 5))
    /\ number_eq (Interpolation.positionConfidence
                    (ofZ Fixtures.jan2) (ofZ Fixtures.jan1) (ofZ Fixtures.jan3)) (Fin 1)
    /\ (141 # 175 == (4 # 10) * (5 # 7) + (4 # 10) * (4 # 5) + (2 # 10) * 1)%Q.
Proof.
  intros Hparse Hpast Hmiss Hup.
  destruct (Interpolation.interpolatePrice Fixtures.eth_store "ETH" "ethereum"
              Fixtures.jan2) as [[ir|]|] eqn:Hint; try (vm_compute in Hint; discriminate).
  pose proof Hint as Hval. vm_compute in Hval. injection Hval as Hval.
  destruct (route_resolved env Fixtures.jan2_request (Fixtures.world Fixtures.eth_store r)
              (Fixtures.jan2 * 1000)
              (writeThrough "ETH" "ethereum" "2024-01-02T00:00:00Z" Fixtures.jan2
                 (Interpolation.price ir) Mongo.interpolated)
              (price_response (json_of_number (Interpolation.price ir)) "interpolated"
                 "2024-01-02T00:00:00Z" "ETH" "ethereum"))
    as (w' & Hroute & _).
  - repeat split; try reflexivity; assumption.
  - exact Hmiss.
  - reflexivity.
  - apply from_interpolation; assumption.
  - exists w', ir. rewrite Hroute. subst ir.
    repeat split; vm_compute; reflexivity.
Qed.

(** The upstream answers 404 and the cache is switched off. *)
Lemma mid_gap_interpolation_witness :
  exists w' ir,
    price_route (Fixtures.env_status 404) Fixtures.jan2_request
      (Fixtures.world Fixtures.eth_store Fixtures.no_cache)
    = (Return (price_response (JNum 2100) "interpolated" "2024-01-02T00:00:00Z"
                 "ETH" "ethereum"), w')
    /\ Interpolation.interpolatePrice Fixtures.eth_store "ETH" "ethereum" Fixtures.jan2
       = Return (Some ir)
    /\ number_eq (Interpolation.price ir) (Fin 2100)
    /\ number_eq (Interpolation.confidence ir) (Fin (141 # 175))
    /\ number_eq (Interpolation.timeConfidence (ofZ Fixtures.jan1) (ofZ Fixtures.jan3))
                 (Fin (5 # 7))
    /\ number_eq (Interpolation.stabilityConfidence (Fin 2000) (Fin 2200)) (Fin (4 # 5))
    /\ number_eq (Interpolation.positionConfidence
                    (ofZ Fixtures.jan2) (ofZ Fixtures.jan1) (ofZ Fixtures.jan3)) (Fin 1)
    /\ (141 # 175 == (4 # 10) * (5 # 7) + (4 # 10) * (4 # 5) + (2 # 10) * 1)%Q.
Proof.
  apply (mid_gap_interpolation (Fixtures.env_status 404) Fixtures.no_cache).
  - reflexivity.
  - vm_compute. discriminate.
  - reflexivity.
  - reflexivity.
Defined.

(** C1 (as stated) fails: on the store of scenario 3 the confidence of
    the interpolation at 2024-01-02T00:00:00Z is not within 0.05 of
    0.91. *)
Lemma mid_gap_confidence_is_not_0_91 :
  exists ir,
    Interpolation.interpolatePrice Fixtures.eth_store "ETH" "ethereum" Fixtures.jan2
    = Return (Some ir)
    /\ ~ between (86 # 100) (96 # 100) (Interpolation.confidence ir).
Proof.
  eexists. split; [vm_compute; reflexivity|].
  intros [Hlow _]. apply Hlow. reflexivity.
Qed.

End ResolverFacts.

(* ===================================================================== *)
(** * Properties of the upstream adapter                                  *)
(* ===================================================================== *)

Module AlchemyFacts.
Import JS Alchemy.








End AlchemyFacts.

(* ===================================================================== *)
(** * Properties of the store service                                     *)
(* ===================================================================== *)

Module StoreFacts.
Import JS Mongo.

(** The two guarded reads degrade to null when the service is not ready. *)
Lemma guarded_reads_degrade st token network timestamp :
  isReady st = false ->
  findPriceByTimestamp st token network timestamp = Return None
  /\ findClosestPrices st token network timestamp = Return (None, None).
Proof.
  intros H. unfold findPriceByTimestamp, findClosestPrices. rewrite H.
  split; reflexivity.
Qed.

(** The range read has no guard: the rejection of the driver reaches
    the caller. *)
Lemma getPriceHistory_unguarded st token network startDate endDate :
  connection_ready st = false ->
  getPriceHistory st token network startDate endDate = Throw buffering_timeout.
Proof.
  intros H. unfold getPriceHistory, Price_find_range. now rewrite H.
Qed.

(** C5.  With the store unreachable the point lookup and the straddling
    lookup return null, but [getPriceHistory] rejects with the error of
    the driver instead of returning an empty list. *)
Theorem getPriceHistory_throws_when_unreachable :
  let st := Fixtures.unreachable [] in
  findPriceByTimestamp st "ETH" "ethereum" Fixtures.jan2 = Return None
  /\ findClosestPrices st "ETH" "ethereum" Fixtures.jan2 = Return (None, None)
  /\ getPriceHistory st "ETH" "ethereum"
       (Fixtures.jan1 * 1000) (Fixtures.jan3 * 1000)
     = Throw buffering_timeout.
Proof. repeat split. Qed.

End StoreFacts.

(* ===================================================================== *)
(** * Properties of the batching of the backfill worker                   *)
(* ===================================================================== *)

Module BatchFacts.
Import JS TokenUtils Worker.

Lemma Qceiling_div (n : Z) (d : positive) :
  Qceiling (inject_Z n / inject_Z (Zpos d)) = (n + Zpos d - 1) / Zpos d.
Proof.
  pose proof (Qle_ceiling (inject_Z n / inject_Z (Zpos d))) as Hle.
  pose proof (Qceiling_lt (inject_Z n / inject_Z (Zpos d))) as Hlt.
  set (c := Qceiling (inject_Z n / inject_Z (Zpos d))) in *.
  unfold Qle, Qlt, Qdiv, Qinv in Hle, Hlt. cbn in Hle, Hlt.
  assert (Zpos d * (c - 1) < n <= Zpos d * c) by nia.
  apply Z.div_unique with (r := n + Zpos d - 1 - Zpos d * c); lia.
Qed.

(** The batch size by range, in integer arithmetic. *)
Lemma calculateOptimalBatchSize_cases (total : Z) :
  calculateOptimalBatchSize total 100 10 =
  if total <=? 10 then total
  else if total <=? 100 then (total + 1) / 2
       else Z.max 10 (Z.min 100 ((total + 9) / 10)).
Proof.
  unfold calculateOptimalBatchSize, Math_ceil.
  change (inject_Z total / 2)%Q with (inject_Z total / inject_Z 2)%Q.
  change (inject_Z total / 10)%Q with (inject_Z total / inject_Z 10)%Q.
  rewrite !Qceiling_div.
  replace (total + 2 - 1) with (total + 1) by ring.
  replace (total + 10 - 1) with (total + 9) by ring.
  reflexivity.
Qed.

Lemma spec_batch_size_eq (total : Z) :
  spec_batch_size total = Z.max 10 (Z.min 100 ((total + 9) / 10)).
Proof.
  unfold spec_batch_size, Math_ceil.
  change (inject_Z total / 10)%Q with (inject_Z total / inject_Z 10)%Q.
  rewrite Qceiling_div. now replace (total + 10 - 1) with (total + 9) by ring.
Qed.

Lemma batchSize_positive {A} (missing : list A) :
  (0 < length missing)%nat -> (0 < batchSize_of missing)%nat.
Proof.
  intros H. unfold batchSize_of. rewrite calculateOptimalBatchSize_cases.
  destruct (Z.of_nat (length missing) <=? 10) eqn:E1; [lia|].
  destruct (Z.of_nat (length missing) <=? 100) eqn:E2.
  - apply Z.leb_gt in E1.
    assert (1 <= (Z.of_nat (length missing) + 1) / 2)
      by (apply Z.div_le_lower_bound; lia).
    lia.
  - lia.
Qed.

Lemma length_slice {A} (a : list A) i j :
  length (slice a i j) = Nat.min (j - i) (length a - i).
Proof. unfold slice. rewrite length_take, length_drop. reflexivity. Qed.

(** With a positive batch size the loop terminates; its batches are the
    consecutive slices of width [size] and together they make up the
    rest of the array. *)
Lemma batches_from_spec {A} (a : list A) (size i : nat) :
  (0 < size)%nat ->
  exists bs,
    batches_from a size i = Some bs
    /\ concat bs = drop i a
    /\ forall j b, bs !! j = Some b ->
                   b = slice a (i + j * size) (i + j * size + size)
                   /\ (i + j * size < length a)%nat.
Proof.
  intros Hsize.
  remember (length a - i)%nat as fuel eqn:Hfuel.
  revert i Hfuel.
  induction fuel as [fuel IH] using lt_wf_ind. intros i Hfuel.
  rewrite batches_from_equation_1.
  destruct (lt_dec i (length a)) as [Hlt | Hge]; cbn.
  - destruct size as [|size']; [lia|]. cbn.
    destruct (IH (length a - (i + S size'))%nat ltac:(lia) (i + S size')%nat eq_refl)
      as (bs & -> & Hcat & Hidx).
    eexists. split; [reflexivity|]. split.
    + cbn. rewrite Hcat. unfold slice.
      replace (i + S size' - i)%nat with (S size') by lia.
      rewrite <- drop_drop. apply take_drop.
    + intros [|j] b Hb; cbn in Hb.
      * injection Hb as <-. split; [f_equal; lia | lia].
      * destruct (Hidx j b Hb) as [-> Hj]. split; [f_equal; lia | lia].
  - exists []. split; [reflexivity|]. split.
    + cbn. symmetry. apply drop_ge. lia.
    + intros j b Hb. discriminate.
Qed.

(** C4 (as the code has it).  The worker cuts the missing timestamps
    into consecutive batches of [size] elements (the last one holding
    the remainder), where [size] is the total when there are at most 10,
    ceil(total/2) when there are 11 to 100, and
    clamp(10, ceil(total/10), 100) when there are more than 100. *)
Theorem batches_by_range {A} (missingTimestamps : list A) :
  let total := Z.of_nat (length missingTimestamps) in
  let size := batchSize_of missingTimestamps in
  Z.of_nat size =
    (if total <=? 10 then total
     else if total <=? 100 then Math_ceil (inject_Z total / 2)
          else spec_batch_size total)
  /\ exists bs,
      batches missingTimestamps = Some bs
      /\ concat bs = missingTimestamps
      /\ forall j b, bs !! j = Some b ->
           b = slice missingTimestamps (j * size) (j * size + size)
           /\ length b = Nat.min size (length missingTimestamps - j * size)
           /\ (0 < length b)%nat.
Proof.
  intros total size. split.
  - unfold size, batchSize_of. fold total.
    pose proof (calculateOptimalBatchSize_cases total) as Hc.
    rewrite Z2Nat.id.
    + rewrite spec_batch_size_eq, Hc. unfold Math_ceil.
      change (inject_Z total / 2)%Q with (inject_Z total / inject_Z 2)%Q.
      rewrite Qceiling_div.
      now replace (total + 2 - 1) with (total + 1) by ring.
    + rewrite Hc. unfold total.
      destruct (_ <=? 10); [lia|]. destruct (_ <=? 100); [|lia].
      apply Z.div_pos; lia.
  - destruct (Nat.eq_dec (length missingTimestamps) 0%nat) as [Hz | Hnz].
    + apply nil_length_inv in Hz. subst missingTimestamps.
      exists []. repeat split; try reflexivity; discriminate.
    + assert (Hpos : (0 < size)%nat) by (apply batchSize_positive; lia).
      destruct (batches_from_spec missingTimestamps size 0 Hpos)
        as (bs & Hbs & Hcat & Hidx).
      exists bs. split; [exact Hbs|]. split; [exact Hcat|].
      intros j b Hb. destruct (Hidx j b Hb) as [Heq Hlt].
      cbn [Nat.add] in Heq, Hlt. split; [exact Heq|].
      rewrite Heq, length_slice. split; [f_equal; lia | lia].
Qed.

(** C4 (as stated) fails: 50 missing timestamps are fetched in batches
    of 25, where clamp(10, ceil(50/10), 100) is 10. *)
Lemma fifty_missing_in_batches_of_25 :
  Z.of_nat (batchSize_of (seq 0 50)) <> spec_batch_size (Z.of_nat (length (seq 0 50)))
  /\ batches (seq 0 50) = Some [seq 0 25; seq 25 25].
Proof. split; [vm_compute; discriminate | vm_compute; reflexivity]. Qed.

End BatchFacts.

(* ===================================================================== *)
(** * Properties of the daily grid                                        *)
(* ===================================================================== *)

Module GridFacts.
Import JS TokenUtils.

Lemma TimeClip_in_range t : Z.abs t <= maxTime -> TimeClip t = Some t.
Proof. intros H. unfold TimeClip. now apply Z.leb_le in H as ->. Qed.

Lemma midnight_in_range t : Z.abs t <= maxTime -> Z.abs (midnight t) <= maxTime.
Proof.
  unfold midnight, maxTime, msPerDay. intros H.
  assert (-100000000 <= t / 86400000) by (apply Z.div_le_lower_bound; lia).
  assert (t / 86400000 <= 100000000) by (apply Z.div_le_upper_bound; lia).
  lia.
Qed.

Lemma daily_loop_past end_ t : end_ < t -> daily_loop end_ (Some t) = [].
Proof.
  intros H. rewrite daily_loop_equation_1.
  destruct (Z_le_dec t end_); [lia | apply daily_loop_clause_2_equation_2].
Qed.

Lemma daily_loop_step end_ t :
  t <= end_ -> daily_loop end_ (Some t) = t :: daily_loop end_ (nextUTCDate t).
Proof.
  intros H. rewrite daily_loop_equation_1.
  destruct (Z_le_dec t end_); [apply daily_loop_clause_2_equation_1 | lia].
Qed.

(** From a day [t] to the day [k] days later, the loop pushes the [k + 1]
    consecutive days. *)
Lemma daily_loop_days (k : nat) : forall t,
  - maxTime <= t -> t + Z.of_nat k * msPerDay <= maxTime ->
  daily_loop (t + Z.of_nat k * msPerDay) (Some t)
  = map (fun i => t + Z.of_nat i * msPerDay) (seq 0 (S k)).
Proof.
  induction k as [|k IH]; intros t Hlo Hhi.
  - rewrite daily_loop_step by lia.
    cbn [seq map]. f_equal; [lia|].
    unfold nextUTCDate, TimeClip.
    destruct (Z.abs (t + msPerDay) <=? maxTime); [|apply daily_loop_equation_2].
    apply daily_loop_past. unfold msPerDay. lia.
  - rewrite daily_loop_step by (unfold msPerDay; lia).
    unfold nextUTCDate.
    rewrite TimeClip_in_range by (unfold msPerDay, maxTime in *; lia).
    replace (t + Z.of_nat (S k) * msPerDay)
      with ((t + msPerDay) + Z.of_nat k * msPerDay) by lia.
    rewrite IH by (unfold msPerDay, maxTime in *; lia).
    change (seq 0 (S (S k))) with (0%nat :: seq 1 (S k)).
    cbn [map]. f_equal; [lia|].
    rewrite <- seq_shift, map_map. apply map_ext. intros i. lia.
Qed.

Lemma lookup_map_seq {B} (f : nat -> B) (n i : nat) (x : B) :
  map f (seq 0 n) !! i = Some x -> x = f i /\ (i < n)%nat.
Proof.
  change (map f (seq 0 n)) with (f <$> seq 0 n).
  rewrite list_lookup_fmap. intros H.
  destruct (seq 0 n !! i) as [j|] eqn:E; [|discriminate].
  apply lookup_seq in E as [-> Hi]. cbn in H. injection H as <-. now split.
Qed.

(** The grid in terms of [midnight]. *)
Lemma daily_grid_by_midnight (env : Env) (startDate : string) (endDate : option string)
        (t0 tn : Z) :
  Date_parse env startDate = Some t0 ->
  endInstant env endDate = Some tn ->
  Z.abs t0 <= maxTime ->
  Z.abs tn <= maxTime ->
  midnight t0 <= midnight tn ->
  let grid := generateDailyTimestamps env startDate endDate in
  let D0 := midnight t0 in
  let Dn := midnight tn in
  Z.of_nat (length grid) = (Dn - D0) / msPerDay + 1
  /\ (forall i t, grid !! i = Some t ->
                  t = D0 + Z.of_nat i * msPerDay /\ t mod msPerDay = 0)
  /\ (forall i j a b, (i < j)%nat ->
                      grid !! i = Some a -> grid !! j = Some b -> a < b).
Proof.
  intros Hstart Hend Hr0 Hrn Hle grid D0 Dn.
  set (k := Z.to_nat (tn / msPerDay - t0 / msPerDay)).
  assert (Hk : Dn = D0 + Z.of_nat k * msPerDay).
  { unfold Dn, D0, k, midnight in *. unfold msPerDay in *.
    rewrite Z2Nat.id by lia. ring. }
  assert (Hgrid : grid = map (fun i => D0 + Z.of_nat i * msPerDay) (seq 0 (S k))).
  { unfold grid, generateDailyTimestamps. rewrite Hstart, Hend.
    unfold setUTCHours0.
    rewrite !TimeClip_in_range by now apply midnight_in_range.
    fold D0 Dn. rewrite Hk.
    pose proof (midnight_in_range t0 Hr0). pose proof (midnight_in_range tn Hrn).
    apply daily_loop_days; fold D0; [lia | rewrite <- Hk; unfold Dn; lia]. }
  split; [|split].
  - rewrite Hgrid, length_map, length_seq, Hk.
    replace (D0 + Z.of_nat k * msPerDay - D0) with (Z.of_nat k * msPerDay) by ring.
    rewrite Z.div_mul by (unfold msPerDay; lia). lia.
  - intros i t Hi. rewrite Hgrid in Hi.
    apply lookup_map_seq in Hi as [-> _]. split; [reflexivity|].
    unfold D0, midnight. rewrite <- Z.mul_add_distr_r. apply Z.mod_mul.
    unfold msPerDay. lia.
  - intros i j a b Hij Ha Hb. rewrite Hgrid in Ha, Hb.
    apply lookup_map_seq in Ha as [-> _]. apply lookup_map_seq in Hb as [-> _].
    unfold msPerDay. lia.
Qed.

(** The week of 2024-01-01 to 2024-01-07, the end given with a time of
    day. *)
(** C9.  Between a start date at the instant t0 and an end date at the
    instant tn (the current time when the end date is omitted or empty),
    the day of the end not before the day of the start,
    [generateDailyTimestamps] yields (Dn - D0)/1d + 1 timestamps, where
    D0 and Dn are the UTC midnights at or before t0 and tn (the multiples
    of 86 400 000 ms with D0 <= t0 < D0 + 1d and Dn <= tn < Dn + 1d): the
    i-th is D0 plus i days, so each one is a UTC midnight, the first is
    D0, the last is Dn, and they ascend strictly. *)
Theorem daily_grid (env : Env) (startDate : string) (endDate : option string)
        (t0 tn : Z) :
  Date_parse env startDate = Some t0 ->
  (exists e, endDate = Some e /\ e <> EmptyString /\ Date_parse env e = Some tn)
  \/ ((endDate = None \/ endDate = Some EmptyString) /\ tn = now env) ->
  Z.abs t0 <= 8640000000000000 ->
  Z.abs tn <= 8640000000000000 ->
  t0 / 86400000 <= tn / 86400000 ->
  let grid := generateDailyTimestamps env startDate endDate in
  let D0 := t0 / 86400000 * 86400000 in
  let Dn := tn / 86400000 * 86400000 in
  (D0 <= t0 < D0 + 86400000 /\ Dn <= tn < Dn + 86400000)
  /\ Z.of_nat (length grid) = (Dn - D0) / 86400000 + 1
  /\ (forall i t, grid !! i = Some t ->
                  t = D0 + Z.of_nat i * 86400000 /\ t mod 86400000 = 0)
  /\ grid !! 0%nat = Some D0
  /\ last grid = Some Dn
  /\ (forall i j a b, (i < j)%nat ->
                      grid !! i = Some a -> grid !! j = Some b -> a < b).
Proof.
  intros Hstart Hend Hr0 Hrn Hle grid D0 Dn.
  assert (Hend' : endInstant env endDate = Some tn).
  { unfold endInstant.
    destruct Hend as [(e & -> & Hne & Hparse) | [[-> | ->] ->]]; try reflexivity.
    destruct e; [contradiction | exact Hparse]. }
  destruct (daily_grid_by_midnight env startDate endDate t0 tn Hstart Hend' Hr0 Hrn)
    as (Hlen & Hidx & Hasc).
  { unfold midnight, msPerDay. lia. }
  change (generateDailyTimestamps env startDate endDate) with grid in Hlen, Hidx, Hasc.
  change (midnight t0) with D0 in Hlen, Hidx.
  change (midnight tn) with Dn in Hlen.
  change msPerDay with 86400000 in Hlen, Hidx.
  split.
  { unfold D0, Dn.
    pose proof (Z.mul_div_le t0 86400000 ltac:(lia)).
    pose proof (Z.mul_succ_div_gt t0 86400000 ltac:(lia)).
    pose proof (Z.mul_div_le tn 86400000 ltac:(lia)).
    pose proof (Z.mul_succ_div_gt tn 86400000 ltac:(lia)).
    lia. }
  split; [exact Hlen|]. split; [exact Hidx|].
  assert (Hn : (Dn - D0) / 86400000 = tn / 86400000 - t0 / 86400000).
  { unfold Dn, D0. rewrite <- Z.mul_sub_distr_r. apply Z.div_mul. lia. }
  split; [|split; [|exact Hasc]].
  - destruct (grid !! 0%nat) as [t|] eqn:E.
    + destruct (Hidx 0%nat t E) as [-> _]. f_equal. lia.
    + apply lookup_ge_None in E. lia.
  - rewrite last_lookup.
    destruct (grid !! Nat.pred (length grid)) as [t|] eqn:E.
    + destruct (Hidx _ t E) as [-> _]. f_equal.
      assert (Z.of_nat (Nat.pred (length grid)) = tn / 86400000 - t0 / 86400000) as ->
        by lia.
      unfold D0, Dn. ring.
    + apply lookup_ge_None in E. lia.
Qed.

(** From 2024-01-01T00:00:00Z to 2024-01-07T18:30:00Z: the seven
    midnights of January 1st to 7th. *)
Lemma daily_grid_witness :
  let env := Fixtures.env_status 200 in
  let grid := generateDailyTimestamps env "2024-01-01T00:00:00Z"
                (Some "2024-01-07T18:30:00Z") in
  let D0 := 1704067200000 / 86400000 * 86400000 in
  let Dn := 1704652200000 / 86400000 * 86400000 in
  grid = [1704067200000; 1704153600000; 1704240000000; 1704326400000;
          1704412800000; 1704499200000; 1704585600000]
  /\ (D0 <= 1704067200000 < D0 + 86400000 /\ Dn <= 1704652200000 < Dn + 86400000)
  /\ Z.of_nat (length grid) = (Dn - D0) / 86400000 + 1
  /\ (forall i t, grid !! i = Some t ->
                  t = D0 + Z.of_nat i * 86400000 /\ t mod 86400000 = 0)
  /\ grid !! 0%nat = Some D0
  /\ last grid = Some Dn
  /\ (forall i j a b, (i < j)%nat ->
                      grid !! i = Some a -> grid !! j = Some b -> a < b).
Proof.
  split; [vm_compute; reflexivity|].
  apply (daily_grid (Fixtures.env_status 200) "2024-01-01T00:00:00Z"
           (Some "2024-01-07T18:30:00Z") 1704067200000 1704652200000).
  - reflexivity.
  - left. exists "2024-01-07T18:30:00Z". repeat split. discriminate.
  - vm_compute. discriminate.
  - vm_compute. discriminate.
  - vm_compute. discriminate.
Defined.

End GridFacts.

(* ===================================================================== *)
(** * Properties of the job registry                                      *)
(* ===================================================================== *)

Module ScheduleFacts.
Import JS Schedule.

Lemma same_pair_true job token network :
  same_pair job token network = true
  <-> toLowerCase (Schedule.token job) = toLowerCase token
      /\ toLowerCase (Schedule.network job) = toLowerCase network.
Proof.
  unfold same_pair. rewrite andb_true_iff, !String.eqb_eq. reflexivity.
Qed.

Lemma findExistingJob_Some jobs token network jobId :
  findExistingJob jobs token network = Some jobId ->
  exists job, In (jobId, job) jobs /\ same_pair job token network = true.
Proof.
  induction jobs as [|[k job] rest IH]; cbn; [discriminate|].
  fold (same_pair job token network).
  destruct (same_pair job token network) eqn:E.
  - intros [= <-]. exists job. split; [now left | exact E].
  - intros H. destruct (IH H) as (job' & Hin & Hp).
    exists job'. split; [now right | exact Hp].
Qed.

Lemma findExistingJob_None jobs token network :
  findExistingJob jobs token network = None ->
  forall jobId job, In (jobId, job) jobs -> same_pair job token network = false.
Proof.
  induction jobs as [|[k job0] rest IH]; cbn; [intros _ ? ? []|].
  fold (same_pair job0 token network).
  destruct (same_pair job0 token network) eqn:E; [discriminate|].
  intros H jobId job [[= <- <-] | Hin]; [exact E | now apply (IH H jobId)].
Qed.

Lemma same_pair_sym job1 job2 :
  same_pair job1 (Schedule.token job2) (Schedule.network job2)
  = same_pair job2 (Schedule.token job1) (Schedule.network job1).
Proof.
  unfold same_pair. now rewrite (String.eqb_sym (toLowerCase (Schedule.token job1))),
    (String.eqb_sym (toLowerCase (Schedule.network job1))).
Qed.

Lemma map_set_fresh k v (m : Registry) :
  (forall job, ~ In (k, job) m) -> map_set k v m = m ++ [(k, v)].
Proof.
  induction m as [|[k' v'] rest IH]; intros Hfresh; cbn; [reflexivity|].
  destruct (String.eqb k' k) eqn:E.
  - apply String.eqb_eq in E. subst k'. exfalso. apply (Hfresh v'). now left.
  - rewrite IH; [reflexivity|]. intros job Hin. apply (Hfresh job). now right.
Qed.

Lemma Registry_ok_empty : Registry_ok [].
Proof. split; [intros ? ? [] | intros ? ? ? ? []]. Qed.

(** [scheduleJob] keeps the registry well formed, as long as [uuidv4]
    hands out a fresh, non-empty id. *)
Lemma scheduleJob_preserves_ok env scheduledJobs q req :
  Registry_ok scheduledJobs ->
  uuidv4 env <> EmptyString ->
  (forall job, ~ In (uuidv4 env, job) scheduledJobs) ->
  Registry_ok (snd (fst (scheduleJob env scheduledJobs q req))).
Proof.
  intros Hok Hne Hfresh. pose proof Hok as [Hids Huniq].
  unfold scheduleJob.
  destruct (negb (Nat.eqb (length (r_validationErrors req)) 0)); [exact Hok|].
  destruct (findExistingJob scheduledJobs (r_token req) (r_network req))
    as [existingJobId|] eqn:Hfind.
  - destruct (findExistingJob_Some _ _ _ _ Hfind) as (job' & Hin' & _).
    destruct existingJobId; [now destruct (Hids _ _ Hin')|]. exact Hok.
  - cbn [fst snd]. rewrite map_set_fresh by exact Hfresh.
    pose proof (findExistingJob_None _ _ _ Hfind) as Hno.
    split.
    + intros jobId job Hin. apply in_app_or in Hin as [Hin | [[= <- <-] | []]];
        [now apply (Hids jobId job) | exact Hne].
    + intros id1 job1 id2 job2 H1 H2 Hpair.
      apply in_app_or in H1 as [H1 | [[= <- <-] | []]];
        apply in_app_or in H2 as [H2 | [[= <- <-] | []]].
      * now apply (Huniq id1 job1 id2 job2).
      * cbn in Hpair. rewrite (Hno id1 job1 H1) in Hpair. discriminate.
      * rewrite same_pair_sym in Hpair. cbn in Hpair.
        rewrite (Hno id2 job2 H2) in Hpair. discriminate.
      * reflexivity.
Qed.

(** C10.  A record for the pair exists: a second create for the same
    (token, network), compared without regard to case, is answered
    409 "Job already exists" with the id of that record, and neither
    the registry nor the queue changes. *)
Theorem duplicate_schedule_rejected
        (env : Env) (scheduledJobs : Registry) (q : Queue) (req : Request)
        (jobId : string) (job : JobData) :
  Registry_ok scheduledJobs ->
  In (jobId, job) scheduledJobs ->
  r_validationErrors req = [] ->
  toLowerCase (r_token req) = toLowerCase (Schedule.token job) ->
  toLowerCase (r_network req) = toLowerCase (Schedule.network job) ->
  exists message,
    scheduleJob env scheduledJobs q req
    = (JobAlreadyExists message jobId, scheduledJobs, q).
Proof.
  intros [Hids Huniq] Hin Hvalid Htoken Hnetwork.
  unfold scheduleJob. rewrite Hvalid. cbn [length Nat.eqb negb].
  destruct (findExistingJob scheduledJobs (r_token req) (r_network req))
    as [existingJobId|] eqn:Hfind.
  - destruct (findExistingJob_Some _ _ _ _ Hfind) as (job' & Hin' & Hpair).
    assert (existingJobId = jobId) as ->.
    { apply (Huniq existingJobId job' jobId job Hin' Hin).
      apply same_pair_true. apply same_pair_true in Hpair as [H1 H2].
      split; congruence. }
    destruct jobId as [|c rest]; [now destruct (Hids _ _ Hin)|].
    cbn [truthy]. eexists. reflexivity.
  - pose proof (findExistingJob_None _ _ _ Hfind jobId job Hin) as Hno.
    assert (same_pair job (r_token req) (r_network req) = true) as Hyes
      by (apply same_pair_true; split; congruence).
    congruence.
Qed.

(** Scenario 4: ("USDC", "ethereum") is registered, ("usdc", "Ethereum")
    is requested. *)
Lemma duplicate_schedule_witness :
  exists message,
    scheduleJob (Fixtures.env_status 200) Fixtures.usdc_registry Fixtures.queue_off
      (Fixtures.schedule_request "usdc" "Ethereum")
    = (JobAlreadyExists message "0b9f31aa-4f0c-4c5e-9a39-6f1c2d7e8a10",
       Fixtures.usdc_registry, Fixtures.queue_off).
Proof.
  apply (duplicate_schedule_rejected (Fixtures.env_status 200)
           Fixtures.usdc_registry Fixtures.queue_off
           (Fixtures.schedule_request "usdc" "Ethereum")
           "0b9f31aa-4f0c-4c5e-9a39-6f1c2d7e8a10" Fixtures.usdc_job).
  - split.
    + intros jobId job [[= <- <-] | []]. discriminate.
    + intros id1 job1 id2 job2 [[= <- <-] | []] [[= <- <-] | []] _. reflexivity.
  - left. reflexivity.
  - reflexivity.
  - reflexivity.
  - reflexivity.
Defined.

End ScheduleFacts.

(* ===================================================================== *)
(** * More on the store: straddling pairs, round trips, invariants        *)
(* ===================================================================== *)

Module StoreQueries.
Import JS Mongo.

Lemma fold_pick_newer l : forall acc r,
  fold_left (pick newer) l acc = r ->
  match r with
  | Some b =>
      (In b l \/ acc = Some b)
      /\ (forall d, In d l -> timestamp d <= timestamp b)
      /\ (forall a, acc = Some a -> timestamp a <= timestamp b)
  | None => l = [] /\ acc = None
  end.
Proof.
  induction l as [|x l IH]; intros acc r; cbn [fold_left].
  - intros <-. destruct acc as [a|]; [|now split].
    split; [now right|]. split; [intros d []|].
    intros a' [= <-]. lia.
  - intros H. specialize (IH _ _ H). destruct r as [b|].
    + destruct IH as (Hin & Hmax & Hacc). split; [|split].
      * destruct Hin as [Hin | Hin]; [left; now right|].
        unfold pick in Hin. destruct acc as [a|].
        -- destruct (newer x a); injection Hin as <-; [left; now left | now right].
        -- injection Hin as <-. left. now left.
      * intros d [-> | Hd]; [|now apply Hmax].
        unfold pick in Hacc. destruct acc as [a|].
        -- unfold newer in Hacc. destruct (timestamp a <? timestamp d) eqn:E.
           ++ now apply Hacc.
           ++ apply Z.ltb_ge in E. specialize (Hacc a eq_refl). lia.
        -- now apply Hacc.
      * intros a ->. unfold pick, newer in Hacc.
        destruct (timestamp a <? timestamp x) eqn:E.
        -- apply Z.ltb_lt in E. specialize (Hacc x eq_refl). lia.
        -- now apply Hacc.
    + destruct IH as [_ Hacc]. unfold pick in Hacc.
      destruct acc as [a|]; [destruct (newer x a)|]; discriminate.
Qed.

Lemma fold_pick_older l : forall acc r,
  fold_left (pick older) l acc = r ->
  match r with
  | Some b =>
      (In b l \/ acc = Some b)
      /\ (forall d, In d l -> timestamp b <= timestamp d)
      /\ (forall a, acc = Some a -> timestamp b <= timestamp a)
  | None => l = [] /\ acc = None
  end.
Proof.
  induction l as [|x l IH]; intros acc r; cbn [fold_left].
  - intros <-. destruct acc as [a|]; [|now split].
    split; [now right|]. split; [intros d []|].
    intros a' [= <-]. lia.
  - intros H. specialize (IH _ _ H). destruct r as [b|].
    + destruct IH as (Hin & Hmax & Hacc). split; [|split].
      * destruct Hin as [Hin | Hin]; [left; now right|].
        unfold pick in Hin. destruct acc as [a|].
        -- destruct (older x a); injection Hin as <-; [left; now left | now right].
        -- injection Hin as <-. left. now left.
      * intros d [-> | Hd]; [|now apply Hmax].
        unfold pick in Hacc. destruct acc as [a|].
        -- unfold older in Hacc. destruct (timestamp d <? timestamp a) eqn:E.
           ++ now apply Hacc.
           ++ apply Z.ltb_ge in E. specialize (Hacc a eq_refl). lia.
        -- now apply Hacc.
      * intros a ->. unfold pick, older in Hacc.
        destruct (timestamp x <? timestamp a) eqn:E.
        -- apply Z.ltb_lt in E. specialize (Hacc x eq_refl). lia.
        -- now apply Hacc.
    + destruct IH as [_ Hacc]. unfold pick in Hacc.
      destruct acc as [a|]; [destruct (older x a)|]; discriminate.
Qed.

Lemma same_series_true tok net d :
  same_series tok net d = true <-> token d = tok /\ network d = net.
Proof. unfold same_series. now rewrite andb_true_iff, !String.eqb_eq. Qed.

Lemma isReady_connection st : isReady st = true -> connection_ready st = true.
Proof. unfold isReady, connection_ready. now intros [_ H]%andb_true_iff. Qed.

Lemma findClosestPrices_ready st token network q :
  isReady st = true ->
  findClosestPrices st token network q
  = Return
      (first_by newer
         (List.filter (fun d => same_series (toUpperCase token) (toLowerCase network) d
                                && (timestamp d <=? q)) (docs st)),
       first_by older
         (List.filter (fun d => same_series (toUpperCase token) (toLowerCase network) d
                                && (q <=? timestamp d)) (docs st))).
Proof.
  intros H. unfold findClosestPrices, Price_findClosestPrices,
    Price_findOne_lte_desc, Price_findOne_gte_asc.
  now rewrite H, (isReady_connection _ H).
Qed.

Lemma findClosestPrices_not_ready st token network q :
  isReady st = false -> findClosestPrices st token network q = Return (None, None).
Proof. intros H. unfold findClosestPrices. now rewrite H. Qed.

(** What the "before" query returns on a ready store. *)
Lemma before_spec st token network q :
  match first_by newer
          (List.filter (fun d => same_series (toUpperCase token) (toLowerCase network) d
                                 && (timestamp d <=? q)) (docs st)) with
  | Some b =>
      in_series st token network b /\ timestamp b <= q
      /\ (forall d, in_series st token network d -> timestamp d <= q ->
                    timestamp d <= timestamp b)
  | None => forall d, in_series st token network d -> q < timestamp d
  end.
Proof.
  unfold first_by.
  match goal with
  | |- context [fold_left (pick newer) ?l None] =>
      pose proof (fold_pick_newer l None _ eq_refl) as H;
      destruct (fold_left (pick newer) l None) as [b|]
  end.
  - destruct H as ([Hin | Hin] & Hmax & _); [|discriminate].
    apply filter_In in Hin as [Hin [Hs Ht]%andb_true_iff].
    apply same_series_true in Hs as [Htok Hnet]. apply Z.leb_le in Ht.
    split; [now repeat split|]. split; [exact Ht|].
    intros d (Hd & Hdt & Hdn) Hle. apply Hmax. apply filter_In. split; [exact Hd|].
    apply andb_true_iff. split; [now apply same_series_true | now apply Z.leb_le].
  - destruct H as [Hnil _]. intros d (Hd & Hdt & Hdn).
    destruct (Z_lt_le_dec q (timestamp d)) as [Hlt | Hle]; [exact Hlt|].
    exfalso. assert (Hin : In d []); [|destruct Hin].
    rewrite <- Hnil. apply filter_In. split; [exact Hd|].
    apply andb_true_iff. split; [now apply same_series_true | now apply Z.leb_le].
Qed.

Lemma after_spec st token network q :
  match first_by older
          (List.filter (fun d => same_series (toUpperCase token) (toLowerCase network) d
                                 && (q <=? timestamp d)) (docs st)) with
  | Some a =>
      in_series st token network a /\ q <= timestamp a
      /\ (forall d, in_series st token network d -> q <= timestamp d ->
                    timestamp a <= timestamp d)
  | None => forall d, in_series st token network d -> timestamp d < q
  end.
Proof.
  unfold first_by.
  match goal with
  | |- context [fold_left (pick older) ?l None] =>
      pose proof (fold_pick_older l None _ eq_refl) as H;
      destruct (fold_left (pick older) l None) as [a|]
  end.
  - destruct H as ([Hin | Hin] & Hmin & _); [|discriminate].
    apply filter_In in Hin as [Hin [Hs Ht]%andb_true_iff].
    apply same_series_true in Hs as [Htok Hnet]. apply Z.leb_le in Ht.
    split; [now repeat split|]. split; [exact Ht|].
    intros d (Hd & Hdt & Hdn) Hle. apply Hmin. apply filter_In. split; [exact Hd|].
    apply andb_true_iff. split; [now apply same_series_true | now apply Z.leb_le].
  - destruct H as [Hnil _]. intros d (Hd & Hdt & Hdn).
    destruct (Z_lt_le_dec (timestamp d) q) as [Hlt | Hle]; [exact Hlt|].
    exfalso. assert (Hin : In d []); [|destruct Hin].
    rewrite <- Hnil. apply filter_In. split; [exact Hd|].
    apply andb_true_iff. split; [now apply same_series_true | now apply Z.leb_le].
Qed.

(** X1.  On a ready store [findClosestPrices] returns the straddling
    pair: "before" is a record of the series (token upper-cased, network
    lower-cased) at or before the target and no record of the series at or
    before the target is newer; "after" is one at or after the target and
    none at or after it is older.  A side is null exactly when the series
    has no record on that side. *)
Theorem findClosestPrices_straddles
        (st : State) (token network : string) (q : Z)
        (before after : option PriceDoc) :
  isReady st = true ->
  findClosestPrices st token network q = Return (before, after) ->
  match before with
  | Some b =>
      in_series st token network b /\ timestamp b <= q
      /\ (forall d, in_series st token network d -> timestamp d <= q ->
                    timestamp d <= timestamp b)
  | None => forall d, in_series st token network d -> q < timestamp d
  end
  /\ match after with
     | Some a =>
         in_series st token network a /\ q <= timestamp a
         /\ (forall d, in_series st token network d -> q <= timestamp d ->
                       timestamp a <= timestamp d)
     | None => forall d, in_series st token network d -> timestamp d < q
     end.
Proof.
  intros Hready H. rewrite (findClosestPrices_ready _ _ _ _ Hready) in H.
  injection H as <- <-. split; [apply before_spec | apply after_spec].
Qed.

Lemma findClosestPrices_straddles_witness :
  match Some (Fixtures.eth_point "2024-01-01T00:00:00Z" Fixtures.jan1 2000) with
  | Some b =>
      in_series Fixtures.eth_store "eth" "Ethereum" b /\ timestamp b <= Fixtures.jan2
      /\ (forall d, in_series Fixtures.eth_store "eth" "Ethereum" d ->
                    timestamp d <= Fixtures.jan2 -> timestamp d <= timestamp b)
  | None => forall d, in_series Fixtures.eth_store "eth" "Ethereum" d ->
                      Fixtures.jan2 < timestamp d
  end
  /\ match Some (Fixtures.eth_point "2024-01-03T00:00:00Z" Fixtures.jan3 2200) with
     | Some a =>
         in_series Fixtures.eth_store "eth" "Ethereum" a /\ Fixtures.jan2 <= timestamp a
         /\ (forall d, in_series Fixtures.eth_store "eth" "Ethereum" d ->
                       Fixtures.jan2 <= timestamp d -> timestamp a <= timestamp d)
     | None => forall d, in_series Fixtures.eth_store "eth" "Ethereum" d ->
                         timestamp d < Fixtures.jan2
     end.
Proof.
  apply (findClosestPrices_straddles Fixtures.eth_store "eth" "Ethereum" Fixtures.jan2);
    reflexivity.
Defined.

(** ** Strings *)

Lemma upper_ascii_idem c : upper_ascii (upper_ascii c) = upper_ascii c.
Proof. destruct c as [[] [] [] [] [] [] [] []]; reflexivity. Qed.

Lemma lower_ascii_idem c : lower_ascii (lower_ascii c) = lower_ascii c.
Proof. destruct c as [[] [] [] [] [] [] [] []]; reflexivity. Qed.

Lemma lower_upper_ascii c : lower_ascii (upper_ascii c) = lower_ascii c.
Proof. destruct c as [[] [] [] [] [] [] [] []]; reflexivity. Qed.

Lemma upper_lower_ascii c : upper_ascii (lower_ascii c) = upper_ascii c.
Proof. destruct c as [[] [] [] [] [] [] [] []]; reflexivity. Qed.

Lemma toUpperCase_idem s : toUpperCase (toUpperCase s) = toUpperCase s.
Proof. induction s as [|c s IH]; cbn; [reflexivity|]. now rewrite upper_ascii_idem, IH. Qed.

Lemma toLowerCase_idem s : toLowerCase (toLowerCase s) = toLowerCase s.
Proof. induction s as [|c s IH]; cbn; [reflexivity|]. now rewrite lower_ascii_idem, IH. Qed.

Lemma toLowerCase_upper s : toLowerCase (toUpperCase s) = toLowerCase s.
Proof. induction s as [|c s IH]; cbn; [reflexivity|]. now rewrite lower_upper_ascii, IH. Qed.

Lemma toUpperCase_lower s : toUpperCase (toLowerCase s) = toUpperCase s.
Proof. induction s as [|c s IH]; cbn; [reflexivity|]. now rewrite upper_lower_ascii, IH. Qed.

(** ** Insert and lookup *)

Lemma Price_save_success m data d m' :
  Price_save m data = (Return d, m') ->
  schema_cast data = Some d
  /\ Qle_bool 0 (price d) = true
  /\ connection_ready m = true
  /\ duplicate_key (docs m) d = false
  /\ m' = {| isConnected := isConnected m; readyState := readyState m;
             docs := docs m ++ [d] |}.
Proof.
  unfold Price_save. destruct (schema_cast data) as [d0|]; [|discriminate].
  destruct (Qle_bool 0 (price d0)) eqn:Hp; [|discriminate]. cbn [negb].
  destruct (connection_ready m); [|discriminate]. cbn [negb].
  destruct (duplicate_key (docs m) d0) eqn:Hd; [discriminate|].
  intros [= <- <-]. repeat split; assumption.
Qed.

Lemma createPrice_success m data d m' :
  createPrice m data = (Return d, m') -> Price_save m data = (Return d, m').
Proof.
  unfold createPrice. destruct (Price_save m data) as [[d0|e] m0].
  - now intros [= <- <-].
  - destruct e as [ | | | | code | | | ]; try discriminate.
    destruct code as [|p|p]; try discriminate.
    repeat (destruct p as [p|p|]; try discriminate).
Qed.

Lemma createPrice_failure m data e m' :
  createPrice m data = (Throw e, m') -> m' = m.
Proof.
  unfold createPrice, Price_save.
  destruct (schema_cast data) as [d|]; [|now intros [= _ <-]].
  destruct (negb (Qle_bool 0 (price d))); [now intros [= _ <-]|].
  destruct (negb (connection_ready m)); [now intros [= _ <-]|].
  destruct (duplicate_key (docs m) d); [now intros [= _ <-] | discriminate].
Qed.

Lemma schema_cast_fields data d :
  schema_cast data = Some d ->
  token d = toUpperCase (pd_token data)
  /\ network d = toLowerCase (pd_network data)
  /\ timestamp d = pd_timestamp data.
Proof.
  unfold schema_cast. destruct (pd_price data); try discriminate.
  intros [= <-]. repeat split.
Qed.

Lemma find_app_fresh (p : PriceDoc -> bool) l d :
  existsb p l = false -> p d = true -> List.find p (l ++ [d]) = Some d.
Proof.
  induction l as [|x l IH]; cbn; intros Hl Hd.
  - now rewrite Hd.
  - apply orb_false_iff in Hl as [Hx Hl]. rewrite Hx. now apply IH.
Qed.

(** X2.  Insert then lookup: after [createPrice] succeeded (the service
    being connected), [findPriceByTimestamp] with the token, network and
    timestamp that were written returns the document that was stored. *)
Theorem createPrice_then_findPriceByTimestamp
        (m m' : State) (data : PriceData) (d : PriceDoc) :
  isConnected m = true ->
  createPrice m data = (Return d, m') ->
  findPriceByTimestamp m' (pd_token data) (pd_network data) (pd_timestamp data)
  = Return (Some d).
Proof.
  intros Hconn Hc. apply createPrice_success, Price_save_success in Hc
    as (Hcast & _ & Hready & Hdup & ->).
  destruct (schema_cast_fields _ _ Hcast) as (Htok & Hnet & Hts).
  unfold findPriceByTimestamp, isReady, Price_findOne, connection_ready in *.
  cbn [isConnected readyState docs]. rewrite Hconn, Hready. cbn [andb negb try_catch].
  rewrite <- Htok, <- Hnet, <- Hts.
  rewrite (find_app_fresh _ (docs m) d); [reflexivity | exact Hdup |].
  apply andb_true_iff. split; [now apply same_series_true | apply Z.eqb_refl].
Qed.

Lemma createPrice_then_findPriceByTimestamp_witness :
  findPriceByTimestamp
    {| isConnected := true; readyState := 1;
       docs := docs Fixtures.eth_store
               ++ [Fixtures.eth_point "2024-01-02T00:00:00Z" Fixtures.jan2 2100] |}
    "eth" "Ethereum" Fixtures.jan2
  = Return (Some (Fixtures.eth_point "2024-01-02T00:00:00Z" Fixtures.jan2 2100)).
Proof.
  apply (createPrice_then_findPriceByTimestamp Fixtures.eth_store _
           {| pd_token := "eth"; pd_network := "Ethereum";
              pd_date := "2024-01-02T00:00:00Z"; pd_timestamp := Fixtures.jan2;
              pd_price := Fin 2100; pd_source := alchemy |}).
  - reflexivity.
  - reflexivity.
Defined.

(** ** The invariant of the collection *)

Lemma duplicate_key_false l d :
  duplicate_key l d = false -> ~ In (key d) (map key l).
Proof.
  unfold duplicate_key. intros H Hin. apply in_map_iff in Hin as (x & Hk & Hx).
  assert (existsb (fun x => same_series (token d) (network d) x
                            && (timestamp x =? timestamp d)) l = true); [|congruence].
  apply existsb_exists. exists x. split; [exact Hx|].
  unfold key in Hk. injection Hk as H1 H2 H3.
  apply andb_true_iff. split; [now apply same_series_true | now apply Z.eqb_eq].
Qed.

(** X3.  [createPrice] keeps the collection well formed: no two documents
    share (token, network, timestamp), tokens are upper-case, networks
    lower-case and prices at least 0; and when it rejects (validation,
    connection or duplicate key) the collection is left as it was. *)
Theorem createPrice_keeps_Store_ok (m : State) (data : PriceData) :
  Store_ok (docs m) ->
  Store_ok (docs (snd (createPrice m data)))
  /\ (forall e, fst (createPrice m data) = Throw e -> snd (createPrice m data) = m).
Proof.
  intros [Hnodup Hnorm]. split.
  - destruct (createPrice m data) as [[d|e] m'] eqn:Hc; cbn [snd].
    + apply createPrice_success, Price_save_success in Hc
        as (Hcast & Hprice & _ & Hdup & ->). cbn [docs].
      destruct (schema_cast_fields _ _ Hcast) as (Htok & Hnet & _).
      split.
      * rewrite map_app. cbn [map]. apply NoDup_app. split; [exact Hnodup|].
        split; [|apply NoDup_singleton].
        intros k Hk Hin. apply list_elem_of_In in Hk.
        apply list_elem_of_In in Hin as [<- | []].
        now apply (duplicate_key_false _ _ Hdup).
      * apply Forall_app. split; [exact Hnorm|]. constructor; [|constructor].
        repeat split.
        -- rewrite Htok. now rewrite toUpperCase_idem.
        -- rewrite Hnet. now rewrite toLowerCase_idem.
        -- now apply Qle_bool_iff.
    + apply createPrice_failure in Hc as ->. now split.
  - intros e He. destruct (createPrice m data) as [r m'] eqn:Hc. cbn in He. subst r.
    now apply createPrice_failure in Hc.
Qed.

Lemma Store_ok_eth_store : Store_ok (docs Fixtures.eth_store).
Proof.
  split.
  - cbn. repeat constructor; rewrite ?list_elem_of_In; cbn; intuition discriminate.
  - repeat constructor; cbn; discriminate.
Qed.

Lemma createPrice_keeps_Store_ok_witness :
  Store_ok (docs (snd (createPrice Fixtures.eth_store
                         {| pd_token := "eth"; pd_network := "Ethereum";
                            pd_date := "2024-01-01T00:00:00Z";
                            pd_timestamp := Fixtures.jan1;
                            pd_price := Fin 1999; pd_source := alchemy |})))
  /\ (forall e,
        fst (createPrice Fixtures.eth_store
               {| pd_token := "eth"; pd_network := "Ethereum";
                  pd_date := "2024-01-01T00:00:00Z";
                  pd_timestamp := Fixtures.jan1;
                  pd_price := Fin 1999; pd_source := alchemy |}) = Throw e ->
        snd (createPrice Fixtures.eth_store
               {| pd_token := "eth"; pd_network := "Ethereum";
                  pd_date := "2024-01-01T00:00:00Z";
                  pd_timestamp := Fixtures.jan1;
                  pd_price := Fin 1999; pd_source := alchemy |}) = Fixtures.eth_store).
Proof.
  apply (createPrice_keeps_Store_ok Fixtures.eth_store). exact Store_ok_eth_store.
Defined.

End StoreQueries.

(* ===================================================================== *)
(** * More on the interpolation engine                                    *)
(* ===================================================================== *)

Module InterpolationValues.
Import JS Mongo NumberFacts Interpolation StoreQueries.

(** What a result was built from. *)
Lemma interpolatePrice_Some st token network q r :
  interpolatePrice st token network q = Return (Some r) ->
  exists b a,
    isReady st = true
    /\ findClosestPrices st token network q = Return (Some b, Some a)
    /\ timestamp b <> timestamp a
    /\ r = {| Interpolation.price :=
                div (Math_round
                       (mul (add (Fin (Mongo.price b))
                                 (mul (sub (Fin (Mongo.price a)) (Fin (Mongo.price b)))
                                      (div (sub (ofZ q) (ofZ (timestamp b)))
                                           (sub (ofZ (timestamp a)) (ofZ (timestamp b))))))
                            (Fin 100)))
                    (Fin 100);
              confidence :=
                calculateInterpolationConfidence (ofZ q) (ofZ (timestamp b))
                  (ofZ (timestamp a)) (Fin (Mongo.price b)) (Fin (Mongo.price a));
              before := {| dp_timestamp := timestamp b; dp_price := Mongo.price b;
                           timeDiff := q - timestamp b |};
              after := {| dp_timestamp := timestamp a; dp_price := Mongo.price a;
                          timeDiff := timestamp a - q |} |}.
Proof.
  unfold interpolatePrice. destruct (isReady st) eqn:Hready.
  - rewrite (findClosestPrices_ready _ _ _ _ Hready). cbn [bind try_catch].
    destruct (first_by newer _) as [b|], (first_by older _) as [a|]; try discriminate.
    destruct (timestamp b =? timestamp a) eqn:E; [discriminate|].
    intros [= <-]. exists b, a. repeat split. now apply Z.eqb_neq.
  - rewrite (findClosestPrices_not_ready _ _ _ _ Hready). discriminate.
Qed.

(** X4.  A stored point is never re-derived: on a ready store that holds
    a record of the series at exactly the target timestamp,
    [interpolatePrice] returns null (both sides of the straddling pair are
    at the target). *)
Theorem stored_point_is_not_interpolated
        (st : State) (token network : string) (q : Z) (d : PriceDoc) :
  isReady st = true ->
  in_series st token network d ->
  timestamp d = q ->
  interpolatePrice st token network q = Return None.
Proof.
  intros Hready Hd Hq. unfold interpolatePrice.
  rewrite (findClosestPrices_ready _ _ _ _ Hready). cbn [bind try_catch].
  pose proof (before_spec st token network q) as Hb.
  pose proof (after_spec st token network q) as Ha.
  destruct (first_by newer _) as [b|]; [|specialize (Hb d Hd); lia].
  destruct (first_by older _) as [a|]; [|specialize (Ha d Hd); lia].
  destruct Hb as (_ & Hbq & Hbmax). destruct Ha as (_ & Haq & Hamin).
  specialize (Hbmax d Hd ltac:(lia)). specialize (Hamin d Hd ltac:(lia)).
  replace (timestamp b =? timestamp a) with true; [reflexivity|].
  symmetry. apply Z.eqb_eq. lia.
Qed.

Lemma stored_point_is_not_interpolated_witness :
  interpolatePrice Fixtures.eth_store "eth" "ethereum" Fixtures.jan3 = Return None.
Proof.
  apply (stored_point_is_not_interpolated Fixtures.eth_store "eth" "ethereum"
           Fixtures.jan3 (Fixtures.eth_point "2024-01-03T00:00:00Z" Fixtures.jan3 2200)).
  - reflexivity.
  - split; [right; left; reflexivity | split; reflexivity].
  - reflexivity.
Defined.

(** The pair that a result is built from: the nearest records on either
    side of the target, which lies strictly between them. *)
Lemma closest_pair_strict st token network q b a :
  isReady st = true ->
  findClosestPrices st token network q = Return (Some b, Some a) ->
  timestamp b <> timestamp a ->
  in_series st token network b /\ in_series st token network a
  /\ timestamp b < q < timestamp a
  /\ (forall d, in_series st token network d ->
                timestamp d <= timestamp b \/ timestamp a <= timestamp d).
Proof.
  intros Hready H Hne. rewrite (findClosestPrices_ready _ _ _ _ Hready) in H.
  pose proof (before_spec st token network q) as Hb.
  pose proof (after_spec st token network q) as Ha.
  injection H as Eb Ea. rewrite Eb in Hb. rewrite Ea in Ha.
  destruct Hb as (Hbs & Hbq & Hbmax). destruct Ha as (Has & Haq & Hamin).
  split; [exact Hbs|]. split; [exact Has|].
  split; [specialize (Hbmax a Has); specialize (Hamin b Hbs); lia|].
  intros d Hd. destruct (Z_le_gt_dec (timestamp d) q) as [Hle | Hgt].
  - left. now apply Hbmax.
  - right. apply Hamin; [exact Hd | lia].
Qed.

(** X5.  Interpolation is only ever between neighbours.  Whenever
    [interpolatePrice] returns a result, its two data points are records
    of the series, one strictly before and one strictly after the
    target, with no record of the series between them; they carry the
    timestamps and prices of those records, and their time differences
    are the positive distances to the target, which add up to the gap
    between the two records. *)
Theorem interpolation_is_between_neighbours
        (st : State) (token network : string) (q : Z) (r : InterpolationResult) :
  interpolatePrice st token network q = Return (Some r) ->
  exists b a : PriceDoc,
    in_series st token network b /\ in_series st token network a
    /\ timestamp b < q < timestamp a
    /\ (forall d, in_series st token network d ->
                  timestamp d <= timestamp b \/ timestamp a <= timestamp d)
    /\ dp_timestamp (before r) = timestamp b /\ dp_price (before r) = Mongo.price b
    /\ dp_timestamp (after r) = timestamp a /\ dp_price (after r) = Mongo.price a
    /\ timeDiff (before r) = q - timestamp b
    /\ timeDiff (after r) = timestamp a - q
    /\ 0 < timeDiff (before r) /\ 0 < timeDiff (after r)
    /\ timeDiff (before r) + timeDiff (after r) = timestamp a - timestamp b.
Proof.
  intros H. apply interpolatePrice_Some in H as (b & a & Hready & Hc & Hne & ->).
  destruct (closest_pair_strict _ _ _ _ _ _ Hready Hc Hne) as (Hb & Ha & Hlt & Hnear).
  exists b, a. cbn [before after dp_timestamp dp_price timeDiff].
  split; [exact Hb|]. split; [exact Ha|]. split; [exact Hlt|]. split; [exact Hnear|].
  repeat split; try reflexivity; lia.
Qed.

Lemma interpolation_is_between_neighbours_witness :
  exists r,
    interpolatePrice Fixtures.eth_store "eth" "Ethereum" Fixtures.jan2 = Return (Some r)
    /\ exists b a : PriceDoc,
      in_series Fixtures.eth_store "eth" "Ethereum" b
      /\ in_series Fixtures.eth_store "eth" "Ethereum" a
      /\ timestamp b < Fixtures.jan2 < timestamp a
      /\ (forall d, in_series Fixtures.eth_store "eth" "Ethereum" d ->
                    timestamp d <= timestamp b \/ timestamp a <= timestamp d)
      /\ dp_timestamp (before r) = timestamp b /\ dp_price (before r) = Mongo.price b
      /\ dp_timestamp (after r) = timestamp a /\ dp_price (after r) = Mongo.price a
      /\ timeDiff (before r) = Fixtures.jan2 - timestamp b
      /\ timeDiff (after r) = timestamp a - Fixtures.jan2
      /\ 0 < timeDiff (before r) /\ 0 < timeDiff (after r)
      /\ timeDiff (before r) + timeDiff (after r) = timestamp a - timestamp b.
Proof.
  eexists. split; [vm_compute; reflexivity|].
  apply (interpolation_is_between_neighbours Fixtures.eth_store "eth" "Ethereum"
           Fixtures.jan2).
  vm_compute. reflexivity.
Defined.

End InterpolationValues.

(* ===================================================================== *)
(** * The resolver, step by step                                          *)
(* ===================================================================== *)

Module ResolverSteps.
Import JS Http Cache PriceRoute CacheFacts.

Lemma try_catch_returns {A} (c : completion A) (d : A) :
  exists v, try_catch c (fun _ => Return d) = Return v.
Proof. destruct c; cbn; eauto. Qed.

Lemma findPriceByTimestamp_returns m token network ts :
  exists v, Mongo.findPriceByTimestamp m token network ts = Return v.
Proof.
  unfold Mongo.findPriceByTimestamp.
  destruct (negb (Mongo.isReady m)); [eauto | apply try_catch_returns].
Qed.

Lemma getTokenPrice_returns env token network ts :
  exists v, Alchemy.getTokenPrice env token network ts = Return v.
Proof. apply try_catch_returns. Qed.

Lemma interpolatePrice_returns m token network ts :
  exists v, Interpolation.interpolatePrice m token network ts = Return v.
Proof. apply try_catch_returns. Qed.

(** The write-through step of the handler never fails. *)
Lemma write_through_returns data w :
  exists w',
    mtry (do* _ := write_mongo (fun m => Mongo.createPrice m data) in ret tt)
         (fun _ => ret tt) w = (Return tt, w')
    /\ redis w' = redis w.
Proof.
  run_M. destruct (Mongo.createPrice (mongo w) data) as [[d|e] m'];
    eexists; split; reflexivity.
Qed.

(** The answers of the handler: a rejection that touches nothing, a 404
    that leaves the store as it was, or a price. *)
Lemma getPrice_cases env req w :
  exists res w',
    getPrice env req w = (Return res, w')
    /\ redis w' = redis w
    /\ ((status res = 400 /\ w' = w)
        \/ (status res = 404 /\ mongo w' = mongo w)
        \/ (exists price source timestamp token network,
               res = price_response price source timestamp token network)).
Proof.
  unfold getPrice.
  destruct (negb (Nat.eqb (length (validationErrors req)) 0)).
  { do 2 eexists. split; [reflexivity|]. split; [reflexivity|]. left. now split. }
  cbv zeta.
  destruct (negb (Alchemy.isValidTokenAddress (token req))
            && negb (isTokenSymbol (token req))).
  { do 2 eexists. split; [reflexivity|]. split; [reflexivity|]. left. now split. }
  destruct (negb (existsb (String.eqb (network req)) Alchemy.getSupportedNetworks)).
  { do 2 eexists. split; [reflexivity|]. split; [reflexivity|]. left. now split. }
  destruct (Date_parse env (requestedTimestamp env req)) as [timestampDate|].
  2: { do 2 eexists. split; [reflexivity|]. split; [reflexivity|]. left. now split. }
  destruct (now env <? timestampDate).
  { do 2 eexists. split; [reflexivity|]. split; [reflexivity|]. left. now split. }
  run_M.
  destruct (findPriceByTimestamp_returns (mongo w) (token req) (network req)
              (unixTimestamp_of timestampDate)) as [existing ->].
  cbv beta iota. destruct existing as [existing|].
  { do 2 eexists. split; [reflexivity|]. split; [reflexivity|].
    right. right. do 5 eexists. reflexivity. }
  destruct (getTokenPrice_returns env (token req) (network req)
              (requestedTimestamp env req)) as [priceData ->].
  cbv beta iota. cbn [mongo redis trace logged]. destruct priceData as [pd|].
  { match goal with
    | |- context [Mongo.createPrice ?m ?data] =>
        destruct (Mongo.createPrice m data) as [[d|e] m']
    end; cbv beta iota;
      do 2 eexists; (split; [reflexivity|]); (split; [reflexivity|]);
      right; right; do 5 eexists; reflexivity. }
  run_M.
  destruct (interpolatePrice_returns (mongo w) (token req) (network req)
              (unixTimestamp_of timestampDate)) as [ir ->].
  cbv beta iota. cbn [mongo redis trace logged]. destruct ir as [ir|].
  { match goal with
    | |- context [Mongo.createPrice ?m ?data] =>
        destruct (Mongo.createPrice m data) as [[d|e] m']
    end; cbv beta iota;
      do 2 eexists; (split; [reflexivity|]); (split; [reflexivity|]);
      right; right; do 5 eexists; reflexivity. }
  do 2 eexists. split; [reflexivity|]. split; [reflexivity|].
  right. left. now split.
Qed.

Lemma priceKey_truthy env req : truthy (priceKey env req) = true.
Proof. reflexivity. Qed.

Lemma setCache_send_skips env req res w :
  (200 <=? status res) && (status res <? 300) = false ->
  setCache_send env req res w = (Return tt, w).
Proof. intros H. unfold setCache_send. now rewrite H. Qed.

Lemma setCache_send_keyed env req key res w :
  status res = 200 ->
  truthy key = true ->
  setCache_send env (keyed req key) res w
  = (do* _ := write_redis (CacheSet key)
                (fun r => Redis.set r key
                            (JSON_stringify env
                               (JObj (match body res with
                                      | JObj fields =>
                                          match assoc "price" fields with
                                          | Some p => [("price", p)]
                                          | None => []
                                          end
                                      | _ => []
                                      end
                                      ++ [("source", JStr "alchemy");
                                          ("timestamp", JStr (nowIso env));
                                          ("cachedAt", JStr (nowIso env))])))) in
     ret tt) w.
Proof.
  intros Hs Hk. unfold setCache_send. rewrite Hs.
  cbn [keyed set_cacheKey set_redisKey cacheKey]. rewrite Hk.
  cbv beta iota zeta. rewrite Hk. reflexivity.
Qed.

(** The route is the cache probe followed, on a miss, by the handler and
    the patched [res.send]. *)
Lemma price_route_on_miss env req w res w1 :
  fresh_entry env (redis w) (priceKey env req) = None ->
  getPrice env (keyed req (priceKey env req)) (logged w (CacheGet (priceKey env req)))
  = (Return res, w1) ->
  price_route env req w
  = (let '(_, w2) := setCache_send env (keyed req (priceKey env req)) res w1 in
     (Return res, w2)).
Proof.
  intros Hmiss Hget.
  unfold price_route, priceCacheMiddleware, mbind.
  rewrite (cacheMiddleware_miss _ _ _ _ Hmiss), Hget.
  destruct (setCache_send_returns env (keyed req (priceKey env req)) res w1)
    as (w2 & -> & _).
  reflexivity.
Qed.

(** The outcomes of the route in a state of the model. *)
Lemma price_route_cases (env : Env) (req : Request) (w : World) :
  exists res w',
    price_route env req w = (Return res, w')
    /\ (status res = 200 \/ status res = 400 \/ status res = 404)
    /\ (status res <> 200 -> mongo w' = mongo w /\ redis w' = redis w).
Proof.
  destruct (fresh_entry env (redis w) (priceKey env req)) as [parsedData|] eqn:Hfresh.
  - do 2 eexists. split.
    + unfold price_route, priceCacheMiddleware, mbind.
      rewrite (cacheMiddleware_hit _ _ _ _ _ Hfresh). reflexivity.
    + split; [now left|]. intros H. now contradiction H.
  - destruct (getPrice_cases env (keyed req (priceKey env req))
                (logged w (CacheGet (priceKey env req))))
      as (res & w1 & Hget & Hredis & Hcases).
    rewrite (price_route_on_miss _ _ _ _ _ Hfresh Hget).
    destruct Hcases as [[Hs ->] | [[Hs Hm] | (p & s & t & tok & net & ->)]].
    + rewrite setCache_send_skips by now rewrite Hs.
      do 2 eexists. split; [reflexivity|]. split; [tauto|]. intros _. now split.
    + rewrite setCache_send_skips by now rewrite Hs.
      do 2 eexists. split; [reflexivity|]. split; [tauto|]. intros _. now split.
    + destruct (setCache_send_returns env (keyed req (priceKey env req))
                  (price_response p s t tok net) w1) as (w2 & -> & _).
      do 2 eexists. split; [reflexivity|]. split; [now left|].
      intros H. now contradiction H.
Qed.

(** X7.  Whenever the route settles, it is with an answer of status 200,
    400 or 404: it is never a rejection, and the 500 branch of the
    handler is never taken, every service call catching its own errors.
    An answer other than 200 is not cached and leaves the store as it
    was.  (Whether the route settles is another matter: it does in every
    state modelled here, but not while a cache or store command stays
    pending.) *)
Theorem price_route_settles_with_200_400_or_404
        (env : Env) (req : Request) (w w' : World) (outcome : completion Response) :
  price_route env req w = (outcome, w') ->
  exists res,
    outcome = Return res
    /\ (status res = 200 \/ status res = 400 \/ status res = 404)
    /\ (status res <> 200 -> mongo w' = mongo w /\ redis w' = redis w).
Proof.
  intros H. destruct (price_route_cases env req w) as (res & w1 & Hroute & Hs & Hrest).
  rewrite Hroute in H. injection H as <- <-.
  exists res. split; [reflexivity|]. split; [exact Hs | exact Hrest].
Qed.

(** No price anywhere: the store is empty, the upstream answers 404 and
    the cache is off. *)
Lemma price_route_settles_with_200_400_or_404_witness :
  let w := Fixtures.world (Fixtures.connected []) Fixtures.no_cache in
  let run := price_route (Fixtures.env_status 404) Fixtures.jan2_request w in
  exists res,
    fst run = Return res
    /\ (status res = 200 \/ status res = 400 \/ status res = 404)
    /\ (status res <> 200 -> mongo (snd run) = mongo w /\ redis (snd run) = redis w).
Proof.
  cbv zeta.
  apply (price_route_settles_with_200_400_or_404 (Fixtures.env_status 404)
           Fixtures.jan2_request
           (Fixtures.world (Fixtures.connected []) Fixtures.no_cache)).
  apply surjective_pairing.
Defined.

(** Step 1 of the handler on an accepted request. *)
Lemma getPrice_stored env req w ms existing :
  accepted env req ms ->
  Mongo.findPriceByTimestamp (mongo w) (token req) (network req)
    (unixTimestamp_of ms) = Return (Some existing) ->
  getPrice env req w
  = (Return (price_response (json_of_number (Fin (Mongo.price existing)))
               (source_name (Mongo.source existing)) (Mongo.date existing)
               (Mongo.token existing) (Mongo.network existing)),
     logged w StoreRead).
Proof.
  intros (Hvalid & Htoken & Hnetwork & Hparse & Hpast) Hexact.
  unfold getPrice. rewrite Hvalid. cbn [length Nat.eqb negb].
  cbv zeta.
  replace (negb (Alchemy.isValidTokenAddress (token req)) && negb (isTokenSymbol (token req)))
    with false by (rewrite <- negb_orb, Htoken; reflexivity).
  unfold Alchemy.getSupportedNetworks. rewrite Hnetwork. cbn [negb].
  rewrite Hparse.
  replace (now env <? ms) with false by (symmetry; apply Z.ltb_ge; exact Hpast).
  run_M. rewrite Hexact. reflexivity.
Qed.

Lemma write_redis_set_trace k value w :
  exists w',
    (do* _ := write_redis (CacheSet k) (fun r => Redis.set r k value) in ret tt) w
    = (Return tt, w')
    /\ mongo w' = mongo w
    /\ redis w' = snd (Redis.set (redis w) k value)
    /\ trace w' = trace w ++ [CacheSet k].
Proof.
  run_M.
  destruct (Redis_set_returns (redis w) k value) as [b Hb].
  destruct (Redis.set (redis w) k value) as [c r']. cbn in Hb. subst c.
  eexists. repeat split.
Qed.

(** X8.  A price the store already holds for the requested second is
    served as stored: on a cache miss the route answers 200 with the
    price, source, date, token and network of the stored record (not those
    of the request), without calling the upstream and without writing to
    the store; the only accesses are the cache probe, the store read and
    the write of the cache entry. *)
Theorem stored_price_is_served
        (env : Env) (req : Request) (w : World) (ms : Z) (existing : Mongo.PriceDoc) :
  accepted env req ms ->
  fresh_entry env (redis w) (priceKey env req) = None ->
  Mongo.findPriceByTimestamp (mongo w) (token req) (network req)
    (unixTimestamp_of ms) = Return (Some existing) ->
  exists w',
    price_route env req w
    = (Return (price_response (json_of_number (Fin (Mongo.price existing)))
                 (source_name (Mongo.source existing)) (Mongo.date existing)
                 (Mongo.token existing) (Mongo.network existing)), w')
    /\ mongo w' = mongo w
    /\ trace w' = trace w ++ [CacheGet (priceKey env req); StoreRead;
                              CacheSet (priceKey env req)].
Proof.
  intros Hacc Hmiss Hexact.
  pose proof (getPrice_stored env (keyed req (priceKey env req))
                (logged w (CacheGet (priceKey env req))) ms existing Hacc Hexact)
    as Hget.
  rewrite (price_route_on_miss _ _ _ _ _ Hmiss Hget).
  rewrite setCache_send_keyed by reflexivity.
  match goal with
  | |- context [Redis.set _ ?k ?v] =>
      destruct (write_redis_set_trace k v
                  (logged (logged w (CacheGet (priceKey env req))) StoreRead))
        as (w' & -> & Hm & _ & Ht)
  end.
  exists w'. split; [reflexivity|]. split; [exact Hm|].
  rewrite Ht. cbn [trace logged]. now rewrite <- !app_assoc.
Qed.

Lemma stored_price_is_served_witness :
  exists w',
    price_route (Fixtures.env_status 404)
      (Fixtures.price_request "eth" "ethereum" "2024-01-03T00:00:00Z")
      (Fixtures.world Fixtures.eth_store Fixtures.no_cache)
    = (Return (price_response
                 (json_of_number
                    (Fin (Mongo.price
                            (Fixtures.eth_point "2024-01-03T00:00:00Z" Fixtures.jan3 2200))))
                 (source_name
                    (Mongo.source
                       (Fixtures.eth_point "2024-01-03T00:00:00Z" Fixtures.jan3 2200)))
                 (Mongo.date
                    (Fixtures.eth_point "2024-01-03T00:00:00Z" Fixtures.jan3 2200))
                 (Mongo.token
                    (Fixtures.eth_point "2024-01-03T00:00:00Z" Fixtures.jan3 2200))
                 (Mongo.network
                    (Fixtures.eth_point "2024-01-03T00:00:00Z" Fixtures.jan3 2200))), w')
    /\ mongo w' = mongo (Fixtures.world Fixtures.eth_store Fixtures.no_cache)
    /\ trace w'
       = trace (Fixtures.world Fixtures.eth_store Fixtures.no_cache)
         ++ [CacheGet (priceKey (Fixtures.env_status 404)
                         (Fixtures.price_request "eth" "ethereum" "2024-01-03T00:00:00Z"));
             StoreRead;
             CacheSet (priceKey (Fixtures.env_status 404)
                         (Fixtures.price_request "eth" "ethereum" "2024-01-03T00:00:00Z"))].
Proof.
  apply (stored_price_is_served (Fixtures.env_status 404)
           (Fixtures.price_request "eth" "ethereum" "2024-01-03T00:00:00Z")
           (Fixtures.world Fixtures.eth_store Fixtures.no_cache)
           (Fixtures.jan3 * 1000)).
  - repeat split; try reflexivity. vm_compute. discriminate.
  - reflexivity.
  - reflexivity.
Defined.

(** ** Two requests in a row *)

Lemma priceKey_explicit env env' req t :
  timestamp req = Some t -> t <> EmptyString ->
  priceKey env' req = priceKey env req.
Proof.
  intros Ht Hne. unfold priceKey, Redis.generateKey. rewrite Ht.
  unfold Redis.or_default at 3 6. destruct t; [contradiction | reflexivity].
Qed.

Lemma Redis_set_get r c key value :
  Redis.isConnected r = true ->
  Redis.client r = Some c ->
  Redis.responsive c = true ->
  Redis.get (snd (Redis.set r key value)) key = Return (Some value).
Proof.
  intros Hc Hcl Hr. unfold Redis.set, Redis.client_setEx. rewrite Hc, Hcl, Hr.
  unfold Redis.get, Redis.client_get. cbn. now rewrite lookup_insert_eq.
Qed.

(** X9.  A resolved price is served from the cache the next time.  With
    the cache connected, after the route has answered 200 on a miss for a
    request that names its timestamp, the same request (at a later clock)
    is answered from the cache without touching the store or the
    upstream.  The second answer carries the price of the first, the
    source "cache", and as [timestamp] and [cachedAt] the time the entry
    was written, not the requested timestamp; the token and network of
    the first answer are not kept. *)
Theorem second_request_is_served_from_cache
        (env env' : Env) (req : Request) (w w1 : World) (res : Response)
        (t : string) (c : Redis.Client) (fields : list (string * json)) (p : json) :
  timestamp req = Some t -> t <> EmptyString ->
  Redis.isConnected (redis w) = true ->
  Redis.client (redis w) = Some c ->
  Redis.responsive c = true ->
  fresh_entry env (redis w) (priceKey env req) = None ->
  price_route env req w = (Return res, w1) ->
  status res = 200 ->
  body res = JObj fields ->
  assoc "price" fields = Some p ->
  let entry := JObj [("price", p); ("source", JStr "alchemy");
                     ("timestamp", JStr (nowIso env));
                     ("cachedAt", JStr (nowIso env))] in
  JSON_stringify env entry <> EmptyString ->
  JSON_parse env' (JSON_stringify env entry) = Some entry ->
  exists w2,
    price_route env' req w1
    = (Return (json_response 200
                 [("price", p); ("source", JStr "cache");
                  ("timestamp", JStr (nowIso env));
                  ("cachedAt", JStr (nowIso env))]), w2)
    /\ mongo w2 = mongo w1
    /\ trace w2 = trace w1 ++ [CacheGet (priceKey env' req)].
Proof.
  intros Ht Hne Hconn Hclient Hresp Hmiss Hroute Hs Hbody Hprice entry Hstr Hparse.
  destruct (getPrice_cases env (keyed req (priceKey env req))
              (logged w (CacheGet (priceKey env req))))
    as (res0 & w0 & Hget & Hredis & _).
  rewrite (price_route_on_miss _ _ _ _ _ Hmiss Hget) in Hroute.
  destruct (setCache_send env (keyed req (priceKey env req)) res0 w0)
    as [u w1'] eqn:Hsend.
  injection Hroute as -> ->.
  rewrite setCache_send_keyed in Hsend by (assumption || reflexivity).
  rewrite Hbody, Hprice in Hsend. cbn [app] in Hsend. fold entry in Hsend.
  destruct (write_redis_set_trace (priceKey env req) (JSON_stringify env entry) w0)
    as (w' & Hw & _ & Hr & _).
  rewrite Hw in Hsend. injection Hsend as _ <-.
  cbn [redis logged] in Hredis. rewrite Hredis in Hr.
  assert (Hfresh : fresh_entry env' (redis w') (priceKey env' req) = Some entry).
  { unfold fresh_entry. rewrite (priceKey_explicit env env' req t Ht Hne), Hr.
    rewrite (Redis_set_get _ c _ _ Hconn Hclient Hresp).
    destruct (JSON_stringify env entry); [contradiction | exact Hparse]. }
  exists (logged w' (CacheGet (priceKey env' req))). split.
  - unfold price_route, priceCacheMiddleware, mbind.
    rewrite (cacheMiddleware_hit _ _ _ _ _ Hfresh). reflexivity.
  - split; reflexivity.
Qed.

Lemma second_request_is_served_from_cache_witness :
  exists w1 w2,
    price_route Fixtures.env_quote_cached
      (Fixtures.price_request "ETH" "ethereum" "2025-06-15T11:00:00Z")
      (Fixtures.world (Fixtures.connected []) Fixtures.empty_cache)
    = (Return (price_response (JNum 99) "alchemy" "2025-06-15T11:00:00Z"
                 "ETH" "ethereum"), w1)
    /\ price_route Fixtures.env_quote_cached
         (Fixtures.price_request "ETH" "ethereum" "2025-06-15T11:00:00Z") w1
       = (Return (json_response 200
                    [("price", JNum 99); ("source", JStr "cache");
                     ("timestamp", JStr (nowIso Fixtures.env_quote_cached));
                     ("cachedAt", JStr (nowIso Fixtures.env_quote_cached))]), w2)
    /\ mongo w2 = mongo w1
    /\ trace w2
       = trace w1
         ++ [CacheGet (priceKey Fixtures.env_quote_cached
                         (Fixtures.price_request "ETH" "ethereum"
                            "2025-06-15T11:00:00Z"))].
Proof.
  eexists. 
  assert (H1 : price_route Fixtures.env_quote_cached
      (Fixtures.price_request "ETH" "ethereum" "2025-06-15T11:00:00Z")
      (Fixtures.world (Fixtures.connected []) Fixtures.empty_cache)
    = (Return (price_response (JNum 99) "alchemy" "2025-06-15T11:00:00Z"
                 "ETH" "ethereum"),
       snd (price_route Fixtures.env_quote_cached
              (Fixtures.price_request "ETH" "ethereum" "2025-06-15T11:00:00Z")
              (Fixtures.world (Fixtures.connected []) Fixtures.empty_cache)))).
  { vm_compute. reflexivity. }
  destruct (second_request_is_served_from_cache
              Fixtures.env_quote_cached Fixtures.env_quote_cached
              (Fixtures.price_request "ETH" "ethereum" "2025-06-15T11:00:00Z")
              (Fixtures.world (Fixtures.connected []) Fixtures.empty_cache)
              _ _ "2025-06-15T11:00:00Z"
              {| Redis.responsive := true; Redis.data := ∅ |}
              _ (JNum 99)
              eq_refl ltac:(discriminate) eq_refl eq_refl eq_refl eq_refl
              H1 eq_refl eq_refl eq_refl ltac:(discriminate) eq_refl)
    as (w2 & H2 & Hm & Ht).
  exists w2. split; [exact H1|]. split; [exact H2|]. split; [exact Hm | exact Ht].
Defined.

End ResolverSteps.

(* ===================================================================== *)
(** * Where an upstream price comes from                                  *)
(* ===================================================================== *)

Module AdapterResults.
Import JS Alchemy.






(** ** Contract addresses *)

Lemma length_toUpperCase s : String.length (toUpperCase s) = String.length s.
Proof. induction s as [|c s IH]; cbn; [reflexivity | now rewrite IH]. Qed.

Lemma lookup_coin_short k v :
  lookup_coin k tokenMap = Some v -> (String.length k <= 5)%nat.
Proof.
  unfold tokenMap. cbn [lookup_coin].
  repeat match goal with
         | |- context [String.eqb ?key k] =>
             destruct (String.eqb key k) eqn:E;
               [apply String.eqb_eq in E; subst k; intros _; cbn; lia | clear E]
         end.
  discriminate.
Qed.

Lemma isValidTokenAddress_length address :
  isValidTokenAddress address = true -> String.length address = 42%nat.
Proof.
  unfold isValidTokenAddress.
  destruct address as [|c0 [|c1 rest]]; try discriminate.
  - destruct c0 as [[] [] [] [] [] [] [] []]; discriminate.
  - destruct c0 as [[] [] [] [] [] [] [] []]; try discriminate.
    destruct c1 as [[] [] [] [] [] [] [] []]; try discriminate.
    intros [H _]%andb_true_iff. apply Nat.eqb_eq in H. cbn. now rewrite H.
Qed.

(** X11.  A contract address is never priced by the adapter: for a token
    of the form 0x followed by 40 hexadecimal digits, which the handler
    accepts, [getTokenPrice] returns null whatever the upstream would
    answer, because only the ten mapped symbols are looked up. *)
Theorem contract_address_has_no_upstream_price
        (env : Env) (token network ts : string) :
  isValidTokenAddress token = true ->
  getTokenPrice env token network ts = Return None.
Proof.
  intros Haddr. unfold getTokenPrice.
  destruct (negb (existsb (String.eqb network) supportedNetworks)); [reflexivity|].
  unfold fetchRealTokenPrice.
  destruct (lookup_coin (toUpperCase token) tokenMap) as [coinId|] eqn:Hcoin;
    [|reflexivity].
  apply lookup_coin_short in Hcoin. rewrite length_toUpperCase in Hcoin.
  apply isValidTokenAddress_length in Haddr. lia.
Qed.

Lemma contract_address_has_no_upstream_price_witness :
  getTokenPrice Fixtures.env_quote "0xC02aaA39b223FE8D0A0e5C4F27eAD9083C756Cc2"
    "ethereum" "2025-06-15T11:00:00Z" = Return None.
Proof.
  apply (contract_address_has_no_upstream_price Fixtures.env_quote).
  reflexivity.
Defined.

End AdapterResults.

(* ===================================================================== *)
(** * The token check of the validator against that of the handler       *)
(* ===================================================================== *)

Module ValidationFacts.
Import JS Validation.

Lemma hex_is_alnum c :
  Alchemy.isValidTokenAddress_char c = true -> PriceRoute.is_alnum c = true.
Proof.
  destruct c as [[] [] [] [] [] [] [] []]; vm_compute; intros H;
    (reflexivity || discriminate).
Qed.

Lemma length_list_ascii s : length (list_ascii_of_string s) = String.length s.
Proof. induction s as [|c s IH]; cbn; [reflexivity | now rewrite IH]. Qed.

Lemma forallb_hex_alnum l :
  forallb Alchemy.isValidTokenAddress_char l = true ->
  forallb PriceRoute.is_alnum l = true.
Proof.
  induction l as [|c l IH]; cbn; [reflexivity|].
  intros [Hc Hl]%andb_true_iff. now rewrite (hex_is_alnum _ Hc), IH.
Qed.

(** The shape of a string that starts with the two characters 0x. *)
Lemma isContractAddress_shape value :
  isContractAddress value = true <->
  exists rest,
    value = String "0" (String "x" rest)
    /\ (1 <= String.length rest <= 40)%nat
    /\ forallb Alchemy.isValidTokenAddress_char (list_ascii_of_string rest) = true.
Proof.
  split.
  - unfold isContractAddress.
    destruct value as [|c0 [|c1 rest]]; try discriminate.
    + destruct c0 as [[] [] [] [] [] [] [] []]; discriminate.
    + destruct c0 as [[] [] [] [] [] [] [] []]; try discriminate.
      destruct c1 as [[] [] [] [] [] [] [] []]; try discriminate.
      intros [[H1 H2]%andb_true_iff H3]%andb_true_iff.
      exists rest. split; [reflexivity|].
      apply Nat.leb_le in H1. apply Nat.leb_le in H2. split; [lia | exact H3].
  - intros (rest & -> & [H1 H2] & H3). unfold isContractAddress.
    apply andb_true_iff. split; [|exact H3].
    apply andb_true_iff. split; now apply Nat.leb_le.
Qed.

Lemma isValidTokenAddress_0x rest :
  Alchemy.isValidTokenAddress (String "0" (String "x" rest))
  = (String.length rest =? 40)%nat
    && forallb Alchemy.isValidTokenAddress_char (list_ascii_of_string rest).
Proof. reflexivity. Qed.

(** X12.  The token check of the validator and the one of the handler
    disagree on one family of inputs.  Every token the handler accepts
    passes the validator; a token passes the validator and is then
    refused by the handler ("Invalid token format") exactly when it is 0x
    followed by 9 to 39 hexadecimal digits. *)
Theorem token_checks_disagree_on_short_addresses (token : string) :
  let handler_accepts :=
    Alchemy.isValidTokenAddress token || PriceRoute.isTokenSymbol token in
  (handler_accepts = true -> token_custom token = Return true)
  /\ ((token_custom token = Return true /\ handler_accepts = false)
      <-> exists rest,
            token = String "0" (String "x" rest)
            /\ (9 <= String.length rest <= 39)%nat
            /\ forallb Alchemy.isValidTokenAddress_char (list_ascii_of_string rest)
               = true).
Proof.
  cbv zeta. unfold token_custom.
  change (Validation.isTokenSymbol token) with (PriceRoute.isTokenSymbol token).
  split.
  - intros [Ha | Hs]%orb_true_iff.
    + assert (Hc : isContractAddress token = true).
      { apply isContractAddress_shape.
        pose proof (AdapterResults.isValidTokenAddress_length _ Ha) as Hlen.
        unfold Alchemy.isValidTokenAddress in Ha.
        destruct token as [|c0 [|c1 rest]]; try discriminate.
        destruct c0 as [[] [] [] [] [] [] [] []]; try discriminate.
        destruct c1 as [[] [] [] [] [] [] [] []]; try discriminate.
        apply andb_true_iff in Ha as [_ Hhex].
        exists rest. split; [reflexivity|]. cbn in Hlen. split; [lia | exact Hhex]. }
      now rewrite Hc.
    + rewrite Hs. now rewrite andb_false_r.
  - split.
    + intros [Hv [Ha Hs]%orb_false_iff].
      rewrite Hs in Hv. rewrite andb_true_r in Hv.
      destruct (isContractAddress token) eqn:Hc; [|discriminate].
      apply isContractAddress_shape in Hc as (rest & -> & [H1 H2] & Hhex).
      exists rest. split; [reflexivity|]. split; [|exact Hhex].
      rewrite isValidTokenAddress_0x, Hhex, andb_true_r in Ha.
      apply Nat.eqb_neq in Ha.
      unfold PriceRoute.isTokenSymbol in Hs.
      assert (Halnum : forallb PriceRoute.is_alnum
                         (list_ascii_of_string (String "0" (String "x" rest))) = true).
      { cbn [list_ascii_of_string forallb]. rewrite (forallb_hex_alnum _ Hhex).
        reflexivity. }
      rewrite Halnum, andb_true_r in Hs. cbn [String.length] in Hs.
      apply andb_false_iff in Hs as [Hs | Hs];
        [apply Nat.leb_gt in Hs | apply Nat.leb_gt in Hs]; lia.
    + intros (rest & -> & [H1 H2] & Hhex).
      assert (Hc : isContractAddress (String "0" (String "x" rest)) = true).
      { apply isContractAddress_shape. exists rest.
        split; [reflexivity|]. split; [lia | exact Hhex]. }
      rewrite Hc. split; [reflexivity|].
      apply orb_false_iff. split.
      * rewrite isValidTokenAddress_0x. apply andb_false_iff. left.
        apply Nat.eqb_neq. lia.
      * unfold PriceRoute.isTokenSymbol. cbn [String.length].
        apply andb_false_iff. left. apply andb_false_iff. right.
        apply Nat.leb_gt. lia.
Qed.

End ValidationFacts.

(* ===================================================================== *)
(** * The job registry under create, update, run and delete               *)
(* ===================================================================== *)

Module RegistryFacts.
Import JS Schedule ScheduleFacts.

Lemma In_map_set k v (m : Registry) : In (k, v) (map_set k v m).
Proof.
  induction m as [|[k' v'] rest IH]; cbn; [now left|].
  destruct (String.eqb k' k) eqn:E.
  - apply String.eqb_eq in E. subst k'. now left.
  - now right.
Qed.

Lemma In_map_set_inv k v k0 v0 (m : Registry) :
  In (k0, v0) (map_set k v m) -> (k0 = k /\ v0 = v) \/ In (k0, v0) m.
Proof.
  induction m as [|[k' v'] rest IH]; cbn.
  - intros [[= <- <-] | []]. now left.
  - destruct (String.eqb k' k) eqn:E.
    + apply String.eqb_eq in E. subst k'.
      intros [[= <- <-] | Hin]; [now left | right; now right].
    + intros [[= <- <-] | Hin]; [right; now left|].
      destruct (IH Hin) as [H | H]; [now left | right; now right].
Qed.

Lemma map_fst_map_set k v (m : Registry) :
  In k (map fst m) -> map fst (map_set k v m) = map fst m.
Proof.
  induction m as [|[k' v'] rest IH]; cbn; [intros []|].
  destruct (String.eqb k' k) eqn:E; [reflexivity|].
  intros [-> | Hin]; [now rewrite String.eqb_refl in E|].
  cbn. now rewrite IH.
Qed.

Lemma map_get_Some k v (m : Registry) : map_get k m = Some v -> In (k, v) m.
Proof.
  induction m as [|[k' v'] rest IH]; cbn; [discriminate|].
  destruct (String.eqb k' k) eqn:E.
  - apply String.eqb_eq in E. subst k'. intros [= <-]. now left.
  - intros H. right. now apply IH.
Qed.

Lemma map_get_In k v (m : Registry) :
  NoDup (map fst m) -> In (k, v) m -> map_get k m = Some v.
Proof.
  induction m as [|[k' v'] rest IH]; cbn; [intros _ []|].
  intros Hnd Hin. apply NoDup_cons in Hnd as [Hnot Hnd]. rewrite list_elem_of_In in Hnot.
  destruct (String.eqb k' k) eqn:E.
  - apply String.eqb_eq in E. subst k'.
    destruct Hin as [[= <-] | Hin]; [reflexivity|].
    exfalso. apply Hnot. now apply (in_map fst _ (k, v)).
  - destruct Hin as [[= <- <-] | Hin]; [now rewrite String.eqb_refl in E|].
    now apply IH.
Qed.

Lemma In_map_delete k k0 v0 (m : Registry) :
  NoDup (map fst m) ->
  (In (k0, v0) (map_delete k m) <-> In (k0, v0) m /\ k0 <> k).
Proof.
  induction m as [|[k' v'] rest IH]; cbn; [tauto|].
  intros Hnd. apply NoDup_cons in Hnd as [Hnot Hnd]. rewrite list_elem_of_In in Hnot.
  destruct (String.eqb k' k) eqn:E.
  - apply String.eqb_eq in E. subst k'. split.
    + intros Hin. split; [now right|]. intros ->.
      apply Hnot. now apply (in_map fst _ (k, v0)).
    + intros [[[= <- <-] | Hin] Hne]; [congruence | exact Hin].
  - apply String.eqb_neq in E. cbn. rewrite (IH Hnd). split.
    + intros [[= <- <-] | [Hin Hne]]; [split; [now left | exact E] | split; [now right | exact Hne]].
    + intros [[[= <- <-] | Hin] Hne]; [now left | right; now split].
Qed.

Lemma NoDup_map_delete k (m : Registry) :
  NoDup (map fst m) -> NoDup (map fst (map_delete k m)).
Proof.
  induction m as [|[k' v'] rest IH]; cbn; [trivial|].
  intros Hnd. pose proof Hnd as Hnd0. apply NoDup_cons in Hnd as [Hnot Hnd]. rewrite list_elem_of_In in Hnot.
  destruct (String.eqb k' k) eqn:E; [exact Hnd|].
  cbn. apply NoDup_cons. split; [|now apply IH].
  rewrite list_elem_of_In. intros Hin. apply in_map_iff in Hin as ([k1 v1] & Hk & Hin). cbn in Hk. subst k1.
  apply (In_map_delete k k' v1 rest Hnd) in Hin as [Hin _].
  apply Hnot. now apply (in_map fst _ (k', v1)).
Qed.

Lemma map_get_map_delete_ne k k0 (m : Registry) :
  k0 <> k -> map_get k0 (map_delete k m) = map_get k0 m.
Proof.
  intros Hne. induction m as [|[k' v'] rest IH]; cbn; [reflexivity|].
  destruct (String.eqb k' k) eqn:E.
  - apply String.eqb_eq in E. subst k'.
    destruct (String.eqb k k0) eqn:E0; [|reflexivity].
    apply String.eqb_eq in E0. congruence.
  - cbn. now rewrite IH.
Qed.

Lemma map_get_map_delete_eq k (m : Registry) :
  NoDup (map fst m) -> map_get k (map_delete k m) = None.
Proof.
  intros Hnd. destruct (map_get k (map_delete k m)) as [v|] eqn:E; [|reflexivity].
  apply map_get_Some in E. apply (In_map_delete k k v m Hnd) in E as [_ Hne].
  congruence.
Qed.

Lemma findExistingJob_not_None jobs token network jobId job :
  In (jobId, job) jobs -> same_pair job token network = true ->
  findExistingJob jobs token network <> None.
Proof.
  intros Hin Hpair Hnone.
  pose proof (findExistingJob_None _ _ _ Hnone jobId job Hin). congruence.
Qed.

Lemma same_pair_ext job token network token' network' :
  toLowerCase token' = toLowerCase token ->
  toLowerCase network' = toLowerCase network ->
  same_pair job token' network' = same_pair job token network.
Proof. unfold same_pair. now intros -> ->. Qed.

(** X13.  Create, then create again.  After a create that found no
    record for the pair, a second create for the same token and network
    in any letter case is answered 409 with the id handed out by the
    first, and changes neither the registry nor the queue (whether or not
    the queue took the first job). *)
Theorem create_twice_conflicts
        (env env' : Env) (scheduledJobs : Registry) (q q' : Queue)
        (req req' : Request) :
  r_validationErrors req = [] ->
  r_validationErrors req' = [] ->
  uuidv4 env <> EmptyString ->
  findExistingJob scheduledJobs (r_token req) (r_network req) = None ->
  toLowerCase (r_token req') = toLowerCase (r_token req) ->
  toLowerCase (r_network req') = toLowerCase (r_network req) ->
  exists message jobs1 q1 message',
    scheduleJob env scheduledJobs q req
    = (Scheduled (uuidv4 env) message (nowIso env), jobs1, q1)
    /\ scheduleJob env' jobs1 q' req'
       = (JobAlreadyExists message' (uuidv4 env), jobs1, q').
Proof.
  intros Hvalid Hvalid' Hne Hnone Htoken Hnetwork.
  unfold scheduleJob at 1. rewrite Hvalid, Hnone. cbn [length Nat.eqb negb].
  cbv zeta. do 4 eexists. split; [reflexivity|].
  match goal with
  | |- scheduleJob _ (map_set ?k ?v _) _ _ = _ => set (jobData := v)
  end.
  unfold scheduleJob. rewrite Hvalid'. cbn [length Nat.eqb negb].
  destruct (findExistingJob (map_set (uuidv4 env) jobData scheduledJobs)
              (r_token req') (r_network req')) as [existingJobId|] eqn:Hfind.
  - destruct (findExistingJob_Some _ _ _ _ Hfind) as (job' & Hin' & Hpair).
    rewrite (same_pair_ext _ _ _ _ _ Htoken Hnetwork) in Hpair.
    apply In_map_set_inv in Hin' as [[-> _] | Hin'].
    + destruct (uuidv4 env); [contradiction | reflexivity].
    + pose proof (findExistingJob_None _ _ _ Hnone _ _ Hin'). congruence.
  - exfalso.
    apply (findExistingJob_not_None _ _ _ _ _
             (In_map_set (uuidv4 env) jobData scheduledJobs)) in Hfind; [exact Hfind|].
    rewrite (same_pair_ext _ _ _ _ _ Htoken Hnetwork).
    unfold same_pair, jobData. cbn. now rewrite !String.eqb_refl.
Qed.

Lemma create_twice_conflicts_witness :
  exists message jobs1 q1 message',
    scheduleJob (Fixtures.env_status 200) [] Fixtures.queue_off
      (Fixtures.schedule_request "USDC" "ethereum")
    = (Scheduled (uuidv4 (Fixtures.env_status 200)) message
         (nowIso (Fixtures.env_status 200)), jobs1, q1)
    /\ scheduleJob Fixtures.env_offline jobs1 Fixtures.queue_off
         (Fixtures.schedule_request "usdc" "Ethereum")
       = (JobAlreadyExists message' (uuidv4 (Fixtures.env_status 200)),
          jobs1, Fixtures.queue_off).
Proof.
  apply (create_twice_conflicts (Fixtures.env_status 200) Fixtures.env_offline []
           Fixtures.queue_off Fixtures.queue_off
           (Fixtures.schedule_request "USDC" "ethereum")
           (Fixtures.schedule_request "usdc" "Ethereum"));
    (reflexivity || discriminate).
Defined.

(** X14.  Deleting a job removes that record and nothing else: in a
    well-formed registry, [deleteJob] on the id of a record answers 200,
    the id is no longer found, every other id still maps to its record,
    the (token, network) pair of the deleted job is free again for a new
    create, and the registry stays well formed. *)
Theorem deleteJob_frees_the_pair
        (scheduledJobs : Registry) (jobId : string) (job : JobData) :
  Registry_ok scheduledJobs ->
  NoDup (map fst scheduledJobs) ->
  In (jobId, job) scheduledJobs ->
  exists jobs',
    deleteJob scheduledJobs jobId = (JobDeleted, jobs')
    /\ map_get jobId jobs' = None
    /\ (forall other, other <> jobId -> map_get other jobs' = map_get other scheduledJobs)
    /\ findExistingJob jobs' (Schedule.token job) (Schedule.network job) = None
    /\ Registry_ok jobs'
    /\ NoDup (map fst jobs').
Proof.
  intros [Hids Huniq] Hnd Hin.
  exists (map_delete jobId scheduledJobs).
  split; [unfold deleteJob; now rewrite (map_get_In _ _ _ Hnd Hin)|].
  split; [now apply map_get_map_delete_eq|].
  split; [intros other Hne; now apply map_get_map_delete_ne|].
  split.
  - destruct (findExistingJob (map_delete jobId scheduledJobs)
                (Schedule.token job) (Schedule.network job)) as [id'|] eqn:Hfind;
      [|reflexivity].
    destruct (findExistingJob_Some _ _ _ _ Hfind) as (job' & Hin' & Hpair).
    apply (In_map_delete jobId id' job' _ Hnd) in Hin' as [Hin' Hne].
    exfalso. apply Hne. exact (Huniq id' job' jobId job Hin' Hin Hpair).
  - split; [|now apply NoDup_map_delete].
    split.
    + intros id' job' Hin'. apply (In_map_delete jobId id' job' _ Hnd) in Hin' as [Hin' _].
      now apply (Hids id' job').
    + intros id1 job1 id2 job2 H1 H2.
      apply (In_map_delete jobId id1 job1 _ Hnd) in H1 as [H1 _].
      apply (In_map_delete jobId id2 job2 _ Hnd) in H2 as [H2 _].
      now apply Huniq.
Qed.

Lemma usdc_registry_ok : Registry_ok Fixtures.usdc_registry.
Proof.
  split.
  - intros jobId job [[= <- <-] | []]. discriminate.
  - intros id1 job1 id2 job2 [[= <- <-] | []] [[= <- <-] | []] _. reflexivity.
Qed.

Lemma usdc_registry_keys : NoDup (map fst Fixtures.usdc_registry).
Proof.
  apply NoDup_cons. split; [rewrite list_elem_of_In; intros [] | apply NoDup_nil_2].
Qed.

Lemma deleteJob_frees_the_pair_witness :
  exists jobs',
    deleteJob Fixtures.usdc_registry "0b9f31aa-4f0c-4c5e-9a39-6f1c2d7e8a10"
    = (JobDeleted, jobs')
    /\ map_get "0b9f31aa-4f0c-4c5e-9a39-6f1c2d7e8a10" jobs' = None
    /\ (forall other, other <> "0b9f31aa-4f0c-4c5e-9a39-6f1c2d7e8a10" ->
                      map_get other jobs' = map_get other Fixtures.usdc_registry)
    /\ findExistingJob jobs' (Schedule.token Fixtures.usdc_job)
         (Schedule.network Fixtures.usdc_job) = None
    /\ Registry_ok jobs'
    /\ NoDup (map fst jobs').
Proof.
  apply (deleteJob_frees_the_pair Fixtures.usdc_registry
           "0b9f31aa-4f0c-4c5e-9a39-6f1c2d7e8a10" Fixtures.usdc_job).
  - exact usdc_registry_ok.
  - exact usdc_registry_keys.
  - left. reflexivity.
Defined.

(** ** Update and manual run *)

(** Replacing the record of an id by one for the same pair keeps the
    registry well formed. *)
Lemma map_set_same_pair_ok jobs jobId job job' :
  Registry_ok jobs ->
  NoDup (map fst jobs) ->
  In (jobId, job) jobs ->
  Schedule.token job' = Schedule.token job ->
  Schedule.network job' = Schedule.network job ->
  Registry_ok (map_set jobId job' jobs)
  /\ NoDup (map fst (map_set jobId job' jobs))
  /\ map fst (map_set jobId job' jobs) = map fst jobs.
Proof.
  intros [Hids Huniq] Hnd Hin Htok Hnet.
  assert (Hkeys : map fst (map_set jobId job' jobs) = map fst jobs).
  { apply map_fst_map_set. now apply (in_map fst _ (jobId, job)). }
  assert (Hsrc : forall id1 job1, In (id1, job1) (map_set jobId job' jobs) ->
            exists job0, In (id1, job0) jobs
                         /\ Schedule.token job1 = Schedule.token job0
                         /\ Schedule.network job1 = Schedule.network job0).
  { intros id1 job1 H. apply In_map_set_inv in H as [[-> ->] | H].
    - exists job. now repeat split.
    - exists job1. now repeat split. }
  split; [|split; [now rewrite Hkeys | exact Hkeys]].
  split.
  - intros id1 job1 H. destruct (Hsrc _ _ H) as (job0 & H0 & _). now apply (Hids id1 job0).
  - intros id1 job1 id2 job2 H1 H2 Hp.
    destruct (Hsrc _ _ H1) as (j1 & Hj1 & Ht1 & Hn1).
    destruct (Hsrc _ _ H2) as (j2 & Hj2 & Ht2 & Hn2).
    apply (Huniq id1 j1 id2 j2 Hj1 Hj2).
    unfold same_pair in *. now rewrite <- Ht1, <- Hn1, <- Ht2, <- Hn2.
Qed.

(** X15.  Update and manual run keep the registry well formed and never
    add, remove or re-key a record: after [updateJob] or [runJob], with
    whatever outcome, the ids are the same in the same order, no two
    records share a (token, network) pair, and a pair that was taken is
    still taken by the same id.  In particular a disabled job keeps
    blocking a new create for its pair. *)
Theorem update_and_run_keep_registry
        (env : Env) (scheduledJobs : Registry) (q : Queue) (jobId : string)
        (enabled : bool) (validationErrors : list string) :
  Registry_ok scheduledJobs ->
  NoDup (map fst scheduledJobs) ->
  let after_update :=
    snd (fst (updateJob env scheduledJobs q jobId enabled validationErrors)) in
  let after_run := snd (fst (runJob env scheduledJobs q jobId)) in
  (Registry_ok after_update
   /\ map fst after_update = map fst scheduledJobs
   /\ forall token network,
        findExistingJob after_update token network
        = findExistingJob scheduledJobs token network)
  /\ (Registry_ok after_run
      /\ map fst after_run = map fst scheduledJobs
      /\ forall token network,
           findExistingJob after_run token network
           = findExistingJob scheduledJobs token network).
Proof.
  intros Hok Hnd. cbv zeta.
  assert (Hfind : forall job job',
            In (jobId, job) scheduledJobs ->
            Schedule.token job' = Schedule.token job ->
            Schedule.network job' = Schedule.network job ->
            forall token network,
              findExistingJob (map_set jobId job' scheduledJobs) token network
              = findExistingJob scheduledJobs token network).
  { intros job job' Hin Htok Hnet token network. clear Hok.
    induction scheduledJobs as [|[k v] rest IH]; [destruct Hin|].
    cbn in Hnd. apply NoDup_cons in Hnd as [Hnot Hnd]. rewrite list_elem_of_In in Hnot.
    cbn [map_set]. destruct (String.eqb k jobId) eqn:E.
    - apply String.eqb_eq in E. subst k.
      destruct Hin as [[= <-] | Hin].
      + cbn [findExistingJob]. now rewrite Htok, Hnet.
      + exfalso. apply Hnot. now apply (in_map fst _ (jobId, job)).
    - destruct Hin as [[= <- <-] | Hin]; [now rewrite String.eqb_refl in E|].
      cbn [findExistingJob]. now rewrite (IH Hnd Hin). }
  split.
  - unfold updateJob.
    destruct (negb (Nat.eqb (length validationErrors) 0)); [cbn [fst snd]; split; [exact Hok | split; [reflexivity | intros; reflexivity]]|].
    destruct (map_get jobId scheduledJobs) as [job|] eqn:Hget; [|cbn [fst snd]; split; [exact Hok | split; [reflexivity | intros; reflexivity]]].
    apply map_get_Some in Hget. cbn [fst snd].
    destruct (map_set_same_pair_ok scheduledJobs jobId job
                (set_lastRun (set_enabled job enabled) (nowIso env)) Hok Hnd Hget
                eq_refl eq_refl) as (Hok' & _ & Hkeys).
    split; [exact Hok'|]. split; [exact Hkeys|].
    now apply (Hfind job).
  - unfold runJob.
    destruct (map_get jobId scheduledJobs) as [job|] eqn:Hget; [|cbn [fst snd]; split; [exact Hok | split; [reflexivity | intros; reflexivity]]].
    apply map_get_Some in Hget.
    destruct (negb (Schedule.enabled job)); [cbn [fst snd]; split; [exact Hok | split; [reflexivity | intros; reflexivity]]|].
    destruct (addPriceHistoryJob q _ _ _) as [[queueJobId|] q'] eqn:Hadd;
      [|cbn [fst snd]; split; [exact Hok | split; [reflexivity | intros; reflexivity]]].
    cbn [fst snd].
    destruct (map_set_same_pair_ok scheduledJobs jobId job
                (set_lastRun job (nowIso env)) Hok Hnd Hget eq_refl eq_refl)
      as (Hok' & _ & Hkeys).
    split; [exact Hok'|]. split; [exact Hkeys|].
    now apply (Hfind job).
Qed.

Lemma update_and_run_keep_registry_witness :
  let after_update :=
    snd (fst (updateJob (Fixtures.env_status 200) Fixtures.usdc_registry
                Fixtures.queue_off "0b9f31aa-4f0c-4c5e-9a39-6f1c2d7e8a10" false [])) in
  let after_run :=
    snd (fst (runJob (Fixtures.env_status 200) Fixtures.usdc_registry
                Fixtures.queue_off "0b9f31aa-4f0c-4c5e-9a39-6f1c2d7e8a10")) in
  (Registry_ok after_update
   /\ map fst after_update = map fst Fixtures.usdc_registry
   /\ forall token network,
        findExistingJob after_update token network
        = findExistingJob Fixtures.usdc_registry token network)
  /\ (Registry_ok after_run
      /\ map fst after_run = map fst Fixtures.usdc_registry
      /\ forall token network,
           findExistingJob after_run token network
           = findExistingJob Fixtures.usdc_registry token network).
Proof.
  apply (update_and_run_keep_registry (Fixtures.env_status 200) Fixtures.usdc_registry
           Fixtures.queue_off "0b9f31aa-4f0c-4c5e-9a39-6f1c2d7e8a10" false []).
  - exact usdc_registry_ok.
  - exact usdc_registry_keys.
Defined.

End RegistryFacts.

(* ===================================================================== *)
(** * The cache service                                                   *)
(* ===================================================================== *)

Module RedisFacts.
Import JS Redis.

(** X16.  On a connected cache whose client answers, the service behaves
    as a map from keys to strings: a value set under a key is the value
    read back and the key exists; other keys are not affected; deleting
    the key reports true, after which the key reads null and a second
    delete reports false; after a flush every key reads null. *)
Theorem cache_behaves_as_a_map
        (r : State) (c : Client) (key value : string) :
  isConnected r = true ->
  client r = Some c ->
  responsive c = true ->
  let r1 := snd (set r key value) in
  let r2 := snd (del r1 key) in
  fst (set r key value) = Return true
  /\ get r1 key = Return (Some value)
  /\ exists_ r1 key = Return true
  /\ (forall other, other <> key -> get r1 other = get r other)
  /\ fst (del r1 key) = Return true
  /\ get r2 key = Return None
  /\ exists_ r2 key = Return false
  /\ fst (del r2 key) = Return false
  /\ (forall other, other <> key -> get r2 other = get r other)
  /\ (forall any, get (snd (flush r1)) any = Return None).
Proof.
  intros Hconn Hclient Hresp. cbv zeta.
  unfold set, client_setEx. rewrite Hconn, Hclient, Hresp. cbn [fst snd].
  unfold del, client_del, get, client_get, exists_, client_exists, flush, client_flushDb.
  cbn [isConnected client responsive data fst snd bind try_catch].
  rewrite Hconn, Hclient, Hresp. cbn [try_catch].
  rewrite !lookup_insert_eq. cbn [fst snd isConnected client responsive data bind try_catch].
  rewrite !lookup_delete_eq. cbn [fst snd isConnected client responsive data bind try_catch].
  repeat split.
  - intros other Hne. now rewrite lookup_insert_ne by congruence.
  - intros other Hne.
    rewrite lookup_delete_ne by congruence. now rewrite lookup_insert_ne by congruence.
Qed.

Lemma cache_behaves_as_a_map_witness :
  let r := Fixtures.cache_with "price:eth:ethereum:2024-01-01T00:00:00Z" "<entry>" in
  let key := "price:btc:ethereum:2024-01-01T00:00:00Z" in
  let value := "<quote>" in
  let r1 := snd (set r key value) in
  let r2 := snd (del r1 key) in
  fst (set r key value) = Return true
  /\ get r1 key = Return (Some value)
  /\ exists_ r1 key = Return true
  /\ (forall other, other <> key -> get r1 other = get r other)
  /\ fst (del r1 key) = Return true
  /\ get r2 key = Return None
  /\ exists_ r2 key = Return false
  /\ fst (del r2 key) = Return false
  /\ (forall other, other <> key -> get r2 other = get r other)
  /\ (forall any, get (snd (flush r1)) any = Return None).
Proof.
  cbv zeta.
  apply (cache_behaves_as_a_map
           (Fixtures.cache_with "price:eth:ethereum:2024-01-01T00:00:00Z" "<entry>")
           {| responsive := true;
              data := {[ "price:eth:ethereum:2024-01-01T00:00:00Z" := "<entry>" ]} |}
           "price:btc:ethereum:2024-01-01T00:00:00Z" "<quote>");
    reflexivity.
Defined.

(** When the service is not connected, has no client, or its client is
    closed, no operation changes anything or fails. *)
Lemma cache_down r :
  isConnected r = false \/ client r = None
  \/ (exists c, client r = Some c /\ responsive c = false) ->
  (forall key, get r key = Return None)
  /\ (forall key value, set r key value = (Return false, r))
  /\ (forall key, del r key = (Return false, r))
  /\ (forall key, exists_ r key = Return false)
  /\ flush r = (Return false, r).
Proof.
  unfold get, set, del, exists_, flush,
    client_get, client_setEx, client_del, client_exists, client_flushDb.
  intros [H | [H | (c & H & Hc)]].
  - rewrite H. repeat split.
  - rewrite H. destruct (isConnected r); repeat split.
  - rewrite H, Hc. destruct (isConnected r); repeat split.
Qed.

End RedisFacts.

(* ===================================================================== *)
(** * The route when the cache is switched off                            *)
(* ===================================================================== *)

Module DegradedCache.
Import JS Http Cache PriceRoute CacheFacts ResolverSteps.

(** X17.  A cache that is switched off is invisible to the client.  When
    the cache service is not connected or has no client, the route
    answers exactly what the handler answers for the request, the cache
    state is unchanged, and the store ends as the handler left it. *)
Theorem disconnected_cache_is_invisible (env : Env) (req : Request) (w : World) :
  Redis.isConnected (redis w) = false \/ Redis.client (redis w) = None ->
  exists res w1 w',
    getPrice env (keyed req (priceKey env req)) (logged w (CacheGet (priceKey env req)))
    = (Return res, w1)
    /\ price_route env req w = (Return res, w')
    /\ redis w' = redis w
    /\ mongo w' = mongo w1.
Proof.
  intros Hdown.
  assert (Hdown' : Redis.isConnected (redis w) = false \/ Redis.client (redis w) = None
                   \/ (exists c, Redis.client (redis w) = Some c
                                 /\ Redis.responsive c = false)) by tauto.
  destruct (RedisFacts.cache_down (redis w) Hdown') as (Hget & Hset & _).
  assert (Hmiss : fresh_entry env (redis w) (priceKey env req) = None).
  { unfold fresh_entry. now rewrite Hget. }
  destruct (getPrice_cases env (keyed req (priceKey env req))
              (logged w (CacheGet (priceKey env req))))
    as (res & w1 & Hhandler & Hredis & _).
  cbn [redis logged] in Hredis.
  exists res, w1.
  rewrite (price_route_on_miss _ _ _ _ _ Hmiss Hhandler).
  destruct ((200 <=? status res) && (status res <? 300)) eqn:Hs.
  - unfold setCache_send. rewrite Hs.
    cbn [keyed set_cacheKey set_redisKey cacheKey]. rewrite priceKey_truthy.
    cbv beta iota zeta. rewrite priceKey_truthy.
    run_M. rewrite Hredis, Hset.
    eexists. split; [exact Hhandler|]. split; [reflexivity|].
    cbn [redis mongo]. split; reflexivity.
  - rewrite (setCache_send_skips _ _ _ _ Hs).
    eexists. split; [exact Hhandler|]. split; [reflexivity|].
    split; [exact Hredis | reflexivity].
Qed.

Lemma disconnected_cache_is_invisible_witness :
  exists res w1 w',
    getPrice (Fixtures.env_status 404)
      (keyed Fixtures.jan2_request (priceKey (Fixtures.env_status 404) Fixtures.jan2_request))
      (logged (Fixtures.world Fixtures.eth_store Fixtures.no_cache)
         (CacheGet (priceKey (Fixtures.env_status 404) Fixtures.jan2_request)))
    = (Return res, w1)
    /\ price_route (Fixtures.env_status 404) Fixtures.jan2_request
         (Fixtures.world Fixtures.eth_store Fixtures.no_cache)
       = (Return res, w')
    /\ redis w' = redis (Fixtures.world Fixtures.eth_store Fixtures.no_cache)
    /\ mongo w' = mongo w1.
Proof.
  apply (disconnected_cache_is_invisible (Fixtures.env_status 404) Fixtures.jan2_request
           (Fixtures.world Fixtures.eth_store Fixtures.no_cache)).
  left. reflexivity.
Defined.

End DegradedCache.

(* ===================================================================== *)
(** * The fetch loop of the backfill worker                               *)
(* ===================================================================== *)

Module FetchLoop.
Import JS Worker.

Lemma batches_concat {A} (missing : list A) :
  exists bs, batches missing = Some bs /\ concat bs = missing.
Proof.
  destruct (Nat.eq_dec (length missing) 0%nat) as [Hz | Hnz].
  - apply nil_length_inv in Hz. subst missing. exists []. split; reflexivity.
  - assert (Hpos : (0 < batchSize_of missing)%nat)
      by (apply BatchFacts.batchSize_positive; lia).
    destruct (BatchFacts.batches_from_spec missing _ 0 Hpos) as (bs & Hbs & Hcat & _).
    exists bs. split; [exact Hbs | exact Hcat].
Qed.

Lemma fold_left_concat {A B} (f : A -> B -> A) (bs : list (list B)) : forall acc,
  fold_left (fun acc b => fold_left f b acc) bs acc = fold_left f (concat bs) acc.
Proof.
  induction bs as [|b bs IH]; intros acc; cbn; [reflexivity|].
  now rewrite IH, fold_left_app.
Qed.

(** One pass over the timestamps, whatever was collected before. *)
Lemma fetch_pass env token network (l : list string) : forall F E,
  exists F' E',
    fold_left (fetch_one env token network) l (F, E) = (F ++ F', E ++ E')
    /\ map fp_date F' = List.filter (priced env token network) l
    /\ E' = map NoPriceData (List.filter (fun ts => negb (priced env token network ts)) l)
    /\ Forall (fun fp =>
                 fp_confidence fp = Fin 1
                 /\ exists pd,
                      Alchemy.getTokenPrice env token network (fp_date fp)
                      = Return (Some pd)
                      /\ fp_price fp = Alchemy.price pd) F'.
Proof.
  induction l as [|ts l IH]; intros F E.
  - exists [], []. cbn. rewrite !app_nil_r. repeat split. constructor.
  - cbn [fold_left fetch_one List.filter].
    destruct (ResolverSteps.getTokenPrice_returns env token network ts) as [[pd|] Hpd];
      (assert (Hp : priced env token network ts
                    = match Alchemy.getTokenPrice env token network ts with
                      | Return (Some _) => true
                      | _ => false
                      end) by reflexivity);
      rewrite Hpd in *; rewrite Hp; cbn [negb].
    + destruct (IH (F ++ [{| fp_date := ts; fp_price := Alchemy.price pd;
                             fp_confidence := Fin 1 |}]) E)
        as (F' & E' & -> & HF & HE & HP).
      exists ({| fp_date := ts; fp_price := Alchemy.price pd;
                 fp_confidence := Fin 1 |} :: F'), E'.
      split; [now rewrite <- app_assoc|].
      split; [cbn; now rewrite HF|]. split; [exact HE|].
      constructor; [|exact HP]. split; [reflexivity|]. exists pd. now split.
    + destruct (IH F (E ++ [NoPriceData ts])) as (F' & E' & -> & HF & HE & HP).
      exists F', (NoPriceData ts :: E').
      split; [now rewrite <- app_assoc|].
      split; [exact HF|]. split; [cbn; now rewrite HE | exact HP].
Qed.

(** X18.  Step 5 of the backfill job tries every missing timestamp
    exactly once, in order, and the batching does not change the
    outcome: the loop terminates, the fetched entries are the
    timestamps the upstream priced (each with that price and confidence
    1), the error entries are "No price data" for the others, so the two
    lists together account for every missing timestamp; the "Error
    fetching price" branch is never taken, because [getTokenPrice]
    catches its own errors. *)
Theorem fetch_loop_partitions
        (env : Env) (token network : string) (missingTimestamps : list string) :
  exists fetchedPrices errors,
    fetchMissing env token network missingTimestamps = Some (fetchedPrices, errors)
    /\ map fp_date fetchedPrices = List.filter (priced env token network) missingTimestamps
    /\ errors = map NoPriceData
                  (List.filter (fun ts => negb (priced env token network ts))
                     missingTimestamps)
    /\ Forall (fun fp =>
                 fp_confidence fp = Fin 1
                 /\ exists pd,
                      Alchemy.getTokenPrice env token network (fp_date fp)
                      = Return (Some pd)
                      /\ fp_price fp = Alchemy.price pd) fetchedPrices
    /\ (length fetchedPrices + length errors = length missingTimestamps)%nat.
Proof.
  destruct (batches_concat missingTimestamps) as (bs & Hbs & Hcat).
  destruct (fetch_pass env token network missingTimestamps [] [])
    as (F & E & Hfold & HF & HE & HP).
  exists F, E. split.
  - unfold fetchMissing. rewrite Hbs. cbn.
    unfold fetch_batch. now rewrite fold_left_concat, Hcat, Hfold.
  - split; [exact HF|]. split; [exact HE|]. split; [exact HP|].
    rewrite <- (length_map fp_date F), HF, HE, length_map.
    clear. induction missingTimestamps as [|ts l IH]; cbn; [reflexivity|].
    destruct (priced env token network ts); cbn; lia.
Qed.

End FetchLoop.

(* ===================================================================== *)
(** * The range read of the store                                         *)
(* ===================================================================== *)

Module RangeRead.
Import JS Mongo StoreQueries.

Lemma Math_floor_seconds (ms : Z) : Math_floor (inject_Z ms / 1000) = ms / 1000.
Proof. unfold Math_floor, Qfloor. cbn. f_equal. lia. Qed.

Lemma In_insert_sorted d x l : In x (insert_sorted d l) <-> x = d \/ In x l.
Proof.
  induction l as [|y r IH]; cbn; [intuition|].
  destruct (timestamp d <? timestamp y); cbn; [intuition|].
  rewrite IH. intuition.
Qed.

Lemma ascending_insert_sorted d l : ascending l -> ascending (insert_sorted d l).
Proof.
  induction l as [|y r IH]; cbn; [intros _; split; [constructor | exact I]|].
  intros [Hy Hr]. destruct (timestamp d <? timestamp y) eqn:E.
  - apply Z.ltb_lt in E. cbn. split; [|split; assumption].
    constructor; [lia|]. rewrite List.Forall_forall in Hy |- *.
    intros x Hx. specialize (Hy x Hx). lia.
  - apply Z.ltb_ge in E. cbn. split; [|now apply IH].
    rewrite List.Forall_forall in Hy |- *. intros x Hx.
    apply In_insert_sorted in Hx as [-> | Hx]; [exact E | now apply Hy].
Qed.

Lemma length_insert_sorted d l : length (insert_sorted d l) = S (length l).
Proof.
  induction l as [|y r IH]; cbn; [reflexivity|].
  destruct (timestamp d <? timestamp y); cbn; [reflexivity | now rewrite IH].
Qed.

Lemma sort_asc_from l : forall acc,
  ascending acc ->
  let sorted := fold_left (fun acc d => insert_sorted d acc) l acc in
  ascending sorted
  /\ (forall x, In x sorted <-> In x acc \/ In x l)
  /\ length sorted = (length acc + length l)%nat.
Proof.
  induction l as [|d l IH]; intros acc Hacc; cbn.
  - split; [exact Hacc|]. split; [intuition | lia].
  - destruct (IH (insert_sorted d acc) (ascending_insert_sorted d acc Hacc))
      as (Hs & Hin & Hlen).
    split; [exact Hs|]. split.
    + intros x. rewrite Hin, In_insert_sorted. intuition.
    + rewrite Hlen, length_insert_sorted. lia.
Qed.

(** X19.  With the connection ready, [getPriceHistory] returns exactly
    the records of the series (token upper-cased, network lower-cased)
    whose unix timestamp lies between the whole seconds of the two dates,
    both ends included, each once, in ascending order of timestamp. *)
Theorem getPriceHistory_returns_the_range
        (st : State) (token network : string) (startDate endDate : Z) :
  connection_ready st = true ->
  exists result,
    getPriceHistory st token network startDate endDate = Return result
    /\ (forall d, In d result <->
                  in_series st token network d
                  /\ startDate / 1000 <= timestamp d <= endDate / 1000)
    /\ ascending result
    /\ length result
       = length (List.filter
                   (fun d => same_series (toUpperCase token) (toLowerCase network) d
                             && (startDate / 1000 <=? timestamp d)
                             && (timestamp d <=? endDate / 1000)) (docs st)).
Proof.
  intros Hready. unfold getPriceHistory, Price_find_range. rewrite Hready.
  rewrite !Math_floor_seconds. eexists. split; [reflexivity|].
  unfold sort_asc.
  match goal with
  | |- context [fold_left _ ?l []] =>
      destruct (sort_asc_from l [] I) as (Hs & Hin & Hlen)
  end.
  cbv zeta in Hs, Hin, Hlen.
  split; [|split; [exact Hs | exact Hlen]].
  intros d. rewrite Hin, filter_In, !andb_true_iff, same_series_true,
    Z.leb_le, Z.leb_le. unfold in_series. cbn [In]. intuition.
Qed.

Lemma getPriceHistory_returns_the_range_witness :
  exists result,
    getPriceHistory Fixtures.eth_store "eth" "Ethereum"
      (Fixtures.jan1 * 1000 + 999) (Fixtures.jan3 * 1000 + 999) = Return result
    /\ (forall d, In d result <->
                  in_series Fixtures.eth_store "eth" "Ethereum" d
                  /\ (Fixtures.jan1 * 1000 + 999) / 1000 <= timestamp d
                     <= (Fixtures.jan3 * 1000 + 999) / 1000)
    /\ ascending result
    /\ length result
       = length (List.filter
                   (fun d => same_series (toUpperCase "eth") (toLowerCase "Ethereum") d
                             && ((Fixtures.jan1 * 1000 + 999) / 1000 <=? timestamp d)
                             && (timestamp d <=? (Fixtures.jan3 * 1000 + 999) / 1000))
                   (docs Fixtures.eth_store)).
Proof.
  apply (getPriceHistory_returns_the_range Fixtures.eth_store "eth" "Ethereum").
  reflexivity.
Defined.

End RangeRead.

(* ===================================================================== *)
(** * Step 6 of the backfill worker                                       *)
(* ===================================================================== *)

Module BackfillInterpolation.
Import JS Mongo Interpolation Worker StoreQueries.

(** No record of the series at or after the target: nothing to
    interpolate towards. *)
Lemma interpolatePrice_after_last st token network q :
  (forall d, in_series st token network d -> timestamp d < q) ->
  interpolatePrice st token network q = Return None.
Proof.
  intros Hlast. unfold interpolatePrice.
  destruct (isReady st) eqn:Hready.
  - rewrite (findClosestPrices_ready _ _ _ _ Hready). cbn [bind try_catch].
    pose proof (after_spec st token network q) as Ha.
    destruct (first_by older _) as [a|].
    + destruct Ha as (Hin & Hq & _). specialize (Hlast a Hin). lia.
    + now destruct (first_by newer _).
  - now rewrite (findClosestPrices_not_ready _ _ _ _ Hready).
Qed.

Lemma batch_after_last st token network targets :
  Forall (fun q => forall d, in_series st token network d -> timestamp d < q) targets ->
  awaitAll (batchInterpolatePrice st token network targets)
  = Return (map (fun _ => None) targets).
Proof.
  induction 1 as [|q targets Hq _ IH]; cbn; [reflexivity|].
  now rewrite (interpolatePrice_after_last _ _ _ _ Hq), IH.
Qed.

Lemma omap_all_None {A B} (l : list B) :
  omap id (map (fun _ => @None A) l) = [].
Proof. induction l as [|x l IH]; cbn; [reflexivity | exact IH]. Qed.

(** X20.  Step 6 of the backfill job adds nothing over a store keyed by
    unix seconds.  The job hands [batchInterpolatePrice] the targets in
    milliseconds while the records carry seconds, so whenever every
    record of the series has a timestamp below the time values of the
    grid (as seconds are below milliseconds for any date after January
    1970), every interpolation returns null and no entry is appended,
    whichever prices were fetched and whichever are missing. *)
Theorem backfill_interpolation_adds_nothing
        (env : Env) (st : State) (token network : string)
        (timestamps : list string) (fetchedPrices : list FetchedPrice)
        (errors : list FetchError) (bound : Z) :
  (forall d, in_series st token network d -> timestamp d <= bound) ->
  Forall (fun ts => exists t, Date_parse env ts = Some t /\ bound < t) timestamps ->
  interpolateMissing env st token network timestamps fetchedPrices errors
  = Some (Return []).
Proof.
  intros Hstore Hgrid. unfold interpolateMissing.
  destruct ((0 <? length errors)%nat && (0 <? length fetchedPrices)%nat); [|reflexivity].
  assert (Hmissing : Forall (fun ts => exists t, Date_parse env ts = Some t /\ bound < t)
                       (unfetched timestamps fetchedPrices)).
  { rewrite List.Forall_forall in Hgrid |- *. intros ts Hin.
    apply filter_In in Hin as [Hin _]. now apply Hgrid. }
  destruct (mapM (Date_parse env) (unfetched timestamps fetchedPrices))
    as [targets|] eqn:Hparse.
  - apply mapM_Some in Hparse.
    assert (Htargets : Forall (fun q => forall d, in_series st token network d ->
                                                  timestamp d < q) targets).
    { clear -Hparse Hmissing Hstore.
      induction Hparse as [|ts t l k Ht _ IH]; [constructor|].
      apply Forall_cons in Hmissing as [(t' & Ht' & Hlt) Hrest].
      constructor; [|now apply IH].
      intros d Hd. specialize (Hstore d Hd).
      rewrite Ht in Ht'. injection Ht' as <-. lia. }
    rewrite (batch_after_last _ _ _ _ Htargets). cbn [bind].
    now rewrite omap_all_None.
  - exfalso. apply mapM_None in Hparse.
    apply Exists_exists in Hparse as (ts & Hin & Hnone).
    rewrite List.Forall_forall in Hmissing.
    destruct (Hmissing ts) as (t & Ht & _); [now apply list_elem_of_In|]. congruence.
Qed.

Lemma backfill_interpolation_adds_nothing_witness :
  interpolateMissing (Fixtures.env_status 404) Fixtures.eth_store "ETH" "ethereum"
    ["2024-01-01T00:00:00Z"; "2024-01-02T00:00:00Z"; "2024-01-03T00:00:00Z"]
    [{| fp_date := "2024-01-01T00:00:00Z"; fp_price := Fin 2000; fp_confidence := Fin 1 |}]
    [NoPriceData "2024-01-02T00:00:00Z"; NoPriceData "2024-01-03T00:00:00Z"]
  = Some (Return []).
Proof.
  apply (backfill_interpolation_adds_nothing (Fixtures.env_status 404)
           Fixtures.eth_store "ETH" "ethereum" _ _ _ Fixtures.jan3).
  - intros d (Hin & _). cbn in Hin.
    destruct Hin as [<- | [<- | []]]; vm_compute; discriminate.
  - repeat constructor; eexists; (split; [reflexivity | reflexivity]).
Defined.

End BackfillInterpolation.

(* ===================================================================== *)
(** * The history route                                                   *)
(* ===================================================================== *)

Module HistoryFacts.
Import JS HistoryRoute.

Lemma getIntervalMs_pos interval : 60000 <= getIntervalMs interval.
Proof. unfold getIntervalMs. cbv zeta. repeat destruct (String.eqb _ _); lia. Qed.

(** What the handler pushes for the instant [t]. *)
Lemma history_loop_past env token network interval e t :
  e < t -> history_loop env token network interval e (Some t) = Return [].
Proof.
  intros H. rewrite history_loop_equation_1.
  destruct (Z_le_dec t e); [lia | apply history_loop_clause_2_equation_2].
Qed.

Lemma history_loop_step env token network interval e t :
  t <= e ->
  history_loop env token network interval e (Some t)
  = let* priceData := Alchemy.getTokenPrice env token network (toISOString env t) in
    let* rest := history_loop env token network interval e
                   (TokenUtils.TimeClip (t + getIntervalMs interval)) in
    Return (match priceData with
            | Some pd => {| h_timestamp := toISOString env t;
                            h_price := Alchemy.price pd |} :: rest
            | None => rest
            end).
Proof.
  intros H. rewrite history_loop_equation_1.
  destruct (Z_le_dec t e); [apply history_loop_clause_2_equation_1 | lia].
Qed.

Lemma history_loop_grid env token network interval e (n : nat) : forall f,
  - TokenUtils.maxTime <= f ->
  e <= TokenUtils.maxTime ->
  f + Z.of_nat n * getIntervalMs interval <= e
  < f + (Z.of_nat n + 1) * getIntervalMs interval ->
  history_loop env token network interval e (Some f)
  = Return
      (omap (fun t =>
               match Alchemy.getTokenPrice env token network (toISOString env t) with
               | Return (Some pd) => Some {| h_timestamp := toISOString env t;
                                             h_price := Alchemy.price pd |}
               | _ => None
               end)
            (map (fun i => f + Z.of_nat i * getIntervalMs interval) (seq 0 (S n)))).
Proof.
  pose proof (getIntervalMs_pos interval) as Hpos.
  induction n as [|n IH]; intros f Hlo Hhi Hn.
  - rewrite history_loop_step by lia.
    cbn [seq map omap list_omap].
    replace (f + Z.of_nat 0 * getIntervalMs interval) with f by lia.
    destruct (ResolverSteps.getTokenPrice_returns env token network (toISOString env f))
      as [priceData Hprice].
    rewrite Hprice. cbn [bind].
    assert (Hrest : history_loop env token network interval e
                      (TokenUtils.TimeClip (f + getIntervalMs interval)) = Return []).
    { unfold TokenUtils.TimeClip.
      destruct (Z.abs (f + getIntervalMs interval) <=? TokenUtils.maxTime);
        [apply history_loop_past; lia | apply history_loop_equation_2]. }
    rewrite Hrest. cbn [bind]. now destruct priceData.
  - rewrite history_loop_step by lia.
    destruct (ResolverSteps.getTokenPrice_returns env token network (toISOString env f))
      as [priceData Hprice].
    rewrite Hprice. cbn [bind].
    rewrite GridFacts.TimeClip_in_range by (unfold TokenUtils.maxTime in *; lia).
    rewrite IH by lia. cbn [bind].
    change (seq 0 (S (S n))) with (0%nat :: seq 1 (S n)).
    cbn [map omap list_omap].
    replace (f + Z.of_nat 0 * getIntervalMs interval) with f by lia.
    rewrite Hprice.
    assert (Hshift : map (fun i => f + Z.of_nat i * getIntervalMs interval) (seq 1 (S n))
                     = map (fun i => f + getIntervalMs interval
                                     + Z.of_nat i * getIntervalMs interval) (seq 0 (S n))).
    { rewrite <- seq_shift, map_map. apply map_ext. intros i. lia. }
    rewrite Hshift. now destruct priceData.
Qed.

(** X21.  GET /api/price/history asks the upstream once for every
    instant from + k * interval that is not after to (k = 0, 1, ...), in
    order, and answers 200 with the instants that were priced; an
    interval it does not know counts as one hour; when to is before from
    the answer is 200 with no prices.  Nothing caps the number of
    upstream calls, which is (to - from) / interval + 1. *)
Theorem history_walks_the_interval_grid
        (env : Env) (token network from to : string) (interval : option string)
        (f e : Z) :
  token <> EmptyString -> network <> EmptyString ->
  from <> EmptyString -> to <> EmptyString ->
  Date_parse env from = Some f ->
  Date_parse env to = Some e ->
  - TokenUtils.maxTime <= f ->
  e <= TokenUtils.maxTime ->
  let intervalMs := getIntervalMs (default "1h" interval) in
  let grid := map (fun k => f + Z.of_nat k * intervalMs)
                  (seq 0 (Z.to_nat ((e - f) / intervalMs + 1))) in
  getPriceHistory env (Some token) (Some network) (Some from) (Some to) interval
  = History token network (from +:+ " to " +:+ to) (default "1h" interval)
      (omap (fun t =>
               match Alchemy.getTokenPrice env token network (toISOString env t) with
               | Return (Some pd) => Some {| h_timestamp := toISOString env t;
                                             h_price := Alchemy.price pd |}
               | _ => None
               end) grid)
  /\ (60000 <= intervalMs)
  /\ (forall name, interval = Some name ->
        ~ In (toLowerCase name) ["1m"; "5m"; "15m"; "30m"; "1h"; "4h"; "1d"] ->
        intervalMs = 3600000).
Proof.
  intros Htoken Hnetwork Hfrom Hto Hf He Hlo Hhi intervalMs grid.
  pose proof (getIntervalMs_pos (default "1h" interval)) as Hpos. fold intervalMs in Hpos.
  split; [|split; [exact Hpos|]].
  - assert (Ht : forall s, s <> EmptyString -> truthy s = true)
      by (intros [|? ?] ?; [contradiction | reflexivity]).
    unfold getPriceHistory, missing. rewrite !Ht by assumption.
    cbn [negb orb default]. cbv zeta. unfold id. rewrite Hf, He. fold intervalMs.
    destruct (Z_le_dec f e) as [Hle | Hgt].
    + set (n := Z.to_nat ((e - f) / intervalMs)).
      assert (Hdiv : 0 <= (e - f) / intervalMs) by (apply Z.div_pos; lia).
      assert (Hn : f + Z.of_nat n * intervalMs <= e
                   < f + (Z.of_nat n + 1) * intervalMs).
      { unfold n. rewrite Z2Nat.id by exact Hdiv.
        pose proof (Z.mul_div_le (e - f) intervalMs ltac:(lia)).
        pose proof (Z.mul_succ_div_gt (e - f) intervalMs ltac:(lia)).
        lia. }
      rewrite (history_loop_grid _ _ _ _ _ n f Hlo Hhi Hn).
      unfold grid.
      replace (Z.to_nat ((e - f) / intervalMs + 1)) with (S n)
        by (unfold n; lia).
      reflexivity.
    + rewrite history_loop_past by lia.
      unfold grid.
      assert ((e - f) / intervalMs < 0) by (apply Z.div_lt_upper_bound; lia).
      replace (Z.to_nat ((e - f) / intervalMs + 1)) with 0%nat by lia.
      reflexivity.
  - intros name -> Hnot. unfold intervalMs. cbn [default].
    unfold getIntervalMs, id. cbv zeta. cbn [In] in Hnot.
    repeat match goal with
           | |- context [String.eqb ?a ?b] =>
               destruct (String.eqb a b) eqn:E;
                 [apply String.eqb_eq in E; symmetry in E; tauto | clear E]
           end.
    reflexivity.
Qed.

Lemma history_walks_the_interval_grid_witness :
  let env := Fixtures.env_status 404 in
  let intervalMs := getIntervalMs (default "1h" (Some "1d")) in
  let grid := map (fun k => Fixtures.jan1 * 1000 + Z.of_nat k * intervalMs)
                  (seq 0 (Z.to_nat ((Fixtures.jan3 * 1000 - Fixtures.jan1 * 1000)
                                    / intervalMs + 1))) in
  getPriceHistory env (Some "ETH") (Some "ethereum") (Some "2024-01-01T00:00:00Z")
    (Some "2024-01-03T00:00:00Z") (Some "1d")
  = History "ETH" "ethereum" ("2024-01-01T00:00:00Z" +:+ " to " +:+ "2024-01-03T00:00:00Z")
      (default "1h" (Some "1d"))
      (omap (fun t =>
               match Alchemy.getTokenPrice env "ETH" "ethereum" (toISOString env t) with
               | Return (Some pd) => Some {| h_timestamp := toISOString env t;
                                             h_price := Alchemy.price pd |}
               | _ => None
               end) grid)
  /\ (60000 <= intervalMs)
  /\ (forall name, Some "1d" = Some name ->
        ~ In (toLowerCase name) ["1m"; "5m"; "15m"; "30m"; "1h"; "4h"; "1d"] ->
        intervalMs = 3600000).
Proof.
  cbv zeta.
  apply (history_walks_the_interval_grid (Fixtures.env_status 404) "ETH" "ethereum"
           "2024-01-01T00:00:00Z" "2024-01-03T00:00:00Z" (Some "1d")
           (Fixtures.jan1 * 1000) (Fixtures.jan3 * 1000));
    try discriminate; try reflexivity; vm_compute; discriminate.
Defined.

End HistoryFacts.

(* ===================================================================== *)
(** * From the upstream to the store                                      *)
(* ===================================================================== *)

Module WriteThrough.
Import JS Http PriceRoute StoreQueries.

Lemma createPrice_inserts m data d :
  Mongo.schema_cast data = Some d ->
  Qle_bool 0 (Mongo.price d) = true ->
  Mongo.connection_ready m = true ->
  Mongo.duplicate_key (Mongo.docs m) d = false ->
  Mongo.createPrice m data
  = (Return d, {| Mongo.isConnected := Mongo.isConnected m;
                  Mongo.readyState := Mongo.readyState m;
                  Mongo.docs := Mongo.docs m ++ [d] |}).
Proof.
  intros Hcast Hprice Hready Hdup. unfold Mongo.createPrice, Mongo.Price_save.
  now rewrite Hcast, Hprice, Hready, Hdup.
Qed.

(** A point lookup that found nothing on a ready store: the key is free. *)
Lemma findPriceByTimestamp_None m token network ts d :
  Mongo.isReady m = true ->
  Mongo.findPriceByTimestamp m token network ts = Return None ->
  Mongo.token d = toUpperCase token ->
  Mongo.network d = toLowerCase network ->
  Mongo.timestamp d = ts ->
  Mongo.duplicate_key (Mongo.docs m) d = false.
Proof.
  intros Hready Hfind Htok Hnet Hts.
  unfold Mongo.findPriceByTimestamp, Mongo.Price_findOne in Hfind.
  rewrite Hready, (isReady_connection _ Hready) in Hfind. cbn in Hfind.
  injection Hfind as Hfind.
  unfold Mongo.duplicate_key. rewrite Htok, Hnet, Hts.
  destruct (existsb _ (Mongo.docs m)) eqn:E; [|reflexivity].
  apply existsb_exists in E as (x & Hin & Hx).
  pose proof (find_none _ _ Hfind x Hin) as Hnone. cbn in Hnone. congruence.
Qed.

(** X22.  An upstream price is written through, and the next request for
    the same second is served from the store.  On a ready store that has
    no record for the requested second, when the upstream prices the
    token at p >= 0 the handler answers 200 with p and source "alchemy";
    a second call for the same request then answers 200 from the store,
    without calling the upstream, with the same price, source and
    timestamp string, the token upper-cased and the network
    lower-cased. *)
Theorem upstream_price_is_written_through
        (env env' : Env) (req : Request) (w : World) (ms : Z)
        (pd : Alchemy.AlchemyPriceData) (p : Q) :
  accepted env req ms ->
  accepted env' req ms ->
  Mongo.isReady (mongo w) = true ->
  Mongo.findPriceByTimestamp (mongo w) (token req) (network req) (unixTimestamp_of ms)
  = Return None ->
  Alchemy.getTokenPrice env (token req) (network req) (requestedTimestamp env req)
  = Return (Some pd) ->
  Alchemy.price pd = Fin p ->
  (0 <= p)%Q ->
  exists w1,
    getPrice env req w
    = (Return (price_response (json_of_number (Fin p)) "alchemy"
                 (requestedTimestamp env req) (token req) (network req)), w1)
    /\ getPrice env' req w1
       = (Return (price_response (json_of_number (Fin p)) "alchemy"
                    (requestedTimestamp env req)
                    (toUpperCase (token req)) (toLowerCase (network req))),
          logged w1 StoreRead)
    /\ Mongo.docs (mongo w1)
       = Mongo.docs (mongo w)
         ++ [{| Mongo.token := toUpperCase (token req);
                Mongo.network := toLowerCase (network req);
                Mongo.date := requestedTimestamp env req;
                Mongo.timestamp := unixTimestamp_of ms;
                Mongo.price := p;
                Mongo.source := Mongo.alchemy |}].
Proof.
  intros Hacc Hacc' Hready Hnone Hup Hprice Hp.
  set (d := {| Mongo.token := toUpperCase (token req);
               Mongo.network := toLowerCase (network req);
               Mongo.date := requestedTimestamp env req;
               Mongo.timestamp := unixTimestamp_of ms;
               Mongo.price := p;
               Mongo.source := Mongo.alchemy |}).
  set (data := writeThrough (token req) (network req) (requestedTimestamp env req)
                 (unixTimestamp_of ms) (Alchemy.price pd) Mongo.alchemy).
  assert (Hecho : Alchemy.timestamp pd = requestedTimestamp env req).
  { unfold Alchemy.getTokenPrice in Hup.
    destruct (negb _); [discriminate|].
    destruct (Alchemy.fetchRealTokenPrice _ _ _ _) as [[x|]|e]; cbn in Hup;
      try discriminate.
    now injection Hup as <-. }
  assert (Hcast : Mongo.schema_cast data = Some d).
  { unfold Mongo.schema_cast, data, writeThrough. cbn. rewrite Hprice.
    unfold d. now rewrite toUpperCase_idem, toLowerCase_idem. }
  assert (Hdup : Mongo.duplicate_key (Mongo.docs (mongo w)) d = false)
    by now apply (findPriceByTimestamp_None _ (token req) (network req)
                    (unixTimestamp_of ms)).
  pose proof (createPrice_inserts (mongo w) data d Hcast
                (proj2 (Qle_bool_iff 0 p) Hp) (isReady_connection _ Hready) Hdup)
    as Hcreate.
  destruct (ResolverFacts.getPrice_resolved env req w ms data
              (price_response (json_of_number (Alchemy.price pd)) "alchemy"
                 (Alchemy.timestamp pd) (token req) (network req)) Hacc Hnone)
    as (w1 & Hfirst & Hmongo & _).
  { apply from_upstream. exact Hup. }
  rewrite Hcreate in Hmongo. cbn [snd] in Hmongo.
  rewrite Hprice, Hecho in Hfirst.
  exists w1. split; [exact Hfirst|]. split; [|now rewrite Hmongo].
  assert (Hfound : Mongo.findPriceByTimestamp (mongo w1) (token req) (network req)
                     (unixTimestamp_of ms) = Return (Some d)).
  { rewrite Hmongo.
    unfold Mongo.findPriceByTimestamp, Mongo.isReady, Mongo.Price_findOne,
      Mongo.connection_ready in *.
    cbn [Mongo.isConnected Mongo.readyState Mongo.docs]. rewrite Hready.
    apply andb_true_iff in Hready as [_ Hr]. rewrite Hr. cbn [negb try_catch].
    rewrite (find_app_fresh _ (Mongo.docs (mongo w)) d); [reflexivity | exact Hdup |].
    apply andb_true_iff. split; [now apply same_series_true | apply Z.eqb_refl]. }
  rewrite (ResolverSteps.getPrice_stored env' req w1 ms d Hacc' Hfound). reflexivity.
Qed.

Lemma upstream_price_is_written_through_witness :
  let req := Fixtures.price_request "eth" "ethereum" "2025-06-15T11:00:00Z" in
  let w := Fixtures.world Fixtures.eth_store Fixtures.no_cache in
  exists w1,
    getPrice Fixtures.env_quote req w
    = (Return (price_response (json_of_number (Fin (9900 # 100))) "alchemy"
                 (requestedTimestamp Fixtures.env_quote req) (token req) (network req)),
       w1)
    /\ getPrice Fixtures.env_offline req w1
       = (Return (price_response (json_of_number (Fin (9900 # 100))) "alchemy"
                    (requestedTimestamp Fixtures.env_quote req)
                    (toUpperCase (token req)) (toLowerCase (network req))),
          logged w1 StoreRead)
    /\ Mongo.docs (mongo w1)
       = Mongo.docs (mongo w)
         ++ [{| Mongo.token := toUpperCase (token req);
                Mongo.network := toLowerCase (network req);
                Mongo.date := requestedTimestamp Fixtures.env_quote req;
                Mongo.timestamp := unixTimestamp_of (Fixtures.noon_2025 - 3600000);
                Mongo.price := 9900 # 100;
                Mongo.source := Mongo.alchemy |}].
Proof.
  cbv zeta.
  apply (upstream_price_is_written_through Fixtures.env_quote Fixtures.env_offline
           (Fixtures.price_request "eth" "ethereum" "2025-06-15T11:00:00Z")
           (Fixtures.world Fixtures.eth_store Fixtures.no_cache)
           (Fixtures.noon_2025 - 3600000)
           {| Alchemy.price := Fin (9900 # 100);
              Alchemy.timestamp := "2025-06-15T11:00:00Z" |}).
  - repeat split; try reflexivity. vm_compute. discriminate.
  - repeat split; try reflexivity. vm_compute. discriminate.
  - reflexivity.
  - reflexivity.
  - reflexivity.
  - reflexivity.
  - vm_compute. discriminate.
Defined.

End WriteThrough.
